(** * OpenCorr: FFT-CC and IC-GN estimators

    A shallow embedding of [src/oc_icgn.cpp] (ICGN2D1, ICGN2D2, ICGN3D1) and
    of the FFT-CC part of [samples/test_2d_dic_fftcc_icgn1.cpp] (FFTW,
    FFTCC2D, FFTCC3D), with the properties of the estimators proved over
    it.

    Number model.
    - [int] is a 32-bit two's complement integer: a [Z] with the wrap-around
      of every arithmetic operation written out ([Int.add], [Int.sub],
      [Int.mul]); [%] and [/] truncate toward zero ([Z.rem], [Z.quot]).
    - [float] is idealised: a finite value is a real number ([Fin r]) and
      arithmetic on finite values is exact.  The one special value kept is
      [NaN], because the code tests for it ([std::isnan]) and because every
      comparison with it is false, which decides how the loops of the code
      leave.  Results that are no real number (division by zero, root of a
      negative number) are [NaN]; rounding and infinities are not modelled.
    - Collaborators whose code is not in the two files (subsets,
      gradients, B-spline interpolation, Eigen's inverse and product, the
      plans of FFTW, the deformation classes) are records of functions
      that the estimators take as parameters. *)

From Stdlib Require Import String ZArith List Bool Lia Reals Lra.
Import ListNotations.

Local Open Scope Z_scope.

(** ** 32-bit [int] *)

Module Int.

Definition min_signed : Z := - 2147483648.
Definition max_signed : Z := 2147483647.
Definition modulus : Z := 4294967296.

(** The value an [int] register holds after an operation whose
    mathematical result is [z]. *)
Definition wrap (z : Z) : Z := (z - min_signed) mod modulus + min_signed.

Definition in_range (z : Z) : Prop := min_signed <= z <= max_signed.

Definition add (a b : Z) : Z := wrap (a + b).
Definition sub (a b : Z) : Z := wrap (a - b).
Definition mul (a b : Z) : Z := wrap (a * b).

End Int.

(** ** Idealised [float] *)

Inductive float : Type :=
| NaN : float
| Fin : R -> float.

Module F.

Definition isnan (a : float) : bool :=
  match a with NaN => true | Fin _ => false end.

(** Conversion [(float) n] of an [int]. *)
Definition of_int (n : Z) : float := Fin (IZR n).

Definition lift2 (op : R -> R -> R) (a b : float) : float :=
  match a, b with
  | Fin x, Fin y => Fin (op x y)
  | _, _ => NaN
  end.

Definition add : float -> float -> float := lift2 Rplus.
Definition sub : float -> float -> float := lift2 Rminus.
Definition mul : float -> float -> float := lift2 Rmult.

Definition div (a b : float) : float :=
  match a, b with
  | Fin x, Fin y => if Req_dec_T y 0 then NaN else Fin (x / y)
  | _, _ => NaN
  end.

Definition sqrt (a : float) : float :=
  match a with
  | Fin x => if Rlt_dec x 0 then NaN else Fin (R_sqrt.sqrt x)
  | NaN => NaN
  end.

(** Comparisons: false as soon as one side is [NaN]. *)
Definition ltb (a b : float) : bool :=
  match a, b with
  | Fin x, Fin y => if Rlt_dec x y then true else false
  | _, _ => false
  end.

Definition leb (a b : float) : bool :=
  match a, b with
  | Fin x, Fin y => if Rle_dec x y then true else false
  | _, _ => false
  end.

Definition gtb (a b : float) : bool := ltb b a.
Definition geb (a b : float) : bool := leb b a.

(** Conversion [(int) a]: truncation toward zero.  The conversion of a
    [NaN] is undefined in C++; the model gives it the value [cvttss2si]
    produces. *)
Definition to_int (a : float) : Z :=
  match a with
  | NaN => Int.min_signed
  | Fin x => if Rle_dec 0 x then Int.wrap (up x - 1)%Z
             else Int.wrap (- (up (- x) - 1))%Z
  end.

End F.

(** ** Control: outcomes, the scratch pool, the do-while loop *)

(** How a call ends.  [compute] works on the POI in place, so a call is a
    function from the POI before to the POI after, paired with its
    [status]. *)
Inductive status : Type :=
| Returned : status                (* normal return *)
| Thrown : string -> status        (* [throw std::string(...)] left the call *)
| Undefined : status               (* a vector was read outside its extent *)
| OutOfFuel : status.              (* the loop did not finish within the fuel *)

(** What [getInstance] hands back. *)
Inductive fetched (Inst : Type) : Type :=
| Got : Inst -> fetched Inst
| Raise : string -> fetched Inst
| OutOfBounds : fetched Inst.

Arguments Got {Inst} _.
Arguments Raise {Inst} _.
Arguments OutOfBounds {Inst}.

(** The message of the exception. *)
Definition over_limit : string :=
  "CPU thread ID over limit"%string.

Section Pool.

Context {Inst : Type}.

(** [(int)instance_pool.size()] *)
Definition pool_size (instance_pool : list Inst) : Z :=
  Int.wrap (Z.of_nat (length instance_pool)).

(** The body shared by the [getInstance] of every estimator:
<<
    if (tid >= (int)instance_pool.size()) throw std::string("CPU thread ID over limit");
    return instance_pool[tid];
>>
    [operator[]] is unchecked: a negative [tid] passes the test and reads
    outside the vector. *)
Definition pool_getInstance (instance_pool : list Inst) (tid : Z) : fetched Inst :=
  if tid >=? pool_size instance_pool then Raise over_limit
  else if tid <? 0 then OutOfBounds
  else match nth_error instance_pool (Z.to_nat tid) with
       | Some inst => Got inst
       | None => OutOfBounds
       end.

(** The constructors' loop
<<
    for (int i = 0; i < thread_number; i++) instance_pool.push_back(allocate(...));
>>
    [allocate i] is the instance created in pass [i]. *)
Definition pool_fill (allocate : nat -> Inst) (thread_number : Z) : list Inst :=
  map allocate (seq 0 (Z.to_nat thread_number)).

End Pool.

Section DoWhile.

Context {S : Type}.
Variable body : S -> S.
Variable continue : S -> bool.

(** [do { body } while (continue);] with a bound on the number of passes:
    [None] when the bound is reached before the test fails. *)
Fixpoint do_while (fuel : nat) (s : S) : option S :=
  match fuel with
  | O => None
  | Datatypes.S fuel' =>
      let s' := body s in
      if continue s' then do_while fuel' s' else Some s'
  end.

(** The state after [n] passes through the body. *)
Fixpoint passes (n : nat) (s : S) : S :=
  match n with
  | O => s
  | Datatypes.S n' => passes n' (body s)
  end.

End DoWhile.

(** [for (int i = 0; i < n; i++)]: the values [i] takes. *)
Definition range (n : Z) : list Z := map Z.of_nat (seq 0 (Z.to_nat n)).

(** ** Geometry, POIs, images *)

Module Point2D.
Record t : Type := mk { x : float; y : float }.
(** Modelled from the spec: [operator+] of [oc_point.cpp], the "point
    addition" of the spec. *)
Definition add (p q : t) : t := mk (F.add (x p) (x q)) (F.add (y p) (y q)).
End Point2D.

Module Point3D.
Record t : Type := mk { x : float; y : float; z : float }.
(** Modelled from the spec: [operator+] of [oc_point.cpp]. *)
Definition add (p q : t) : t :=
  mk (F.add (x p) (x q)) (F.add (y p) (y q)) (F.add (z p) (z q)).
End Point3D.

Module DeformationVector2D.
Record t : Type := mk {
  u : float; ux : float; uy : float; uxx : float; uxy : float; uyy : float;
  v : float; vx : float; vy : float; vxx : float; vxy : float; vyy : float }.
End DeformationVector2D.

Module Result2D.
Record t : Type := mk {
  u0 : float; v0 : float; zncc : float; iteration : float; convergence : float }.
Definition with_zncc (r : t) (a : float) : t :=
  mk (u0 r) (v0 r) a (iteration r) (convergence r).
End Result2D.

Module POI2D.
(** [class POI2D : public Point2D] *)
Record t : Type := mk {
  x : float; y : float;
  deformation : DeformationVector2D.t;
  result : Result2D.t }.
(** [(Point2D)*poi] *)
Definition point (poi : t) : Point2D.t := Point2D.mk (x poi) (y poi).
End POI2D.

Module DeformationVector3D.
Record t : Type := mk {
  u : float; ux : float; uy : float; uz : float;
  v : float; vx : float; vy : float; vz : float;
  w : float; wx : float; wy : float; wz : float }.
End DeformationVector3D.

Module Result3D.
Record t : Type := mk {
  u0 : float; v0 : float; w0 : float;
  zncc : float; iteration : float; convergence : float }.
Definition with_zncc (r : t) (a : float) : t :=
  mk (u0 r) (v0 r) (w0 r) a (iteration r) (convergence r).
End Result3D.

Module POI3D.
Record t : Type := mk {
  x : float; y : float; z : float;
  deformation : DeformationVector3D.t;
  result : Result3D.t }.
Definition point (poi : t) : Point3D.t := Point3D.mk (x poi) (y poi) (z poi).
End POI3D.

Module Image2D.
(** [eg_mat r c] is the unchecked [eg_mat(r, c)]. *)
Record t : Type := mk { width : Z; height : Z; eg_mat : Z -> Z -> float }.
End Image2D.

Module Image3D.
(** [vol_mat z y x] is [vol_mat[z][y][x]]. *)
Record t : Type := mk {
  dim_x : Z; dim_y : Z; dim_z : Z; vol_mat : Z -> Z -> Z -> float }.
End Image3D.

(** ** Collaborators

    Code of the library that the two files call but do not contain.  Each
    is a field of a record that the estimators take as a parameter. *)

Definition matrix : Type := list (list float).

(** [m(i, j)] *)
Definition at2 (m : matrix) (i j : nat) : float := nth j (nth i m []) NaN.

Record Numerics : Type := {
  (** [Subset::zeroMeanNorm()]: the values the subset holds after the call
      and the norm the call returns *)
  zeroMeanNorm : list float -> list float * float;
  (** Eigen's [inverse()] *)
  inverse : matrix -> matrix;
  (** Eigen's matrix product *)
  product : matrix -> matrix -> matrix }.

Record Collaborators2D : Type := {
  (** [Subset2D::fill(image)] for a centre and two radii: the values of
      the subset, row after row *)
  fill2D : Image2D.t -> Point2D.t -> Z -> Z -> list float;
  (** [Gradient2D4::gradient_x(r, c)] and [gradient_y(r, c)] of an image *)
  gradient2D_x : Image2D.t -> Z -> Z -> float;
  gradient2D_y : Image2D.t -> Z -> Z -> float;
  (** [BicubicBspline::compute(point)] on a prepared image *)
  bicubic : Image2D.t -> Point2D.t -> float }.

Record Collaborators3D : Type := {
  fill3D : Image3D.t -> Point3D.t -> Z -> Z -> Z -> list float;
  gradient3D_x : Image3D.t -> Z -> Z -> Z -> float;
  gradient3D_y : Image3D.t -> Z -> Z -> Z -> float;
  gradient3D_z : Image3D.t -> Z -> Z -> Z -> float;
  (** [TricubicBspline::compute(point)] *)
  tricubic : Image3D.t -> Point3D.t -> float }.

(** The deformation classes keep the scalars and a homogeneous warp matrix.
    What builds the matrix, reads the scalars back and applies the map is
    in [oc_deformation.cpp]. *)

Module Deformation2D1.
Record t : Type := mk {
  u : float; ux : float; uy : float;
  v : float; vx : float; vy : float;
  warp_matrix : matrix }.
Record methods : Type := {
  (** [setWarp()]: the matrix of the scalars *)
  setWarp : t -> matrix;
  (** [setDeformation()]: the deformation whose scalars are read back from
      a matrix *)
  setDeformation : matrix -> t;
  (** [warp(point)] *)
  warp : t -> Point2D.t -> Point2D.t }.
(** Modelled from the spec: the constructor of [oc_deformation.cpp] from
    six scalars, which "loads the scalars and rebuilds the warp matrix". *)
Definition new (M : methods) (u ux uy v vx vy : float) : t :=
  mk u ux uy v vx vy (setWarp M (mk u ux uy v vx vy [])).
(** Modelled from the spec: [setDeformation(float p[6])] of
    [oc_deformation.cpp]; the scalars come in the order of the spec's
    vector [(u, ux, uy, v, vx, vy)], which is that of the steepest-descent
    row. *)
Definition setDeformation_p (M : methods) (p : list float) : t :=
  new M (nth 0 p NaN) (nth 1 p NaN) (nth 2 p NaN)
        (nth 3 p NaN) (nth 4 p NaN) (nth 5 p NaN).
End Deformation2D1.

Module Deformation2D2.
Record t : Type := mk {
  u : float; ux : float; uy : float; uxx : float; uxy : float; uyy : float;
  v : float; vx : float; vy : float; vxx : float; vxy : float; vyy : float;
  warp_matrix : matrix }.
Record methods : Type := {
  (** [setDeformation(float p[12])] *)
  setDeformation_p : list float -> t;
  (** [setDeformation(Deformation2D1&)] *)
  setDeformation_1 : Deformation2D1.t -> t;
  (** [setDeformation()] *)
  setDeformation : matrix -> t;
  warp : t -> Point2D.t -> Point2D.t }.
End Deformation2D2.

Module Deformation3D1.
Record t : Type := mk {
  u : float; ux : float; uy : float; uz : float;
  v : float; vx : float; vy : float; vz : float;
  w : float; wx : float; wy : float; wz : float;
  warp_matrix : matrix }.
Record methods : Type := {
  (** [setWarp()] *)
  setWarp : t -> matrix;
  (** [setDeformation(float p[12])] *)
  setDeformation_p : list float -> t;
  (** [setDeformation()] *)
  setDeformation : matrix -> t;
  warp : t -> Point3D.t -> Point3D.t }.
(** Modelled from the spec: the constructor of [oc_deformation.cpp] from
    twelve scalars. *)
Definition new (M : methods) (u ux uy uz v vx vy vz w wx wy wz : float) : t :=
  mk u ux uy uz v vx vy vz w wx wy wz
     (setWarp M (mk u ux uy uz v vx vy vz w wx wy wz [])).
End Deformation3D1.

(** ** The Gauss-Newton pieces the three [compute] share in shape *)

Section GaussNewton.

(** Number of parameters of the shape function: 6 or 12. *)
Variable P : nat.

(** The Hessian after
<<
    hessian.setZero();
    for every point: for i, j < P: hessian(i, j) += sd[i] * sd[j];
>> *)
Definition hessian (sd_img : list (list float)) : matrix :=
  map (fun i =>
    map (fun j =>
      fold_left (fun h sd => F.add h (F.mul (nth i sd NaN) (nth j sd NaN)))
                sd_img (Fin 0))
      (seq 0 P))
    (seq 0 P).

(** [numerator[i] += sd[i] * error] over the points, from [{ 0 }]. *)
Definition numerator (sd_img : list (list float)) (error_img : list float)
  : list float :=
  map (fun i =>
    fold_left (fun n se => F.add n (F.mul (nth i (fst se) NaN) (snd se)))
              (combine sd_img error_img) (Fin 0))
    (seq 0 P).

(** [dp[i] += inv_hessian(i, j) * numerator[j]], from [{ 0 }]. *)
Definition increment (inv_hessian : matrix) (numerator : list float)
  : list float :=
  map (fun i =>
    fold_left (fun d j => F.add d (F.mul (at2 inv_hessian i j) (nth j numerator NaN)))
              (seq 0 P) (Fin 0))
    (seq 0 P).

End GaussNewton.

(** Eigen's [squaredNorm()]. *)
Definition squaredNorm (m : list float) : float :=
  fold_left (fun s e => F.add s (F.mul e e)) m (Fin 0).

(** The literal [0.5f]. *)
Definition half : float := Fin (1 / 2).

(** ** ICGN2D1: DIC, the 1st order shape function *)

Module ICGN2D1_.
(** A scratch instance: [slot] tells the instances of a pool apart (the
    pass of the constructor's loop that allocated it); the buffers are
    sized by the radii.  Every buffer is written before it is read in
    [compute], so no content is carried from one call to the next. *)
Record t : Type := mk { slot : nat; radius_x : Z; radius_y : Z }.
(** [ICGN2D1_::allocate] *)
Definition allocate (subset_radius_x subset_radius_y : Z) (slot : nat) : t :=
  mk slot subset_radius_x subset_radius_y.
End ICGN2D1_.

Module ICGN2D1.

Record t : Type := mk {
  subset_radius_x : Z;
  subset_radius_y : Z;
  conv_criterion : float;
  stop_condition : float;
  thread_number : Z;
  instance_pool : list ICGN2D1_.t;
  ref_img : Image2D.t;
  tar_img : Image2D.t }.

(** The constructor, followed by [setImages(ref_img, tar_img)]. *)
Definition new (subset_radius_x subset_radius_y : Z)
    (conv_criterion stop_condition : float) (thread_number : Z)
    (ref_img tar_img : Image2D.t) : t :=
  mk subset_radius_x subset_radius_y conv_criterion stop_condition thread_number
     (pool_fill (ICGN2D1_.allocate subset_radius_x subset_radius_y) thread_number)
     ref_img tar_img.

Definition getInstance (est : t) (tid : Z) : fetched ICGN2D1_.t :=
  pool_getInstance (instance_pool est) tid.

(** [ICGN2D1::setIteration(float conv_criterion, float stop_condition)] *)
Definition setIteration (est : t) (conv_criterion stop_condition : float) : t :=
  mk (subset_radius_x est) (subset_radius_y est) conv_criterion stop_condition
     (thread_number est) (instance_pool est) (ref_img est) (tar_img est).

(** [ICGN2D1::setIteration(POI2D* poi)]: the count of the POI goes through
    [(int)] on its way to the [float] [stop_condition]. *)
Definition setIteration_poi (est : t) (poi : POI2D.t) : t :=
  setIteration est
    (Result2D.convergence (POI2D.result poi))
    (F.of_int (F.to_int (Result2D.iteration (POI2D.result poi)))).

(** The convergence norm of an increment (lines 223-234). *)
Definition dp_norm (subset_radius_x subset_radius_y : Z)
    (p_increment : Deformation2D1.t) : float :=
  let subset_radius_x2 := Int.mul subset_radius_x subset_radius_x in
  let subset_radius_y2 := Int.mul subset_radius_y subset_radius_y in
  let p := p_increment in
  let dp_norm_max := Fin 0 in
  let dp_norm_max := F.add dp_norm_max
    (F.mul (Deformation2D1.u p) (Deformation2D1.u p)) in
  let dp_norm_max := F.add dp_norm_max
    (F.mul (F.mul (Deformation2D1.ux p) (Deformation2D1.ux p)) (F.of_int subset_radius_x2)) in
  let dp_norm_max := F.add dp_norm_max
    (F.mul (F.mul (Deformation2D1.uy p) (Deformation2D1.uy p)) (F.of_int subset_radius_y2)) in
  let dp_norm_max := F.add dp_norm_max
    (F.mul (Deformation2D1.v p) (Deformation2D1.v p)) in
  let dp_norm_max := F.add dp_norm_max
    (F.mul (F.mul (Deformation2D1.vx p) (Deformation2D1.vx p)) (F.of_int subset_radius_x2)) in
  let dp_norm_max := F.add dp_norm_max
    (F.mul (F.mul (Deformation2D1.vy p) (Deformation2D1.vy p)) (F.of_int subset_radius_y2)) in
  F.sqrt dp_norm_max.

(** The variables of the iteration that live across passes. *)
Record loop : Type := mkloop {
  iteration : Z;
  p_current : Deformation2D1.t;
  znssd : float;
  dp_norm_max : float }.

Section Compute.

Variable N : Numerics.
Variable K : Collaborators2D.
Variable D : Deformation2D1.methods.
Variable est : t.

Definition subset_width : Z := Int.add (Int.mul 2 (subset_radius_x est)) 1.
Definition subset_height : Z := Int.add (Int.mul 2 (subset_radius_y est)) 1.

(** The test of lines 117-119. *)
Definition rejects (poi : POI2D.t) : bool :=
  F.ltb (F.sub (POI2D.y poi) (F.of_int (subset_radius_y est))) (F.of_int 0)
  || F.ltb (F.sub (POI2D.x poi) (F.of_int (subset_radius_x est))) (F.of_int 0)
  || F.gtb (F.add (POI2D.y poi) (F.of_int (subset_radius_y est)))
           (F.of_int (Int.sub (Image2D.height (ref_img est)) 1))
  || F.gtb (F.add (POI2D.x poi) (F.of_int (subset_radius_x est)))
           (F.of_int (Int.sub (Image2D.width (ref_img est)) 1))
  || F.isnan (DeformationVector2D.u (POI2D.deformation poi))
  || F.isnan (DeformationVector2D.v (POI2D.deformation poi)).

(** [(r, c)] in the order of the loops over the subset. *)
Definition points : list (Z * Z) :=
  flat_map (fun r => map (fun c => (r, c)) (range subset_width))
           (range subset_height).

(** The steepest-descent row of a point (lines 136-148). *)
Definition sd_row (poi : POI2D.t) (rc : Z * Z) : list float :=
  let x_local := Int.sub (snd rc) (subset_radius_x est) in
  let y_local := Int.sub (fst rc) (subset_radius_y est) in
  let x_global := Int.add (F.to_int (POI2D.x poi)) x_local in
  let y_global := Int.add (F.to_int (POI2D.y poi)) y_local in
  let ref_gradient_x := gradient2D_x K (ref_img est) y_global x_global in
  let ref_gradient_y := gradient2D_y K (ref_img est) y_global x_global in
  [ ref_gradient_x;
    F.mul ref_gradient_x (F.of_int x_local);
    F.mul ref_gradient_x (F.of_int y_local);
    ref_gradient_y;
    F.mul ref_gradient_y (F.of_int x_local);
    F.mul ref_gradient_y (F.of_int y_local) ].

(** The target subset reconstructed with the parameters [p] (lines
    177-187), which a pass hands to [zeroMeanNorm]. *)
Definition reconstruct (poi : POI2D.t) (p : Deformation2D1.t) : list float :=
  map (fun rc : Z * Z =>
         let x_local := Int.sub (snd rc) (subset_radius_x est) in
         let y_local := Int.sub (fst rc) (subset_radius_y est) in
         let local_coor := Point2D.mk (F.of_int x_local) (F.of_int y_local) in
         let warped_coor := Deformation2D1.warp D p local_coor in
         let global_coor := Point2D.add (POI2D.point poi) warped_coor in
         bicubic K (tar_img est) global_coor)
      points.

(** One pass through the body of the do-while (lines 175-234). *)
Definition pass (poi : POI2D.t) (ref_subset : list float) (ref_mean_norm : float)
    (sd_img : list (list float)) (inv_hessian : matrix) (s : loop) : loop :=
  let iteration := Int.add (iteration s) 1 in
  (* reconstruct target subset *)
  let tar_subset :=
    map (fun rc : Z * Z =>
           let x_local := Int.sub (snd rc) (subset_radius_x est) in
           let y_local := Int.sub (fst rc) (subset_radius_y est) in
           let local_coor := Point2D.mk (F.of_int x_local) (F.of_int y_local) in
           let warped_coor := Deformation2D1.warp D (p_current s) local_coor in
           let global_coor := Point2D.add (POI2D.point poi) warped_coor in
           bicubic K (tar_img est) global_coor)
        points in
  let tar := zeroMeanNorm N tar_subset in
  let tar_mean_norm := snd tar in
  (* compute error image *)
  let error_img :=
    map (fun tr => F.sub (F.mul (fst tr) (F.div ref_mean_norm tar_mean_norm)) (snd tr))
        (combine (fst tar) ref_subset) in
  (* calculate ZNSSD *)
  let znssd := F.div (squaredNorm error_img) (F.mul ref_mean_norm ref_mean_norm) in
  (* compute numerator, dp *)
  let dp := increment 6 inv_hessian (numerator 6 sd_img error_img) in
  let p_increment := Deformation2D1.setDeformation_p D dp in
  (* update warp, update p *)
  let p_current :=
    Deformation2D1.setDeformation D
      (product N (Deformation2D1.warp_matrix (p_current s))
                 (inverse N (Deformation2D1.warp_matrix p_increment))) in
  (* check convergence *)
  let dp_norm_max := dp_norm (subset_radius_x est) (subset_radius_y est) p_increment in
  mkloop iteration p_current znssd dp_norm_max.

(** The test of the do-while (line 235). *)
Definition continue (s : loop) : bool :=
  F.ltb (F.of_int (iteration s)) (stop_condition est)
  && F.geb (dp_norm_max s) (conv_criterion est).

(** The state at [do]: [dp_norm_max] and [znssd] are declared without a
    value and written in the first pass. *)
Definition start (poi : POI2D.t) : loop :=
  let d := POI2D.deformation poi in
  let p_initial :=
    Deformation2D1.new D
      (DeformationVector2D.u d) (DeformationVector2D.ux d) (DeformationVector2D.uy d)
      (DeformationVector2D.v d) (DeformationVector2D.vx d) (DeformationVector2D.vy d) in
  mkloop 0 p_initial NaN NaN.

(** The body of the do-while for a POI, with the reference side worked
    out before the loop (lines 127-159). *)
Definition body (poi : POI2D.t) : loop -> loop :=
  let ref := zeroMeanNorm N
    (fill2D K (ref_img est) (POI2D.point poi) (subset_radius_x est) (subset_radius_y est)) in
  let sd_img := map (sd_row poi) points in
  let inv_hessian := inverse N (hessian 6 sd_img) in
  pass poi (fst ref) (snd ref) sd_img inv_hessian.

(** The iteration on a POI the test let through (lines 124-235). *)
Definition iterate (fuel : nat) (poi : POI2D.t) : option loop :=
  do_while (body poi) continue fuel (start poi).

(** The variables of the iteration after [n] passes. *)
Definition after (poi : POI2D.t) (n : nat) : loop :=
  passes (body poi) n (start poi).

(** Lines 237-250. *)
Definition store (poi : POI2D.t) (s : loop) : POI2D.t :=
  let d := POI2D.deformation poi in
  let p := p_current s in
  POI2D.mk (POI2D.x poi) (POI2D.y poi)
    (DeformationVector2D.mk
       (Deformation2D1.u p) (Deformation2D1.ux p) (Deformation2D1.uy p)
       (DeformationVector2D.uxx d) (DeformationVector2D.uxy d) (DeformationVector2D.uyy d)
       (Deformation2D1.v p) (Deformation2D1.vx p) (Deformation2D1.vy p)
       (DeformationVector2D.vxx d) (DeformationVector2D.vxy d) (DeformationVector2D.vyy d))
    (Result2D.mk
       (DeformationVector2D.u d) (DeformationVector2D.v d)
       (F.mul half (F.sub (F.of_int 2) (znssd s)))
       (F.of_int (iteration s))
       (dp_norm_max s)).

(** The branch of a rejected POI (line 121). *)
Definition mark (poi : POI2D.t) : POI2D.t :=
  POI2D.mk (POI2D.x poi) (POI2D.y poi) (POI2D.deformation poi)
           (Result2D.with_zncc (POI2D.result poi) (F.of_int (-1))).

(** [ICGN2D1::compute(POI2D* poi)], called by the thread [tid]. *)
Definition compute (fuel : nat) (tid : Z) (poi : POI2D.t) : POI2D.t * status :=
  match getInstance est tid with
  | Raise msg => (poi, Thrown msg)
  | OutOfBounds => (poi, Undefined)
  | Got cur_instance =>
      if rejects poi then (mark poi, Returned)
      else match iterate fuel poi with
           | Some s => (store poi s, Returned)
           | None => (poi, OutOfFuel)
           end
  end.

End Compute.

End ICGN2D1.

(** ** ICGN2D2: DIC, the 2nd order shape function *)

Module ICGN2D2_.
Record t : Type := mk { slot : nat; radius_x : Z; radius_y : Z }.
(** [ICGN2D2_::allocate] *)
Definition allocate (subset_radius_x subset_radius_y : Z) (slot : nat) : t :=
  mk slot subset_radius_x subset_radius_y.
End ICGN2D2_.

Module ICGN2D2.

Record t : Type := mk {
  subset_radius_x : Z;
  subset_radius_y : Z;
  conv_criterion : float;
  stop_condition : float;
  thread_number : Z;
  instance_pool : list ICGN2D2_.t;
  ref_img : Image2D.t;
  tar_img : Image2D.t }.

(** The five-argument constructor, followed by [setImages]. *)
Definition new (subset_radius_x subset_radius_y : Z)
    (conv_criterion stop_condition : float) (thread_number : Z)
    (ref_img tar_img : Image2D.t) : t :=
  mk subset_radius_x subset_radius_y conv_criterion stop_condition thread_number
     (pool_fill (ICGN2D2_.allocate subset_radius_x subset_radius_y) thread_number)
     ref_img tar_img.

Definition getInstance (est : t) (tid : Z) : fetched ICGN2D2_.t :=
  pool_getInstance (instance_pool est) tid.

(** [ICGN2D2::setIteration(float conv_criterion, float stop_condition)] *)
Definition setIteration (est : t) (conv_criterion stop_condition : float) : t :=
  mk (subset_radius_x est) (subset_radius_y est) conv_criterion stop_condition
     (thread_number est) (instance_pool est) (ref_img est) (tar_img est).

(** [ICGN2D2::setIteration(POI2D* poi)]: here the count is assigned as
    it is, without the [(int)] of the other two estimators. *)
Definition setIteration_poi (est : t) (poi : POI2D.t) : t :=
  setIteration est
    (Result2D.convergence (POI2D.result poi))
    (Result2D.iteration (POI2D.result poi)).

(** The convergence norm of an increment (lines 481-500). *)
Definition dp_norm (subset_radius_x subset_radius_y : Z)
    (p_increment : Deformation2D2.t) : float :=
  let subset_radius_x2 := Int.mul subset_radius_x subset_radius_x in
  let subset_radius_y2 := Int.mul subset_radius_y subset_radius_y in
  let subset_radius_xy := Int.mul subset_radius_x2 subset_radius_y2 in
  let p := p_increment in
  let sq (a : float) := F.mul a a in
  let dp_norm_max := Fin 0 in
  let dp_norm_max := F.add dp_norm_max (sq (Deformation2D2.u p)) in
  let dp_norm_max := F.add dp_norm_max
    (F.mul (sq (Deformation2D2.ux p)) (F.of_int subset_radius_x2)) in
  let dp_norm_max := F.add dp_norm_max
    (F.mul (sq (Deformation2D2.uy p)) (F.of_int subset_radius_y2)) in
  let dp_norm_max := F.add dp_norm_max
    (F.div (F.mul (F.mul (sq (Deformation2D2.uxx p)) (F.of_int subset_radius_x2))
                  (F.of_int subset_radius_x2)) (Fin 4)) in
  let dp_norm_max := F.add dp_norm_max
    (F.div (F.mul (F.mul (sq (Deformation2D2.uyy p)) (F.of_int subset_radius_y2))
                  (F.of_int subset_radius_y2)) (Fin 4)) in
  let dp_norm_max := F.add dp_norm_max
    (F.mul (sq (Deformation2D2.uxy p)) (F.of_int subset_radius_xy)) in
  let dp_norm_max := F.add dp_norm_max (sq (Deformation2D2.v p)) in
  let dp_norm_max := F.add dp_norm_max
    (F.mul (sq (Deformation2D2.vx p)) (F.of_int subset_radius_x2)) in
  let dp_norm_max := F.add dp_norm_max
    (F.mul (sq (Deformation2D2.vy p)) (F.of_int subset_radius_y2)) in
  let dp_norm_max := F.add dp_norm_max
    (F.div (F.mul (F.mul (sq (Deformation2D2.vxx p)) (F.of_int subset_radius_x2))
                  (F.of_int subset_radius_x2)) (Fin 4)) in
  let dp_norm_max := F.add dp_norm_max
    (F.div (F.mul (F.mul (sq (Deformation2D2.vyy p)) (F.of_int subset_radius_y2))
                  (F.of_int subset_radius_y2)) (Fin 4)) in
  let dp_norm_max := F.add dp_norm_max
    (F.mul (sq (Deformation2D2.vxy p)) (F.of_int subset_radius_xy)) in
  F.sqrt dp_norm_max.

Record loop : Type := mkloop {
  iteration : Z;
  p_current : Deformation2D2.t;
  znssd : float;
  dp_norm_max : float }.

Section Compute.

Variable N : Numerics.
Variable K : Collaborators2D.
Variable D1 : Deformation2D1.methods.
Variable D : Deformation2D2.methods.
Variable est : t.

Definition subset_width : Z := Int.add (Int.mul 2 (subset_radius_x est)) 1.
Definition subset_height : Z := Int.add (Int.mul 2 (subset_radius_y est)) 1.

(** The test of lines 365-367. *)
Definition rejects (poi : POI2D.t) : bool :=
  F.ltb (F.sub (POI2D.y poi) (F.of_int (subset_radius_y est))) (F.of_int 0)
  || F.ltb (F.sub (POI2D.x poi) (F.of_int (subset_radius_x est))) (F.of_int 0)
  || F.gtb (F.add (POI2D.y poi) (F.of_int (subset_radius_y est)))
           (F.of_int (Int.sub (Image2D.height (ref_img est)) 1))
  || F.gtb (F.add (POI2D.x poi) (F.of_int (subset_radius_x est)))
           (F.of_int (Int.sub (Image2D.width (ref_img est)) 1))
  || F.isnan (DeformationVector2D.u (POI2D.deformation poi))
  || F.isnan (DeformationVector2D.v (POI2D.deformation poi)).

Definition points : list (Z * Z) :=
  flat_map (fun r => map (fun c => (r, c)) (range subset_width))
           (range subset_height).

(** The steepest-descent row of a point (lines 384-406). *)
Definition sd_row (poi : POI2D.t) (rc : Z * Z) : list float :=
  let x_local := Int.sub (snd rc) (subset_radius_x est) in
  let y_local := Int.sub (fst rc) (subset_radius_y est) in
  let xx_local := F.mul (F.of_int (Int.mul x_local x_local)) half in
  let xy_local := F.of_int (Int.mul x_local y_local) in
  let yy_local := F.mul (F.of_int (Int.mul y_local y_local)) half in
  let x_global := Int.add (F.to_int (POI2D.x poi)) x_local in
  let y_global := Int.add (F.to_int (POI2D.y poi)) y_local in
  let ref_gradient_x := gradient2D_x K (ref_img est) y_global x_global in
  let ref_gradient_y := gradient2D_y K (ref_img est) y_global x_global in
  [ ref_gradient_x;
    F.mul ref_gradient_x (F.of_int x_local);
    F.mul ref_gradient_x (F.of_int y_local);
    F.mul ref_gradient_x xx_local;
    F.mul ref_gradient_x xy_local;
    F.mul ref_gradient_x yy_local;
    ref_gradient_y;
    F.mul ref_gradient_y (F.of_int x_local);
    F.mul ref_gradient_y (F.of_int y_local);
    F.mul ref_gradient_y xx_local;
    F.mul ref_gradient_y xy_local;
    F.mul ref_gradient_y yy_local ].

(** One pass through the body of the do-while (lines 433-500). *)
Definition pass (poi : POI2D.t) (ref_subset : list float) (ref_mean_norm : float)
    (sd_img : list (list float)) (inv_hessian : matrix) (s : loop) : loop :=
  let iteration := Int.add (iteration s) 1 in
  let tar_subset :=
    map (fun rc : Z * Z =>
           let x_local := Int.sub (snd rc) (subset_radius_x est) in
           let y_local := Int.sub (fst rc) (subset_radius_y est) in
           let local_coor := Point2D.mk (F.of_int x_local) (F.of_int y_local) in
           let warped_coor := Deformation2D2.warp D (p_current s) local_coor in
           let global_coor := Point2D.add (POI2D.point poi) warped_coor in
           bicubic K (tar_img est) global_coor)
        points in
  let tar := zeroMeanNorm N tar_subset in
  let tar_mean_norm := snd tar in
  let error_img :=
    map (fun tr => F.sub (F.mul (fst tr) (F.div ref_mean_norm tar_mean_norm)) (snd tr))
        (combine (fst tar) ref_subset) in
  let znssd := F.div (squaredNorm error_img) (F.mul ref_mean_norm ref_mean_norm) in
  let dp := increment 12 inv_hessian (numerator 12 sd_img error_img) in
  let p_increment := Deformation2D2.setDeformation_p D dp in
  let p_current :=
    Deformation2D2.setDeformation D
      (product N (Deformation2D2.warp_matrix (p_current s))
                 (inverse N (Deformation2D2.warp_matrix p_increment))) in
  let dp_norm_max := dp_norm (subset_radius_x est) (subset_radius_y est) p_increment in
  mkloop iteration p_current znssd dp_norm_max.

(** The test of the do-while (line 501). *)
Definition continue (s : loop) : bool :=
  F.ltb (F.of_int (iteration s)) (stop_condition est)
  && F.geb (dp_norm_max s) (conv_criterion est).

(** The state at [do]; the initial guess is a [Deformation2D1]. *)
Definition start (poi : POI2D.t) : loop :=
  let d := POI2D.deformation poi in
  let p_initial :=
    Deformation2D1.new D1
      (DeformationVector2D.u d) (DeformationVector2D.ux d) (DeformationVector2D.uy d)
      (DeformationVector2D.v d) (DeformationVector2D.vx d) (DeformationVector2D.vy d) in
  mkloop 0 (Deformation2D2.setDeformation_1 D p_initial) NaN NaN.

(** The body of the do-while for a POI, with the reference side worked
    out before the loop (lines 375-417). *)
Definition body (poi : POI2D.t) : loop -> loop :=
  let ref := zeroMeanNorm N
    (fill2D K (ref_img est) (POI2D.point poi) (subset_radius_x est) (subset_radius_y est)) in
  let sd_img := map (sd_row poi) points in
  let inv_hessian := inverse N (hessian 12 sd_img) in
  pass poi (fst ref) (snd ref) sd_img inv_hessian.

(** The iteration on a POI the test let through (lines 372-501). *)
Definition iterate (fuel : nat) (poi : POI2D.t) : option loop :=
  do_while (body poi) continue fuel (start poi).

(** The variables of the iteration after [n] passes. *)
Definition after (poi : POI2D.t) (n : nat) : loop :=
  passes (body poi) n (start poi).

(** Lines 503-523. *)
Definition store (poi : POI2D.t) (s : loop) : POI2D.t :=
  let d := POI2D.deformation poi in
  let p := p_current s in
  POI2D.mk (POI2D.x poi) (POI2D.y poi)
    (DeformationVector2D.mk
       (Deformation2D2.u p) (Deformation2D2.ux p) (Deformation2D2.uy p)
       (Deformation2D2.uxx p) (Deformation2D2.uxy p) (Deformation2D2.uyy p)
       (Deformation2D2.v p) (Deformation2D2.vx p) (Deformation2D2.vy p)
       (Deformation2D2.vxx p) (Deformation2D2.vxy p) (Deformation2D2.vyy p))
    (Result2D.mk
       (DeformationVector2D.u d) (DeformationVector2D.v d)
       (F.mul half (F.sub (F.of_int 2) (znssd s)))
       (F.of_int (iteration s))
       (dp_norm_max s)).

(** The branch of a rejected POI (line 369). *)
Definition mark (poi : POI2D.t) : POI2D.t :=
  POI2D.mk (POI2D.x poi) (POI2D.y poi) (POI2D.deformation poi)
           (Result2D.with_zncc (POI2D.result poi) (F.of_int (-1))).

(** [ICGN2D2::compute(POI2D* poi)], called by the thread [tid]. *)
Definition compute (fuel : nat) (tid : Z) (poi : POI2D.t) : POI2D.t * status :=
  match getInstance est tid with
  | Raise msg => (poi, Thrown msg)
  | OutOfBounds => (poi, Undefined)
  | Got cur_instance =>
      if rejects poi then (mark poi, Returned)
      else match iterate fuel poi with
           | Some s => (store poi s, Returned)
           | None => (poi, OutOfFuel)
           end
  end.

End Compute.

End ICGN2D2.

(** ** ICGN3D1: DVC, the 1st order shape function *)

Module ICGN3D1_.
Record t : Type := mk { slot : nat; radius_x : Z; radius_y : Z; radius_z : Z }.
(** [ICGN3D1_::allocate] *)
Definition allocate (subset_radius_x subset_radius_y subset_radius_z : Z)
    (slot : nat) : t :=
  mk slot subset_radius_x subset_radius_y subset_radius_z.
End ICGN3D1_.

Module ICGN3D1.

Record t : Type := mk {
  subset_radius_x : Z;
  subset_radius_y : Z;
  subset_radius_z : Z;
  conv_criterion : float;
  stop_condition : float;
  thread_number : Z;
  instance_pool : list ICGN3D1_.t;
  ref_img : Image3D.t;
  tar_img : Image3D.t }.

(** The constructor, followed by [setImages]. *)
Definition new (subset_radius_x subset_radius_y subset_radius_z : Z)
    (conv_criterion stop_condition : float) (thread_number : Z)
    (ref_img tar_img : Image3D.t) : t :=
  mk subset_radius_x subset_radius_y subset_radius_z
     conv_criterion stop_condition thread_number
     (pool_fill (ICGN3D1_.allocate subset_radius_x subset_radius_y subset_radius_z)
                thread_number)
     ref_img tar_img.

Definition getInstance (est : t) (tid : Z) : fetched ICGN3D1_.t :=
  pool_getInstance (instance_pool est) tid.

(** [ICGN3D1::setIteration(float conv_criterion, float stop_condition)] *)
Definition setIteration (est : t) (conv_criterion stop_condition : float) : t :=
  mk (subset_radius_x est) (subset_radius_y est) (subset_radius_z est)
     conv_criterion stop_condition
     (thread_number est) (instance_pool est) (ref_img est) (tar_img est).

(** [ICGN3D1::setIteration(POI3D* poi)] *)
Definition setIteration_poi (est : t) (poi : POI3D.t) : t :=
  setIteration est
    (Result3D.convergence (POI3D.result poi))
    (F.of_int (F.to_int (Result3D.iteration (POI3D.result poi)))).

(** The convergence norm of an increment (line 765). *)
Definition dp_norm (p_increment : Deformation3D1.t) : float :=
  let p := p_increment in
  F.sqrt (F.add (F.add (F.mul (Deformation3D1.u p) (Deformation3D1.u p))
                       (F.mul (Deformation3D1.v p) (Deformation3D1.v p)))
                (F.mul (Deformation3D1.w p) (Deformation3D1.w p))).

Record loop : Type := mkloop {
  iteration : Z;
  p_current : Deformation3D1.t;
  znssd : float;
  dp_norm_max : float }.

Section Compute.

Variable N : Numerics.
Variable K : Collaborators3D.
Variable D : Deformation3D1.methods.
Variable est : t.

Definition subset_dim_x : Z := Int.add (Int.mul 2 (subset_radius_x est)) 1.
Definition subset_dim_y : Z := Int.add (Int.mul 2 (subset_radius_y est)) 1.
Definition subset_dim_z : Z := Int.add (Int.mul 2 (subset_radius_z est)) 1.

(** The test of lines 633-635. *)
Definition rejects (poi : POI3D.t) : bool :=
  F.ltb (F.sub (POI3D.x poi) (F.of_int (subset_radius_x est))) (F.of_int 0)
  || F.ltb (F.sub (POI3D.y poi) (F.of_int (subset_radius_y est))) (F.of_int 0)
  || F.ltb (F.sub (POI3D.z poi) (F.of_int (subset_radius_z est))) (F.of_int 0)
  || F.gtb (F.add (POI3D.x poi) (F.of_int (subset_radius_x est)))
           (F.of_int (Int.sub (Image3D.dim_x (ref_img est)) 1))
  || F.gtb (F.add (POI3D.y poi) (F.of_int (subset_radius_y est)))
           (F.of_int (Int.sub (Image3D.dim_y (ref_img est)) 1))
  || F.gtb (F.add (POI3D.z poi) (F.of_int (subset_radius_z est)))
           (F.of_int (Int.sub (Image3D.dim_z (ref_img est)) 1)).

(** [(i, j, k)] in the order of the loops over the subset. *)
Definition points : list (Z * Z * Z) :=
  flat_map (fun i =>
    flat_map (fun j => map (fun k => (i, j, k)) (range subset_dim_x))
             (range subset_dim_y))
    (range subset_dim_z).

(** The steepest-descent row of a point (lines 654-675). *)
Definition sd_row (poi : POI3D.t) (ijk : Z * Z * Z) : list float :=
  let x_local := Int.sub (snd ijk) (subset_radius_x est) in
  let y_local := Int.sub (snd (fst ijk)) (subset_radius_y est) in
  let z_local := Int.sub (fst (fst ijk)) (subset_radius_z est) in
  let x_global := Int.add (F.to_int (POI3D.x poi)) x_local in
  let y_global := Int.add (F.to_int (POI3D.y poi)) y_local in
  let z_global := Int.add (F.to_int (POI3D.z poi)) z_local in
  let ref_gradient_x := gradient3D_x K (ref_img est) z_global y_global x_global in
  let ref_gradient_y := gradient3D_y K (ref_img est) z_global y_global x_global in
  let ref_gradient_z := gradient3D_z K (ref_img est) z_global y_global x_global in
  [ ref_gradient_x;
    F.mul ref_gradient_x (F.of_int x_local);
    F.mul ref_gradient_x (F.of_int y_local);
    F.mul ref_gradient_x (F.of_int z_local);
    ref_gradient_y;
    F.mul ref_gradient_y (F.of_int x_local);
    F.mul ref_gradient_y (F.of_int y_local);
    F.mul ref_gradient_y (F.of_int z_local);
    ref_gradient_z;
    F.mul ref_gradient_z (F.of_int x_local);
    F.mul ref_gradient_z (F.of_int y_local);
    F.mul ref_gradient_z (F.of_int z_local) ].

(** One pass through the body of the do-while (lines 703-765). *)
Definition pass (poi : POI3D.t) (ref_subset : list float) (ref_mean_norm : float)
    (sd_img : list (list float)) (inv_hessian : matrix) (s : loop) : loop :=
  let iteration := Int.add (iteration s) 1 in
  let tar_subset :=
    map (fun ijk : Z * Z * Z =>
           let x_local := Int.sub (snd ijk) (subset_radius_x est) in
           let y_local := Int.sub (snd (fst ijk)) (subset_radius_y est) in
           let z_local := Int.sub (fst (fst ijk)) (subset_radius_z est) in
           let local_coor :=
             Point3D.mk (F.of_int x_local) (F.of_int y_local) (F.of_int z_local) in
           let warped_coor := Deformation3D1.warp D (p_current s) local_coor in
           let global_coor := Point3D.add (POI3D.point poi) warped_coor in
           tricubic K (tar_img est) global_coor)
        points in
  let tar := zeroMeanNorm N tar_subset in
  let tar_mean_norm := snd tar in
  let error_factor := F.div ref_mean_norm tar_mean_norm in
  let error_img :=
    map (fun tr => F.sub (F.mul error_factor (fst tr)) (snd tr))
        (combine (fst tar) ref_subset) in
  let squared_sum := fold_left (fun s e => F.add s (F.mul e e)) error_img (Fin 0) in
  let znssd := F.div squared_sum (F.mul ref_mean_norm ref_mean_norm) in
  let dp := increment 12 inv_hessian (numerator 12 sd_img error_img) in
  let p_increment := Deformation3D1.setDeformation_p D dp in
  let p_current :=
    Deformation3D1.setDeformation D
      (product N (Deformation3D1.warp_matrix (p_current s))
                 (inverse N (Deformation3D1.warp_matrix p_increment))) in
  let dp_norm_max := dp_norm p_increment in
  mkloop iteration p_current znssd dp_norm_max.

(** The test of the do-while (line 767). *)
Definition continue (s : loop) : bool :=
  F.ltb (F.of_int (iteration s)) (stop_condition est)
  && F.geb (dp_norm_max s) (conv_criterion est).

Definition start (poi : POI3D.t) : loop :=
  let d := POI3D.deformation poi in
  let p_initial :=
    Deformation3D1.new D
      (DeformationVector3D.u d) (DeformationVector3D.ux d)
      (DeformationVector3D.uy d) (DeformationVector3D.uz d)
      (DeformationVector3D.v d) (DeformationVector3D.vx d)
      (DeformationVector3D.vy d) (DeformationVector3D.vz d)
      (DeformationVector3D.w d) (DeformationVector3D.wx d)
      (DeformationVector3D.wy d) (DeformationVector3D.wz d) in
  mkloop 0 p_initial NaN NaN.

(** The body of the do-while for a POI, with the reference side worked
    out before the loop (lines 644-686). *)
Definition body (poi : POI3D.t) : loop -> loop :=
  let ref := zeroMeanNorm N
    (fill3D K (ref_img est) (POI3D.point poi)
            (subset_radius_x est) (subset_radius_y est) (subset_radius_z est)) in
  let sd_img := map (sd_row poi) points in
  let inv_hessian := inverse N (hessian 12 sd_img) in
  pass poi (fst ref) (snd ref) sd_img inv_hessian.

(** The iteration on a POI the test let through (lines 640-767). *)
Definition iterate (fuel : nat) (poi : POI3D.t) : option loop :=
  do_while (body poi) continue fuel (start poi).

(** The variables of the iteration after [n] passes. *)
Definition after (poi : POI3D.t) (n : nat) : loop :=
  passes (body poi) n (start poi).

(** Lines 769-789. *)
Definition store (poi : POI3D.t) (s : loop) : POI3D.t :=
  let d := POI3D.deformation poi in
  let p := p_current s in
  POI3D.mk (POI3D.x poi) (POI3D.y poi) (POI3D.z poi)
    (DeformationVector3D.mk
       (Deformation3D1.u p) (Deformation3D1.ux p) (Deformation3D1.uy p) (Deformation3D1.uz p)
       (Deformation3D1.v p) (Deformation3D1.vx p) (Deformation3D1.vy p) (Deformation3D1.vz p)
       (Deformation3D1.w p) (Deformation3D1.wx p) (Deformation3D1.wy p) (Deformation3D1.wz p))
    (Result3D.mk
       (DeformationVector3D.u d) (DeformationVector3D.v d) (DeformationVector3D.w d)
       (F.mul half (F.sub (F.of_int 2) (znssd s)))
       (F.of_int (iteration s))
       (dp_norm_max s)).

(** The branch of a rejected POI (line 637). *)
Definition mark (poi : POI3D.t) : POI3D.t :=
  POI3D.mk (POI3D.x poi) (POI3D.y poi) (POI3D.z poi) (POI3D.deformation poi)
           (Result3D.with_zncc (POI3D.result poi) (F.of_int (-1))).

(** [ICGN3D1::compute(POI3D* poi)], called by the thread [tid]. *)
Definition compute (fuel : nat) (tid : Z) (poi : POI3D.t) : POI3D.t * status :=
  match getInstance est tid with
  | Raise msg => (poi, Thrown msg)
  | OutOfBounds => (poi, Undefined)
  | Got cur_instance =>
      if rejects poi then (mark poi, Returned)
      else match iterate fuel poi with
           | Some s => (store poi s, Returned)
           | None => (poi, OutOfFuel)
           end
  end.

End Compute.

End ICGN3D1.

(** ** FFTCC2D: FFT accelerated cross correlation *)

Module FFTW.
(** A scratch instance of [FFTW::allocate(subset_radius_x, subset_radius_y)]:
    three real buffers of [2rx * 2ry] values, three complex buffers and the
    three plans over them. *)
Record t : Type := mk { slot : nat; radius_x : Z; radius_y : Z }.
Definition allocate (subset_radius_x subset_radius_y : Z) (slot : nat) : t :=
  mk slot subset_radius_x subset_radius_y.

Definition complex : Type := (float * float)%type.

(** The lengths [FFTW::allocate] gives the buffers of the instance (lines
    146-157): [buffer_length] complex values for each of the three
    spectra, [subset_size] values, an [unsigned int], for each of the
    three real buffers. *)
Definition buffer_length (inst : t) : Z :=
  let width := Int.mul 2 (radius_x inst) in
  Int.mul width (Int.add (radius_y inst) 1).

Definition subset_size (inst : t) : Z :=
  let width := Int.mul 2 (radius_x inst) in
  let height := Int.mul 2 (radius_y inst) in
  Int.mul width height mod Int.modulus.

(** [fftwf_execute] on the plans of an instance: what the output buffer
    holds for a content of the input buffer. *)
Record library : Type := {
  (** [ref_plan], [tar_plan]: [fftwf_plan_dft_r2c_2d] *)
  r2c : t -> list float -> list complex;
  (** [zncc_plan]: [fftwf_plan_dft_c2r_2d] *)
  c2r : t -> list complex -> list float }.
End FFTW.

Module FFTCC2D.

Record t : Type := mk {
  subset_radius_x : Z;
  subset_radius_y : Z;
  thread_number : Z;
  instance_pool : list FFTW.t;
  ref_img : Image2D.t;
  tar_img : Image2D.t }.

(** The constructor, followed by [setImages(ref_img, tar_img)]. *)
Definition new (subset_radius_x subset_radius_y thread_number : Z)
    (ref_img tar_img : Image2D.t) : t :=
  mk subset_radius_x subset_radius_y thread_number
     (pool_fill (FFTW.allocate subset_radius_x subset_radius_y) thread_number)
     ref_img tar_img.

Definition getInstance (est : t) (tid : Z) : fetched FFTW.t :=
  pool_getInstance (instance_pool est) tid.

(** The body of the loop of lines 294-301 on the pair
    [(max_zncc, max_zncc_index)]. *)
Definition search_step (zncc : list float) (m : float * Z) (i : Z) : float * Z :=
  if F.gtb (nth (Z.to_nat i) zncc NaN) (fst m)
  then (nth (Z.to_nat i) zncc NaN, i)
  else m.

(** The search of lines 292-301 over [zncc[0 .. subset_size)]: the pair
    after the loop. *)
Definition search_max (zncc : list float) (subset_size : Z) : float * Z :=
  fold_left (search_step zncc) (range subset_size) (F.of_int (-2), 0).

(** Lines 302-308: the index of the peak as [(local_displacement_u,
    local_displacement_v)]. *)
Definition decode (subset_radius_x subset_radius_y : Z) (max_zncc_index : Z)
  : Z * Z :=
  let subset_width := Int.mul subset_radius_x 2 in
  let subset_height := Int.mul subset_radius_y 2 in
  let local_displacement_u := Z.rem max_zncc_index subset_width in
  let local_displacement_v := Z.quot max_zncc_index subset_width in
  let local_displacement_u :=
    if local_displacement_u >? subset_radius_x
    then Int.sub local_displacement_u subset_width
    else local_displacement_u in
  let local_displacement_v :=
    if local_displacement_v >? subset_radius_y
    then Int.sub local_displacement_v subset_height
    else local_displacement_v in
  (local_displacement_u, local_displacement_v).

(** Lines 283-286 at one frequency. *)
Definition cross (ref_freq tar_freq : FFTW.complex) : FFTW.complex :=
  (F.add (F.mul (fst ref_freq) (fst tar_freq)) (F.mul (snd ref_freq) (snd tar_freq)),
   F.sub (F.mul (fst ref_freq) (snd tar_freq)) (F.mul (snd ref_freq) (fst tar_freq))).

(** The loop over [n < buffer_length] around it. *)
Definition cross_spectrum (buffer_length : Z) (ref_freq tar_freq : list FFTW.complex)
  : list FFTW.complex :=
  map (fun n => cross (nth (Z.to_nat n) ref_freq (NaN, NaN))
                      (nth (Z.to_nat n) tar_freq (NaN, NaN)))
      (range buffer_length).

(** Lines 271-276 for one buffer: the buffer after [buf[i] -= mean] and
    the sum of [buf[i] * buf[i]], accumulated in the same pass. *)
Definition subtract_mean (buf : list float) (mean : float) : list float * float :=
  fold_left
    (fun (st : list float * float) (a : float) =>
       let a' := F.sub a mean in
       (fst st ++ [a'], F.add (snd st) (F.mul a' a')))
    buf ([], Fin 0).

Section Compute.

Variable L : FFTW.library.
Variable est : t.

Definition subset_width : Z := Int.mul (subset_radius_x est) 2.
Definition subset_height : Z := Int.mul (subset_radius_y est) 2.
Definition subset_size : Z := Int.mul subset_width subset_height.

Definition points : list (Z * Z) :=
  flat_map (fun r => map (fun c => (r, c)) (range subset_width))
           (range subset_height).

(** Line 256. *)
Definition ref_point (poi : POI2D.t) (rc : Z * Z) : Point2D.t :=
  Point2D.mk
    (F.sub (F.add (POI2D.x poi) (F.of_int (snd rc))) (F.of_int (subset_radius_x est)))
    (F.sub (F.add (POI2D.y poi) (F.of_int (fst rc))) (F.of_int (subset_radius_y est))).

(** [image->eg_mat((int)point.y, (int)point.x)] *)
Definition sample (image : Image2D.t) (point : Point2D.t) : float :=
  Image2D.eg_mat image (F.to_int (Point2D.y point)) (F.to_int (Point2D.x point)).

(** The reference subset after the loops of lines 253-267, row after row. *)
Definition ref_subset (poi : POI2D.t) : list float :=
  map (fun rc => sample (ref_img est) (ref_point poi rc)) points.

(** The target subset, taken at the initial guess of the displacement. *)
Definition tar_subset (poi : POI2D.t) : list float :=
  let initial_displacement :=
    Point2D.mk (DeformationVector2D.u (POI2D.deformation poi))
               (DeformationVector2D.v (POI2D.deformation poi)) in
  map (fun rc => sample (tar_img est)
                        (Point2D.add (ref_point poi rc) initial_displacement))
      points.

(** [mean += value] over the subset, then [mean /= subset_size]. *)
Definition mean (buf : list float) : float :=
  F.div (fold_left F.add buf (Fin 0)) (F.of_int subset_size).

(** What the inverse transform leaves in [zncc] for two zero-mean subsets
    (lines 278-289). *)
Definition correlate (current_instance : FFTW.t) (ref tar : list float)
  : list float :=
  let ref_freq := FFTW.r2c L current_instance ref in
  let tar_freq := FFTW.r2c L current_instance tar in
  let buffer_length := Int.mul subset_width (Int.add (subset_radius_y est) 1) in
  FFTW.c2r L current_instance (cross_spectrum buffer_length ref_freq tar_freq).

(** Everything [compute] works out before it writes to the POI. *)
Record worked : Type := mkworked {
  initial_displacement : Point2D.t;
  ref_norm : float;
  tar_norm : float;
  zncc : list float;
  max_zncc : float;
  max_zncc_index : Z }.

(** Lines 245-301. *)
Definition work (current_instance : FFTW.t) (poi : POI2D.t) : worked :=
  let initial_displacement :=
    Point2D.mk (DeformationVector2D.u (POI2D.deformation poi))
               (DeformationVector2D.v (POI2D.deformation poi)) in
  let ref := subtract_mean (ref_subset poi) (mean (ref_subset poi)) in
  let tar := subtract_mean (tar_subset poi) (mean (tar_subset poi)) in
  let zncc := correlate current_instance (fst ref) (fst tar) in
  (* search for max ZCC *)
  let m := search_max zncc subset_size in
  mkworked initial_displacement (snd ref) (snd tar) zncc (fst m) (snd m).

(** Lines 310-316. *)
Definition store (poi : POI2D.t) (k : worked) : POI2D.t :=
  let d := POI2D.deformation poi in
  let r := POI2D.result poi in
  let local_displacement :=
    decode (subset_radius_x est) (subset_radius_y est) (max_zncc_index k) in
  POI2D.mk (POI2D.x poi) (POI2D.y poi)
    (DeformationVector2D.mk
       (F.add (F.of_int (fst local_displacement)) (Point2D.x (initial_displacement k)))
       (DeformationVector2D.ux d) (DeformationVector2D.uy d)
       (DeformationVector2D.uxx d) (DeformationVector2D.uxy d) (DeformationVector2D.uyy d)
       (F.add (F.of_int (snd local_displacement)) (Point2D.y (initial_displacement k)))
       (DeformationVector2D.vx d) (DeformationVector2D.vy d)
       (DeformationVector2D.vxx d) (DeformationVector2D.vxy d) (DeformationVector2D.vyy d))
    (Result2D.mk
       (Point2D.x (initial_displacement k))
       (Point2D.y (initial_displacement k))
       (F.div (max_zncc k)
              (F.mul (F.sqrt (F.mul (ref_norm k) (tar_norm k))) (F.of_int subset_size)))
       (Result2D.iteration r)
       (Result2D.convergence r)).

(** [FFTCC2D::compute(POI2D* poi)], called by the thread [tid]. *)
Definition compute (tid : Z) (poi : POI2D.t) : POI2D.t * status :=
  match getInstance est tid with
  | Raise msg => (poi, Thrown msg)
  | OutOfBounds => (poi, Undefined)
  | Got current_instance => (store poi (work current_instance poi), Returned)
  end.

End Compute.

(** *** The speckle size *)

(** The matrix positions a loop reads, in order. *)
Definition reads : Type := list (Z * Z).

(** The body of each of the four half-peak loops, for the coordinates
    [a1], [a2] of the pass and the positions [p1], [p2] of their samples:
<<
    if (zncc_matrix(p1) > half_peak_ratio && zncc_matrix(p2) <= half_peak_ratio) {
        r = a2 - (a2 - a1) * (half_peak_ratio - zncc_matrix(p2)) * (zncc_matrix(p1) - zncc_matrix(p2));
        break;
    }
>>
    [Some r] when the branch is taken. *)
Definition crossing (zncc_matrix : Z -> Z -> float) (half_peak_ratio : float)
    (p1 p2 : Z * Z) (a1 a2 : Z) : option float * reads :=
  let f1 := zncc_matrix (fst p1) (snd p1) in
  let f2 := zncc_matrix (fst p2) (snd p2) in
  if F.gtb f1 half_peak_ratio then
    if F.leb f2 half_peak_ratio then
      (Some (F.sub (F.of_int a2)
                   (F.mul (F.mul (F.of_int (Int.sub a2 a1)) (F.sub half_peak_ratio f2))
                          (F.sub f1 f2))),
       [p1; p2; p2; p1; p2])
    else (None, [p1; p2])
  else (None, [p1]).

(** [for (int i = 0; i < n; i++) { ... break; }] over the values of [i],
    with the result variable at [0] before the loop. *)
Fixpoint scan (step : Z -> option float * reads) (values : list Z) : float * reads :=
  match values with
  | [] => (Fin 0, [])
  | i :: rest =>
      match fst (step i) with
      | Some r => (r, snd (step i))
      | None => (fst (scan step rest), snd (step i) ++ snd (scan step rest))
      end
  end.

Section HalfPeak.

Variable zncc_matrix : Z -> Z -> float.
Variable half_peak_ratio : float.
Variables x0 y0 : Z.

(** Lines 395-402. *)
Definition search_rx1 : float * reads :=
  scan (fun i => let x1 := Int.add x0 i in
                 let x2 := Int.add x1 1 in
                 crossing zncc_matrix half_peak_ratio (y0, x1) (y0, x2) x1 x2)
       (range x0).

(** Lines 403-410. *)
Definition search_rx2 : float * reads :=
  scan (fun i => let x1 := Int.sub x0 i in
                 let x2 := Int.sub x1 1 in
                 crossing zncc_matrix half_peak_ratio (y0, x1) (y0, x2) x1 x2)
       (range x0).

(** Lines 412-419. *)
Definition search_ry1 : float * reads :=
  scan (fun i => let y1 := Int.add y0 i in
                 let y2 := Int.add y1 1 in
                 crossing zncc_matrix half_peak_ratio (y1, x0) (y2, x0) y1 y2)
       (range y0).

(** Lines 420-427. *)
Definition search_ry2 : float * reads :=
  scan (fun i => let y1 := Int.sub y0 i in
                 let y2 := Int.sub y1 1 in
                 crossing zncc_matrix half_peak_ratio (y1, x0) (y2, x0) y1 y2)
       (range y0).

End HalfPeak.

(** Lines 386-430 for the radii of the subset. *)
Definition speckle_size (zncc_matrix : Z -> Z -> float) (half_peak_ratio : float)
    (subset_radius_x subset_radius_y : Z) : Point2D.t :=
  let y0 := Int.sub subset_radius_y 1 in
  let x0 := Int.sub subset_radius_x 1 in
  let rx1 := fst (search_rx1 zncc_matrix half_peak_ratio x0 y0) in
  let rx2 := fst (search_rx2 zncc_matrix half_peak_ratio x0 y0) in
  let ry1 := fst (search_ry1 zncc_matrix half_peak_ratio x0 y0) in
  let ry2 := fst (search_ry2 zncc_matrix half_peak_ratio x0 y0) in
  Point2D.mk (F.sub rx1 rx2) (F.sub ry1 ry2).

(** [zncc_matrix(r, c) = a] *)
Definition set (m : Z -> Z -> float) (rc : Z * Z) (a : float) : Z -> Z -> float :=
  fun r c => if (r =? fst rc) && (c =? snd rc) then a else m r c.

Section Speckle.

Variable L : FFTW.library.
Variable est : t.

(** Lines 374-381: where the value of index [i] goes. *)
Definition shift (i : Z) : Z * Z :=
  let shift_c := Z.rem i (subset_width est) in
  let shift_r := Z.quot i (subset_width est) in
  let shift_c :=
    if shift_c >? subset_radius_x est then Int.sub shift_c (subset_width est)
    else shift_c in
  let shift_r :=
    if shift_r >? subset_radius_y est then Int.sub shift_r (subset_height est)
    else shift_r in
  let shift_c := Int.add shift_c (Int.sub (subset_radius_x est) 1) in
  let shift_r := Int.add shift_r (Int.sub (subset_radius_y est) 1) in
  (shift_r, shift_c).

(** Lines 370-384: the normalised autocorrelation with its peak moved to
    the centre. *)
Definition shifted (zncc : list float) (ref_norm : float) : Z -> Z -> float :=
  fold_left (fun m i => set m (shift i) (F.div (nth (Z.to_nat i) zncc NaN) ref_norm))
            (range (subset_size est)) (fun _ _ => Fin 0).

(** Lines 335-367: the autocorrelation of the reference subset and its
    [ref_norm]; the target buffer is a copy of the reference one. *)
Definition autocorrelation (current_instance : FFTW.t) (poi : POI2D.t)
  : list float * float :=
  let ref := subtract_mean (ref_subset est poi) (mean est (ref_subset est poi)) in
  let tar_subset := fst ref in
  (correlate L est current_instance (fst ref) tar_subset, snd ref).

(** [FFTCC2D::determineSpeckleSize(POI2D* poi, float half_peak_ratio)] *)
Definition determineSpeckleSize (tid : Z) (poi : POI2D.t) (half_peak_ratio : float)
  : fetched Point2D.t :=
  match getInstance est tid with
  | Raise msg => Raise msg
  | OutOfBounds => OutOfBounds
  | Got current_instance =>
      let a := autocorrelation current_instance poi in
      let ref_norm := F.mul (snd a) (F.of_int (subset_size est)) in
      let zncc_matrix := shifted (fst a) ref_norm in
      Got (speckle_size zncc_matrix half_peak_ratio
                        (subset_radius_x est) (subset_radius_y est))
  end.

End Speckle.

End FFTCC2D.

(** ** FFTCC3D: FFT accelerated cross correlation of volumes *)

Module FFTW3D.
(** A scratch instance of [FFTW::allocate(subset_radius_x, subset_radius_y,
    subset_radius_z)]: the buffers and the plans of the 3D transforms. *)
Record t : Type := mk { slot : nat; radius_x : Z; radius_y : Z; radius_z : Z }.
Definition allocate (subset_radius_x subset_radius_y subset_radius_z : Z)
    (slot : nat) : t :=
  mk slot subset_radius_x subset_radius_y subset_radius_z.

(** The lengths [FFTW::allocate] gives the buffers of the instance (lines
    171-185): [buffer_length], an [int], and [subset_size], an
    [unsigned int]. *)
Definition buffer_length (inst : t) : Z :=
  let dim_x := Int.mul 2 (radius_x inst) in
  let dim_y := Int.mul 2 (radius_y inst) in
  Int.mul (Int.mul dim_x dim_y) (Int.add (radius_z inst) 1).

Definition subset_size (inst : t) : Z :=
  let dim_x := Int.mul 2 (radius_x inst) in
  let dim_y := Int.mul 2 (radius_y inst) in
  let dim_z := Int.mul 2 (radius_z inst) in
  Int.mul (Int.mul dim_x dim_y) dim_z mod Int.modulus.

(** [fftwf_execute] on the plans of an instance. *)
Record library : Type := {
  (** [ref_plan], [tar_plan]: [fftwf_plan_dft_r2c_3d] *)
  r2c : t -> list float -> list FFTW.complex;
  (** [zncc_plan]: [fftwf_plan_dft_c2r_3d] *)
  c2r : t -> list FFTW.complex -> list float }.
End FFTW3D.

Module FFTCC3D.

Record t : Type := mk {
  subset_radius_x : Z;
  subset_radius_y : Z;
  subset_radius_z : Z;
  thread_number : Z;
  instance_pool : list FFTW3D.t;
  ref_img : Image3D.t;
  tar_img : Image3D.t }.

(** The constructor, followed by [setImages(ref_img, tar_img)]. *)
Definition new (subset_radius_x subset_radius_y subset_radius_z thread_number : Z)
    (ref_img tar_img : Image3D.t) : t :=
  mk subset_radius_x subset_radius_y subset_radius_z thread_number
     (pool_fill (FFTW3D.allocate subset_radius_x subset_radius_y subset_radius_z)
                thread_number)
     ref_img tar_img.

Definition getInstance (est : t) (tid : Z) : fetched FFTW3D.t :=
  pool_getInstance (instance_pool est) tid.

(** Lines 533-542: the index of the peak as [(local_displacement_u,
    local_displacement_v, local_displacement_w)]. *)
Definition decode (subset_radius_x subset_radius_y subset_radius_z : Z)
    (max_zncc_index : Z) : Z * Z * Z :=
  let subset_dim_x := Int.mul subset_radius_x 2 in
  let subset_dim_y := Int.mul subset_radius_y 2 in
  let subset_dim_z := Int.mul subset_radius_z 2 in
  let local_displacement_u := Z.rem max_zncc_index subset_dim_x in
  let local_displacement_v :=
    Z.rem (Z.quot max_zncc_index subset_dim_x) subset_dim_y in
  let local_displacement_w :=
    Z.quot max_zncc_index (Int.mul subset_dim_x subset_dim_y) in
  let local_displacement_u :=
    if local_displacement_u >? subset_radius_x
    then Int.sub local_displacement_u subset_dim_x
    else local_displacement_u in
  let local_displacement_v :=
    if local_displacement_v >? subset_radius_y
    then Int.sub local_displacement_v subset_dim_y
    else local_displacement_v in
  let local_displacement_w :=
    if local_displacement_w >? subset_radius_z
    then Int.sub local_displacement_w subset_dim_z
    else local_displacement_w in
  (local_displacement_u, local_displacement_v, local_displacement_w).

Section Compute.

Variable L : FFTW3D.library.
Variable est : t.

Definition subset_dim_x : Z := Int.mul (subset_radius_x est) 2.
Definition subset_dim_y : Z := Int.mul (subset_radius_y est) 2.
Definition subset_dim_z : Z := Int.mul (subset_radius_z est) 2.
Definition subset_size : Z := Int.mul (Int.mul subset_dim_x subset_dim_y) subset_dim_z.

(** [(i, j, k)] in the order of the loops over the subset: [i] along z,
    [j] along y, [k] along x. *)
Definition points : list (Z * Z * Z) :=
  flat_map (fun i =>
    flat_map (fun j => map (fun k => (i, j, k)) (range subset_dim_x))
             (range subset_dim_y))
    (range subset_dim_z).

(** Line 486. *)
Definition ref_point (poi : POI3D.t) (ijk : Z * Z * Z) : Point3D.t :=
  let '(i, j, k) := ijk in
  Point3D.mk
    (F.sub (F.add (POI3D.x poi) (F.of_int k)) (F.of_int (subset_radius_x est)))
    (F.sub (F.add (POI3D.y poi) (F.of_int j)) (F.of_int (subset_radius_y est)))
    (F.sub (F.add (POI3D.z poi) (F.of_int i)) (F.of_int (subset_radius_z est))).

(** [image->vol_mat[(int)point.z][(int)point.y][(int)point.x]] *)
Definition sample (image : Image3D.t) (point : Point3D.t) : float :=
  Image3D.vol_mat image (F.to_int (Point3D.z point)) (F.to_int (Point3D.y point))
                  (F.to_int (Point3D.x point)).

Definition ref_subset (poi : POI3D.t) : list float :=
  map (fun ijk => sample (ref_img est) (ref_point poi ijk)) points.

Definition tar_subset (poi : POI3D.t) : list float :=
  let initial_displacement :=
    Point3D.mk (DeformationVector3D.u (POI3D.deformation poi))
               (DeformationVector3D.v (POI3D.deformation poi))
               (DeformationVector3D.w (POI3D.deformation poi)) in
  map (fun ijk => sample (tar_img est)
                         (Point3D.add (ref_point poi ijk) initial_displacement))
      points.

(** [mean += value] over the subset, then [mean /= subset_size]. *)
Definition mean (buf : list float) : float :=
  F.div (fold_left F.add buf (Fin 0)) (F.of_int subset_size).

(** Lines 509-520; [buffer_length] and the counter of its loop are
    [unsigned int]. *)
Definition correlate (current_instance : FFTW3D.t) (ref tar : list float)
  : list float :=
  let ref_freq := FFTW3D.r2c L current_instance ref in
  let tar_freq := FFTW3D.r2c L current_instance tar in
  let buffer_length :=
    Int.mul (Int.mul subset_dim_x subset_dim_y) (Int.add (subset_radius_z est) 1)
    mod Int.modulus in
  FFTW3D.c2r L current_instance
    (FFTCC2D.cross_spectrum buffer_length ref_freq tar_freq).

(** Everything [compute] works out before it writes to the POI. *)
Record worked : Type := mkworked {
  initial_displacement : Point3D.t;
  ref_norm : float;
  tar_norm : float;
  zncc : list float;
  max_zncc : float;
  max_zncc_index : Z }.

(** Lines 467-532. *)
Definition work (current_instance : FFTW3D.t) (poi : POI3D.t) : worked :=
  let initial_displacement :=
    Point3D.mk (DeformationVector3D.u (POI3D.deformation poi))
               (DeformationVector3D.v (POI3D.deformation poi))
               (DeformationVector3D.w (POI3D.deformation poi)) in
  let ref := FFTCC2D.subtract_mean (ref_subset poi) (mean (ref_subset poi)) in
  let tar := FFTCC2D.subtract_mean (tar_subset poi) (mean (tar_subset poi)) in
  let zncc := correlate current_instance (fst ref) (fst tar) in
  (* search for max ZCC *)
  let m := FFTCC2D.search_max zncc subset_size in
  mkworked initial_displacement (snd ref) (snd tar) zncc (fst m) (snd m).

(** Lines 533-552. *)
Definition store (poi : POI3D.t) (k : worked) : POI3D.t :=
  let d := POI3D.deformation poi in
  let r := POI3D.result poi in
  let local_displacement :=
    decode (subset_radius_x est) (subset_radius_y est) (subset_radius_z est)
           (max_zncc_index k) in
  POI3D.mk (POI3D.x poi) (POI3D.y poi) (POI3D.z poi)
    (DeformationVector3D.mk
       (F.add (F.of_int (fst (fst local_displacement)))
              (Point3D.x (initial_displacement k)))
       (DeformationVector3D.ux d) (DeformationVector3D.uy d) (DeformationVector3D.uz d)
       (F.add (F.of_int (snd (fst local_displacement)))
              (Point3D.y (initial_displacement k)))
       (DeformationVector3D.vx d) (DeformationVector3D.vy d) (DeformationVector3D.vz d)
       (F.add (F.of_int (snd local_displacement))
              (Point3D.z (initial_displacement k)))
       (DeformationVector3D.wx d) (DeformationVector3D.wy d) (DeformationVector3D.wz d))
    (Result3D.mk
       (Point3D.x (initial_displacement k))
       (Point3D.y (initial_displacement k))
       (Point3D.z (initial_displacement k))
       (F.div (max_zncc k)
              (F.mul (F.sqrt (F.mul (ref_norm k) (tar_norm k))) (F.of_int subset_size)))
       (Result3D.iteration r)
       (Result3D.convergence r)).

(** [FFTCC3D::compute(POI3D* poi)], called by the thread [tid]. *)
Definition compute (tid : Z) (poi : POI3D.t) : POI3D.t * status :=
  match getInstance est tid with
  | Raise msg => (poi, Thrown msg)
  | OutOfBounds => (poi, Undefined)
  | Got current_instance => (store poi (work current_instance poi), Returned)
  end.

End Compute.

(** *** The speckle size *)

(** The positions [(z, y, x)] of the matrix a loop reads, in order. *)
Definition reads : Type := list (Z * Z * Z).

(** The body of each of the six half-peak loops, as in 2D. *)
Definition crossing (zncc_matrix : Z -> Z -> Z -> float) (half_peak_ratio : float)
    (p1 p2 : Z * Z * Z) (a1 a2 : Z) : option float * reads :=
  let f1 := zncc_matrix (fst (fst p1)) (snd (fst p1)) (snd p1) in
  let f2 := zncc_matrix (fst (fst p2)) (snd (fst p2)) (snd p2) in
  if F.gtb f1 half_peak_ratio then
    if F.leb f2 half_peak_ratio then
      (Some (F.sub (F.of_int a2)
                   (F.mul (F.mul (F.of_int (Int.sub a2 a1)) (F.sub half_peak_ratio f2))
                          (F.sub f1 f2))),
       [p1; p2; p2; p1; p2])
    else (None, [p1; p2])
  else (None, [p1]).

(** [for (int i = 0; i < n; i++) { ... break; }] over the values of [i],
    with the result variable at [0] before the loop. *)
Fixpoint scan (step : Z -> option float * reads) (values : list Z) : float * reads :=
  match values with
  | [] => (Fin 0, [])
  | i :: rest =>
      match fst (step i) with
      | Some r => (r, snd (step i))
      | None => (fst (scan step rest), snd (step i) ++ snd (scan step rest))
      end
  end.

Section HalfPeak.

Variable zncc_matrix : Z -> Z -> Z -> float.
Variable half_peak_ratio : float.
Variables x0 y0 z0 : Z.

(** Lines 640-647. *)
Definition search_rx1 : float * reads :=
  scan (fun i => let x1 := Int.add x0 i in
                 let x2 := Int.add x1 1 in
                 crossing zncc_matrix half_peak_ratio (z0, y0, x1) (z0, y0, x2) x1 x2)
       (range x0).

(** Lines 648-655. *)
Definition search_rx2 : float * reads :=
  scan (fun i => let x1 := Int.sub x0 i in
                 let x2 := Int.sub x1 1 in
                 crossing zncc_matrix half_peak_ratio (z0, y0, x1) (z0, y0, x2) x1 x2)
       (range x0).

(** Lines 658-665. *)
Definition search_ry1 : float * reads :=
  scan (fun i => let y1 := Int.add y0 i in
                 let y2 := Int.add y1 1 in
                 crossing zncc_matrix half_peak_ratio (z0, y1, x0) (z0, y2, x0) y1 y2)
       (range y0).

(** Lines 666-673: [i < y0 - 1]. *)
Definition search_ry2 : float * reads :=
  scan (fun i => let y1 := Int.sub y0 i in
                 let y2 := Int.sub y1 1 in
                 crossing zncc_matrix half_peak_ratio (z0, y1, x0) (z0, y2, x0) y1 y2)
       (range (Int.sub y0 1)).

(** Lines 676-683: [i < z0 - 1]. *)
Definition search_rz1 : float * reads :=
  scan (fun i => let z1 := Int.add z0 i in
                 let z2 := Int.add z1 1 in
                 crossing zncc_matrix half_peak_ratio (z1, y0, x0) (z2, y0, x0) z1 z2)
       (range (Int.sub z0 1)).

(** Lines 684-691: [i < z0 - 1]. *)
Definition search_rz2 : float * reads :=
  scan (fun i => let z1 := Int.sub z0 i in
                 let z2 := Int.sub z1 1 in
                 crossing zncc_matrix half_peak_ratio (z1, y0, x0) (z2, y0, x0) z1 z2)
       (range (Int.sub z0 1)).

End HalfPeak.

(** Lines 628-693 for the radii of the subset. *)
Definition speckle_size (zncc_matrix : Z -> Z -> Z -> float) (half_peak_ratio : float)
    (subset_radius_x subset_radius_y subset_radius_z : Z) : Point3D.t :=
  let z0 := Int.sub subset_radius_z 1 in
  let y0 := Int.sub subset_radius_y 1 in
  let x0 := Int.sub subset_radius_x 1 in
  let rx1 := fst (search_rx1 zncc_matrix half_peak_ratio x0 y0 z0) in
  let rx2 := fst (search_rx2 zncc_matrix half_peak_ratio x0 y0 z0) in
  let ry1 := fst (search_ry1 zncc_matrix half_peak_ratio x0 y0 z0) in
  let ry2 := fst (search_ry2 zncc_matrix half_peak_ratio x0 y0 z0) in
  let rz1 := fst (search_rz1 zncc_matrix half_peak_ratio x0 y0 z0) in
  let rz2 := fst (search_rz2 zncc_matrix half_peak_ratio x0 y0 z0) in
  Point3D.mk (F.sub rx1 rx2) (F.sub ry1 ry2) (F.sub rz1 rz2).
End FFTCC3D.

(** ** Vocabulary of the properties *)

(** The subset of [(2rx+1) x (2ry+1)] points centred at [(x, y)] has a
    point outside an image of [width x height] pixels. *)
Definition subset_outside2D (rx ry width height : Z) (x y : R) : Prop :=
  exists dx dy : Z,
    - rx <= dx <= rx /\ - ry <= dy <= ry /\
    ~ ((0 <= x + IZR dx <= IZR width - 1)%R /\
       (0 <= y + IZR dy <= IZR height - 1)%R).

Definition subset_outside3D (rx ry rz dim_x dim_y dim_z : Z) (x y z : R) : Prop :=
  exists dx dy dz : Z,
    - rx <= dx <= rx /\ - ry <= dy <= ry /\ - rz <= dz <= rz /\
    ~ ((0 <= x + IZR dx <= IZR dim_x - 1)%R /\
       (0 <= y + IZR dy <= IZR dim_y - 1)%R /\
       (0 <= z + IZR dz <= IZR dim_z - 1)%R).

(** Every scalar of the initial guess that [compute] reads. *)
Definition guess2D1 (poi : POI2D.t) : list float :=
  let d := POI2D.deformation poi in
  [ DeformationVector2D.u d; DeformationVector2D.ux d; DeformationVector2D.uy d;
    DeformationVector2D.v d; DeformationVector2D.vx d; DeformationVector2D.vy d ].

Definition guess3D1 (poi : POI3D.t) : list float :=
  let d := POI3D.deformation poi in
  [ DeformationVector3D.u d; DeformationVector3D.ux d;
    DeformationVector3D.uy d; DeformationVector3D.uz d;
    DeformationVector3D.v d; DeformationVector3D.vx d;
    DeformationVector3D.vy d; DeformationVector3D.vz d;
    DeformationVector3D.w d; DeformationVector3D.wx d;
    DeformationVector3D.wy d; DeformationVector3D.wz d ].

Definition some_nan (l : list float) : bool := existsb F.isnan l.

(** The least integer not below [s]. *)
Definition ceil (s : R) : Z := 1 - up (- s).

(** The position at which the line through [(x1, f1)] and [(x2, f2)]
    takes the value [h]. *)
Definition interpolated (x1 x2 : Z) (f1 f2 h : R) : R :=
  (IZR x2 - IZR (x2 - x1) * (h - f2) / (f1 - f2))%R.

(** A call of [compute] rejects the POI: it returns the POI marked with
    [zncc = -1] without a single pass through its loop, that is, with no
    fuel at all. *)
Definition rejected {P : Type} (compute : nat -> P * status) (marked : P) : Prop :=
  compute 0%nat = (marked, Returned).

(** What the properties of the boundary test assume of a 2D estimator and
    a POI: radii that are not negative, an image whose sizes are those of
    an image, and a POI at a finite position [(x, y)]. *)
Definition ready2D (rx ry : Z) (img : Image2D.t) (poi : POI2D.t) (x y : R) : Prop :=
  0 <= rx /\ 0 <= ry /\
  0 <= Image2D.width img <= Int.max_signed /\
  0 <= Image2D.height img <= Int.max_signed /\
  POI2D.x poi = Fin x /\ POI2D.y poi = Fin y.

Definition ready3D (rx ry rz : Z) (img : Image3D.t) (poi : POI3D.t) (x y z : R)
  : Prop :=
  0 <= rx /\ 0 <= ry /\ 0 <= rz /\
  0 <= Image3D.dim_x img <= Int.max_signed /\
  0 <= Image3D.dim_y img <= Int.max_signed /\
  0 <= Image3D.dim_z img <= Int.max_signed /\
  POI3D.x poi = Fin x /\ POI3D.y poi = Fin y /\ POI3D.z poi = Fin z.

(** Pass [n] is the first pass after which the test of a do-while
    fails: the loop leaves after pass [n] and not before. *)
Definition first_exit {S : Type} (continue : S -> bool) (after : nat -> S)
    (n : nat) : Prop :=
  (1 <= n)%nat /\
  continue (after n) = false /\
  forall j : nat, (1 <= j < n)%nat -> continue (after j) = true.

(** What holds of the pair [(max_zncc, max_zncc_index)] of the peak search
    once the indices in [seen] have been visited: no visited value is
    above [max_zncc], which is either the start value [-2] or the value at
    [max_zncc_index], a visited index. *)
Definition searched (zncc : list float) (seen : Z -> Prop) (m : float * Z) : Prop :=
  (forall i, seen i -> F.gtb (nth (Z.to_nat i) zncc NaN) (fst m) = false) /\
  ((fst m = F.of_int (-2) /\ snd m = 0) \/
   (seen (snd m) /\ fst m = nth (Z.to_nat (snd m)) zncc NaN)).

(** The index of the correlation surface at which the displacement
    [(du, dv)] sits: row [dv mod 2ry], column [du mod 2rx]. *)
Definition encode (rx ry : Z) (d : Z * Z) : Z :=
  snd d mod (2 * ry) * (2 * rx) + fst d mod (2 * rx).


(** The sum of [f a] over the elements of [l]. *)
Definition rsum {A : Type} (f : A -> R) (l : list A) : R :=
  fold_right (fun a s => (f a + s)%R) 0%R l.

(** The quadratic form of the matrix [h] at the vector [v], both indexed
    below [P]. *)
Definition quadratic (P : nat) (h : nat -> nat -> R) (v : nat -> R) : R :=
  rsum (fun i => rsum (fun j => v i * h i j * v j)%R (seq 0 P)) (seq 0 P).

(** ** Inputs of the examples

    A textureless scene: images and volumes whose every sample is 0,
    with collaborators as they behave on it. *)

Module Example.

Definition image : Image2D.t := Image2D.mk 100 100 (fun _ _ => Fin 0).
Definition volume : Image3D.t := Image3D.mk 64 64 64 (fun _ _ _ => Fin 0).

(** Modelled from the spec: [zeroMeanNorm()] "subtracts the mean in place
    and returns sqrt(sum of squares)". *)
Definition zeroMeanNorm (m : list float) : list float * float :=
  let mean := F.div (fold_left F.add m (Fin 0)) (F.of_int (Z.of_nat (length m))) in
  let m' := map (fun a => F.sub a mean) m in
  (m', F.sqrt (squaredNorm m')).

(** The inverse of a singular matrix has no finite entry; on this scene
    the Hessian is the zero matrix. *)
Definition no_inverse (m : matrix) : matrix :=
  map (fun row => map (fun _ => NaN) row) m.

Definition product (a b : matrix) : matrix :=
  map (fun row =>
         map (fun j =>
                fold_left F.add
                  (map (fun k => F.mul (nth k row NaN) (at2 b k j))
                       (seq 0 (length row)))
                  (Fin 0))
             (seq 0 (length (nth 0 b []))))
      a.

Definition numerics : Numerics :=
  Build_Numerics zeroMeanNorm no_inverse product.

Definition collaborators2D : Collaborators2D :=
  Build_Collaborators2D
    (fun img _ rx ry =>
       repeat (Image2D.eg_mat img 0 0) (Z.to_nat ((2 * rx + 1) * (2 * ry + 1))))
    (fun _ _ _ => Fin 0)
    (fun _ _ _ => Fin 0)
    (fun img _ => Image2D.eg_mat img 0 0).

Definition collaborators3D : Collaborators3D :=
  Build_Collaborators3D
    (fun img _ rx ry rz =>
       repeat (Image3D.vol_mat img 0 0 0)
              (Z.to_nat ((2 * rx + 1) * (2 * ry + 1) * (2 * rz + 1))))
    (fun _ _ _ _ => Fin 0)
    (fun _ _ _ _ => Fin 0)
    (fun _ _ _ _ => Fin 0)
    (fun img _ => Image3D.vol_mat img 0 0 0).

(** Modelled from the spec: the warp matrix of the 1st order shape
    function in 2D is [[1+ux, uy, u], [vx, 1+vy, v], [0, 0, 1]]. *)
Definition deformation2D1 : Deformation2D1.methods :=
  Deformation2D1.Build_methods
    (fun d =>
       [ [ F.add (Fin 1) (Deformation2D1.ux d); Deformation2D1.uy d; Deformation2D1.u d ];
         [ Deformation2D1.vx d; F.add (Fin 1) (Deformation2D1.vy d); Deformation2D1.v d ];
         [ Fin 0; Fin 0; Fin 1 ] ])
    (fun m =>
       Deformation2D1.mk
         (at2 m 0 2) (F.sub (at2 m 0 0) (Fin 1)) (at2 m 0 1)
         (at2 m 1 2) (at2 m 1 0) (F.sub (at2 m 1 1) (Fin 1)) m)
    (fun d p =>
       let m := Deformation2D1.warp_matrix d in
       Point2D.mk
         (F.add (F.add (F.mul (at2 m 0 0) (Point2D.x p)) (F.mul (at2 m 0 1) (Point2D.y p)))
                (at2 m 0 2))
         (F.add (F.add (F.mul (at2 m 1 0) (Point2D.x p)) (F.mul (at2 m 1 1) (Point2D.y p)))
                (at2 m 1 2))).

(** Stand-ins for the two classes whose matrices the spec does not give:
    the matrix is the row of the scalars, and the map is the translation. *)
Definition of_row2D2 (p : list float) : Deformation2D2.t :=
  Deformation2D2.mk
    (nth 0 p NaN) (nth 1 p NaN) (nth 2 p NaN) (nth 3 p NaN) (nth 4 p NaN) (nth 5 p NaN)
    (nth 6 p NaN) (nth 7 p NaN) (nth 8 p NaN) (nth 9 p NaN) (nth 10 p NaN) (nth 11 p NaN)
    [p].

Definition deformation2D2 : Deformation2D2.methods :=
  Deformation2D2.Build_methods
    of_row2D2
    (fun d =>
       of_row2D2
         [ Deformation2D1.u d; Deformation2D1.ux d; Deformation2D1.uy d; Fin 0; Fin 0; Fin 0;
           Deformation2D1.v d; Deformation2D1.vx d; Deformation2D1.vy d; Fin 0; Fin 0; Fin 0 ])
    (fun m => of_row2D2 (nth 0 m []))
    (fun d p =>
       Point2D.mk (F.add (Point2D.x p) (Deformation2D2.u d))
                  (F.add (Point2D.y p) (Deformation2D2.v d))).

Definition of_row3D1 (p : list float) : Deformation3D1.t :=
  Deformation3D1.mk
    (nth 0 p NaN) (nth 1 p NaN) (nth 2 p NaN) (nth 3 p NaN) (nth 4 p NaN) (nth 5 p NaN)
    (nth 6 p NaN) (nth 7 p NaN) (nth 8 p NaN) (nth 9 p NaN) (nth 10 p NaN) (nth 11 p NaN)
    [p].

Definition deformation3D1 : Deformation3D1.methods :=
  Deformation3D1.Build_methods
    (fun d =>
       [ [ Deformation3D1.u d; Deformation3D1.ux d; Deformation3D1.uy d; Deformation3D1.uz d;
           Deformation3D1.v d; Deformation3D1.vx d; Deformation3D1.vy d; Deformation3D1.vz d;
           Deformation3D1.w d; Deformation3D1.wx d; Deformation3D1.wy d; Deformation3D1.wz d ] ])
    of_row3D1
    (fun m => of_row3D1 (nth 0 m []))
    (fun d p =>
       Point3D.mk (F.add (Point3D.x p) (Deformation3D1.u d))
                  (F.add (Point3D.y p) (Deformation3D1.v d))
                  (F.add (Point3D.z p) (Deformation3D1.w d))).

(** The discrete Fourier transform of a [2 x 2] buffer, which is its own
    unnormalised inverse: the plans of an instance of radii [(1, 1)]. *)
Definition dft2x2 (a b c d : float) : list float :=
  [ F.add (F.add a b) (F.add c d);
    F.add (F.sub a b) (F.sub c d);
    F.sub (F.add a b) (F.add c d);
    F.sub (F.sub a b) (F.sub c d) ].

Definition fftw : FFTW.library :=
  FFTW.Build_library
    (fun _ buf =>
       map (fun a => (a, Fin 0))
           (dft2x2 (nth 0 buf NaN) (nth 1 buf NaN) (nth 2 buf NaN) (nth 3 buf NaN)))
    (fun _ freq =>
       dft2x2 (fst (nth 0 freq (NaN, NaN))) (fst (nth 1 freq (NaN, NaN)))
              (fst (nth 2 freq (NaN, NaN))) (fst (nth 3 freq (NaN, NaN)))).

Definition zero2D : DeformationVector2D.t :=
  DeformationVector2D.mk (Fin 0) (Fin 0) (Fin 0) (Fin 0) (Fin 0) (Fin 0)
                         (Fin 0) (Fin 0) (Fin 0) (Fin 0) (Fin 0) (Fin 0).

Definition zero3D : DeformationVector3D.t :=
  DeformationVector3D.mk (Fin 0) (Fin 0) (Fin 0) (Fin 0) (Fin 0) (Fin 0)
                         (Fin 0) (Fin 0) (Fin 0) (Fin 0) (Fin 0) (Fin 0).

(** A POI in the middle of the image, one 5 pixels from its edge, and one
    whose initial guess has a [NaN] gradient component. *)
Definition poi_middle : POI2D.t :=
  POI2D.mk (Fin 50) (Fin 50) zero2D (Result2D.mk (Fin 0) (Fin 0) (Fin 0) (Fin 0) (Fin 0)).

Definition poi_edge : POI2D.t :=
  POI2D.mk (Fin 5) (Fin 50) zero2D (Result2D.mk (Fin 0) (Fin 0) (Fin 0) (Fin 0) (Fin 0)).

Definition poi_nan_ux : POI2D.t :=
  POI2D.mk (Fin 50) (Fin 50)
    (DeformationVector2D.mk (Fin 0) NaN (Fin 0) (Fin 0) (Fin 0) (Fin 0)
                            (Fin 0) (Fin 0) (Fin 0) (Fin 0) (Fin 0) (Fin 0))
    (Result2D.mk (Fin 0) (Fin 0) (Fin 0) (Fin 0) (Fin 0)).

Definition poi3_middle : POI3D.t :=
  POI3D.mk (Fin 32) (Fin 32) (Fin 32) zero3D
           (Result3D.mk (Fin 0) (Fin 0) (Fin 0) (Fin 0) (Fin 0) (Fin 0)).

Definition poi3_edge : POI3D.t :=
  POI3D.mk (Fin 32) (Fin 3) (Fin 32) zero3D
           (Result3D.mk (Fin 0) (Fin 0) (Fin 0) (Fin 0) (Fin 0) (Fin 0)).

(** Estimators with the sample's settings: radius 16 in 2D, 8 in 3D,
    ten iterations at most, criterion 0.001, one thread. *)
Definition icgn1 : ICGN2D1.t :=
  ICGN2D1.new 16 16 (Fin (1 / 1000)) (F.of_int 10) 1 image image.

Definition icgn2 : ICGN2D2.t :=
  ICGN2D2.new 16 16 (Fin (1 / 1000)) (F.of_int 10) 1 image image.

Definition icgn3 : ICGN3D1.t :=
  ICGN3D1.new 8 8 8 (Fin (1 / 1000)) (F.of_int 10) 1 volume volume.

Definition fftcc : FFTCC2D.t := FFTCC2D.new 1 1 1 image image.

(** A normalised autocorrelation around its peak at [(1, 1)], for radii
    [(2, 2)]: 1 at the peak, 1/4 next to it, 0 elsewhere. *)
Definition peak (r c : Z) : float :=
  if (r =? 1) && (c =? 1) then Fin 1
  else if (Z.abs (r - 1) + Z.abs (c - 1) =? 1) then Fin (1 / 4)
  else Fin 0.

(** A correlation surface for radii [(2, 2)], sixteen values row after
    row, with its peak at index 2. *)
Definition surface : list float :=
  [ Fin 0; Fin 0; Fin 1; Fin 0; Fin 0; Fin 0; Fin 0; Fin 0;
    Fin 0; Fin 0; Fin 0; Fin 0; Fin 0; Fin 0; Fin 0; Fin 0 ].

(** A scene with texture, for a subset of one row of three pixels: the
    intensity of a pixel is its column, the interpolation of the image at
    a point is the [x] of the point, and the gradient is [(1, 0)]. *)
Definition ramp : Image2D.t := Image2D.mk 100 100 (fun _ c => Fin (IZR c)).

Definition ramp_collaborators : Collaborators2D :=
  Build_Collaborators2D
    (fun _ center rx ry =>
       flat_map (fun _ => map (fun c => F.add (Point2D.x center) (F.of_int (c - rx)))
                              (range (2 * rx + 1)))
                (range (2 * ry + 1)))
    (fun _ _ _ => Fin 1)
    (fun _ _ _ => Fin 0)
    (fun _ p => Point2D.x p).

Definition icgn_row : ICGN2D1.t :=
  ICGN2D1.new 1 0 (Fin (1 / 1000)) (F.of_int 10) 1 ramp ramp.

(** The zero-mean values of that subset, target and reference side by
    side. *)
Definition row_pairs : list (R * R) := [ (-1, -1); (0, 0); (1, 1) ]%R.

(** A stand-in for Eigen's inverse whose entries are finite: the unit
    matrix of order 6, the inverse of a Hessian that is the unit matrix. *)
Definition unit_inverse (m : matrix) : matrix :=
  map (fun i => map (fun j => if Nat.eqb i j then Fin 1 else Fin 0) (seq 0 6)) (seq 0 6).

Definition ramp_numerics : Numerics :=
  Build_Numerics zeroMeanNorm unit_inverse product.

(** The transform of a [2 x 2 x 2] buffer: entry [k] is the sum of the
    values [x[n]] with the sign [(-1)^(k . n)]; it is real and its own
    unnormalised inverse. *)
Definition sign (k n : nat) : bool :=
  xorb (xorb (Nat.testbit k 0 && Nat.testbit n 0) (Nat.testbit k 1 && Nat.testbit n 1))
       (Nat.testbit k 2 && Nat.testbit n 2).

Definition dft2x2x2 (buf : list float) : list float :=
  map (fun k =>
         fold_left (fun s n => if sign k n then F.sub s (nth n buf NaN)
                               else F.add s (nth n buf NaN))
                   (seq 0 8) (Fin 0))
      (seq 0 8).

Definition fftw3D : FFTW3D.library :=
  FFTW3D.Build_library
    (fun _ buf => map (fun a => (a, Fin 0)) (dft2x2x2 buf))
    (fun _ freq => dft2x2x2 (map fst freq)).

(** An estimator of radii [(1, 1, 1)] on the textureless volume. *)
Definition fftcc3 : FFTCC3D.t := FFTCC3D.new 1 1 1 1 volume volume.

(** A normalised autocorrelation around its peak at [(2, 2, 2)], for
    radii [(3, 3, 3)]: 1 at the peak, 1/4 next to it, 0 elsewhere. *)
Definition peak3 (z y x : Z) : float :=
  if (z =? 2) && (y =? 2) && (x =? 2) then Fin 1
  else if (Z.abs (z - 2) + Z.abs (y - 2) + Z.abs (x - 2) =? 1) then Fin (1 / 4)
  else Fin 0.

(** A frame without a valid sample. *)
Definition blank : Image2D.t := Image2D.mk 100 100 (fun _ _ => NaN).

Definition fftcc_blank : FFTCC2D.t := FFTCC2D.new 1 1 1 blank image.

(** A POI on the left border of the image. *)
Definition poi_border : POI2D.t :=
  POI2D.mk (Fin 0) (Fin 50) zero2D
           (Result2D.mk (Fin 0) (Fin 0) (Fin 0) (Fin 0) (Fin 0)).

(** Vertical stripes one pixel wide, and the same stripes one pixel to the
    right; an estimator of radii [(1, 1)] on the pair. *)
Definition stripes : Image2D.t :=
  Image2D.mk 100 100 (fun _ c => if Z.even c then Fin 1 else Fin 0).

Definition stripes_moved : Image2D.t :=
  Image2D.mk 100 100 (fun _ c => if Z.even (c - 1) then Fin 1 else Fin 0).

Definition fftcc_stripes : FFTCC2D.t := FFTCC2D.new 1 1 1 stripes stripes_moved.

End Example.

(** * Properties *)

(** ** Arithmetic of the model *)

Lemma wrap_in_range (z : Z) : Int.in_range z -> Int.wrap z = z.
Proof.
  unfold Int.in_range, Int.wrap, Int.min_signed, Int.max_signed, Int.modulus.
  intros H. rewrite Z.mod_small; lia.
Qed.

Lemma ltb_Fin (a b : R) : F.ltb (Fin a) (Fin b) = true <-> (a < b)%R.
Proof. simpl. destruct (Rlt_dec a b); split; intros; auto; discriminate. Qed.

Lemma leb_Fin (a b : R) : F.leb (Fin a) (Fin b) = true <-> (a <= b)%R.
Proof. simpl. destruct (Rle_dec a b); split; intros; auto; discriminate. Qed.

Lemma gtb_Fin (a b : R) : F.gtb (Fin a) (Fin b) = true <-> (a > b)%R.
Proof. unfold F.gtb. rewrite ltb_Fin. reflexivity. Qed.

Lemma ltb_Fin_false (a b : R) : F.ltb (Fin a) (Fin b) = false <-> (b <= a)%R.
Proof.
  simpl. destruct (Rlt_dec a b); split; intros; auto; try discriminate; lra.
Qed.

Lemma leb_Fin_false (a b : R) : F.leb (Fin a) (Fin b) = false <-> (b < a)%R.
Proof.
  simpl. destruct (Rle_dec a b); split; intros; auto; try discriminate; lra.
Qed.

Lemma geb_NaN_l (a : float) : F.geb NaN a = false.
Proof. destruct a; reflexivity. Qed.

Lemma div_Fin (a b : R) : b <> 0%R -> F.div (Fin a) (Fin b) = Fin (a / b).
Proof. intros H. simpl. destruct (Req_dec_T b 0); [contradiction | reflexivity]. Qed.

Lemma sqrt_Fin (a : R) : (0 <= a)%R -> F.sqrt (Fin a) = Fin (sqrt a).
Proof. intros H. simpl. destruct (Rlt_dec a 0); [lra | reflexivity]. Qed.

Lemma sqrt_negative (a : R) : (a < 0)%R -> F.sqrt (Fin a) = NaN.
Proof. intros H. simpl. destruct (Rlt_dec a 0); [reflexivity | lra]. Qed.

Lemma add_NaN_r (a : float) : F.add a NaN = NaN.
Proof. destruct a; reflexivity. Qed.

Lemma ceil_spec (s : R) : (IZR (ceil s) - 1 < s <= IZR (ceil s))%R.
Proof.
  unfold ceil. destruct (archimed (- s)) as [H1 H2].
  rewrite minus_IZR. lra.
Qed.

Lemma in_range_iff (n i : Z) : In i (range n) <-> 0 <= i < n.
Proof.
  unfold range. rewrite in_map_iff. split.
  - intros [k [<- Hk]]. apply in_seq in Hk. lia.
  - intros H. exists (Z.to_nat i). split; [lia | apply in_seq; lia].
Qed.

Lemma up_IZR (z : Z) : up (IZR z) = z + 1.
Proof.
  symmetry. apply tech_up; rewrite plus_IZR; lra.
Qed.

Lemma to_int_of_int (z : Z) : Int.in_range z -> F.to_int (F.of_int z) = z.
Proof.
  intros Hz. unfold F.to_int, F.of_int.
  destruct (Rle_dec 0 (IZR z)) as [H | H].
  - rewrite up_IZR. replace (z + 1 - 1) with z by lia. apply wrap_in_range, Hz.
  - rewrite <- opp_IZR, up_IZR. replace (- (- z + 1 - 1)) with z by lia.
    apply wrap_in_range, Hz.
Qed.

Lemma to_int_Fin (x : R) (z : Z) :
  x = IZR z -> Int.in_range z -> F.to_int (Fin x) = z.
Proof. intros -> Hz. apply (to_int_of_int z Hz). Qed.

Lemma range_length (n : Z) : length (range n) = Z.to_nat n.
Proof. unfold range. rewrite length_map, length_seq. reflexivity. Qed.

Lemma grid_length (w h : Z) :
  length (flat_map (fun r => map (fun c => (r, c)) (range w)) (range h))
  = (Z.to_nat h * Z.to_nat w)%nat.
Proof.
  rewrite <- (range_length h).
  induction (range h) as [| r l IH]; [reflexivity |].
  cbn [flat_map length]. rewrite length_app, IH, length_map, range_length.
  reflexivity.
Qed.

Lemma range_nth (n : Z) (i : nat) (d : Z) :
  (i < Z.to_nat n)%nat -> nth i (range n) d = Z.of_nat i.
Proof.
  intros H. unfold range.
  rewrite (nth_indep _ d (Z.of_nat 0)) by (rewrite length_map, length_seq; exact H).
  rewrite map_nth, seq_nth by exact H. reflexivity.
Qed.

(** The value that a loop over [i < n] leaves at index [i]. *)
Lemma map_range_nth {A : Type} (g : Z -> A) (n i : Z) (d : A) :
  0 <= i < n -> nth (Z.to_nat i) (map g (range n)) d = g i.
Proof.
  intros H.
  rewrite (nth_indep _ d (g 0)) by (rewrite length_map, range_length; lia).
  rewrite map_nth, range_nth by lia. f_equal. lia.
Qed.

Lemma rows_nth {A : Type} (f : Z * Z -> A) (d : A) (w : Z) (n a k c : nat) :
  (k < n)%nat -> (c < Z.to_nat w)%nat ->
  nth (k * Z.to_nat w + c)
      (map f (flat_map (fun r => map (fun c => (r, c)) (range w))
                       (map Z.of_nat (seq a n)))) d
  = f (Z.of_nat (a + k), Z.of_nat c).
Proof.
  revert a k. induction n as [| n IH]; intros a k Hk Hc; [lia |].
  cbn [seq map flat_map]. rewrite map_app.
  assert (Hlen : length (map f (map (fun c0 : Z => (Z.of_nat a, c0)) (range w)))
                 = Z.to_nat w).
  { rewrite !length_map. apply range_length. }
  destruct k as [| k].
  - cbn [Nat.mul Nat.add]. rewrite app_nth1 by (rewrite Hlen; exact Hc).
    rewrite map_map.
    replace c with (Z.to_nat (Z.of_nat c)) at 1 by lia.
    rewrite map_range_nth by lia. rewrite Nat.add_0_r. reflexivity.
  - rewrite app_nth2 by (rewrite Hlen; lia).
    rewrite Hlen.
    replace (S k * Z.to_nat w + c - Z.to_nat w)%nat with (k * Z.to_nat w + c)%nat by lia.
    rewrite IH by lia. f_equal. f_equal. lia.
Qed.

(** The value that two nested loops, over [r < h] and then [c < w], leave
    at index [r * w + c]. *)
Lemma grid_nth {A : Type} (f : Z * Z -> A) (d : A) (w h r c : Z) :
  0 <= r < h -> 0 <= c < w ->
  nth (Z.to_nat (r * w + c))
      (map f (flat_map (fun r => map (fun c => (r, c)) (range w)) (range h))) d
  = f (r, c).
Proof.
  intros Hr Hc.
  change (range h) with (map Z.of_nat (seq 0 (Z.to_nat h))).
  replace (Z.to_nat (r * w + c)) with (Z.to_nat r * Z.to_nat w + Z.to_nat c)%nat
    by (rewrite Z2Nat.inj_add, Z2Nat.inj_mul; nia).
  rewrite rows_nth by lia. f_equal. f_equal; lia.
Qed.

(** ** The do-while loop *)

Section DoWhileFacts.

Context {S : Type}.
Variable body : S -> S.
Variable continue : S -> bool.

Lemma passes_succ (n : nat) (s : S) :
  passes body (Datatypes.S n) s = body (passes body n s).
Proof.
  revert s. induction n as [| n IH]; intros s; [reflexivity |].
  change (passes body (Datatypes.S (Datatypes.S n)) s)
    with (passes body (Datatypes.S n) (body s)).
  rewrite IH. reflexivity.
Qed.

(** If the test fails after some pass, the loop leaves after the first
    such pass, whatever fuel is left beyond it. *)
Lemma do_while_first_exit (n : nat) (s : S) :
  (1 <= n)%nat ->
  continue (passes body n s) = false ->
  exists m : nat,
    (1 <= m <= n)%nat /\
    continue (passes body m s) = false /\
    (forall j : nat, (1 <= j < m)%nat -> continue (passes body j s) = true) /\
    (forall fuel : nat, (m <= fuel)%nat ->
       do_while body continue fuel s = Some (passes body m s)).
Proof.
  revert s. induction n as [| n IH]; intros s Hn Hexit; [lia |].
  destruct (continue (body s)) eqn:Hfirst.
  - destruct n as [| n'].
    + simpl in Hexit. congruence.
    + destruct (IH (body s)) as [m [Hm [Hstop [Hbefore Hrun]]]]; [lia | exact Hexit |].
      exists (Datatypes.S m). repeat split; try lia.
      * exact Hstop.
      * intros j Hj. destruct j as [| j]; [lia |].
        destruct j as [| j]; [exact Hfirst |].
        apply (Hbefore (Datatypes.S j)). lia.
      * intros fuel Hfuel. destruct fuel as [| fuel]; [lia |].
        simpl. rewrite Hfirst. apply Hrun. lia.
  - exists 1%nat. repeat split; try lia.
    + exact Hfirst.
    + intros fuel Hfuel. destruct fuel as [| fuel]; [lia |].
      simpl. rewrite Hfirst. reflexivity.
Qed.

(** A loop with a counter that each pass increments and that the test
    compares with a bound. *)
Variable counter : S -> Z.
Variable bound : float.
Hypothesis counter_body : forall s, counter (body s) = Int.add (counter s) 1.
Hypothesis continue_counter :
  forall s, continue s = true -> F.ltb (F.of_int (counter s)) bound = true.

Lemma counter_passes (n : nat) (s : S) :
  counter s = 0 -> Z.of_nat n <= Int.max_signed ->
  counter (passes body n s) = Z.of_nat n.
Proof.
  intros H0. induction n as [| n IH]; intros Hn; [exact H0 |].
  rewrite passes_succ, counter_body, IH by lia.
  unfold Int.add. rewrite wrap_in_range; [lia |].
  unfold Int.in_range, Int.min_signed, Int.max_signed in *. lia.
Qed.

(** The loop leaves within [ceil bound] passes. *)
Lemma do_while_bounded (b : R) (s : S) :
  bound = Fin b -> (1 <= b <= IZR Int.max_signed)%R -> counter s = 0 ->
  exists m : nat,
    1 <= Z.of_nat m <= ceil b /\
    counter (passes body m s) = Z.of_nat m /\
    continue (passes body m s) = false /\
    (forall j : nat, (1 <= j < m)%nat -> continue (passes body j s) = true) /\
    (forall fuel : nat, (m <= fuel)%nat ->
       do_while body continue fuel s = Some (passes body m s)).
Proof.
  intros Hb Hrange H0.
  pose proof (ceil_spec b) as [Hc1 Hc2].
  assert (Hpos : 1 <= ceil b).
  { apply le_IZR. lra. }
  assert (Hmax : ceil b <= Int.max_signed).
  { assert (ceil b - 1 < Int.max_signed); [| lia].
    apply lt_IZR. rewrite minus_IZR. lra. }
  destruct (do_while_first_exit (Z.to_nat (ceil b)) s) as [m [Hm [Hstop [Hbefore Hrun]]]].
  - lia.
  - destruct (continue (passes body (Z.to_nat (ceil b)) s)) eqn:Hc; [| reflexivity].
    apply continue_counter in Hc.
    rewrite counter_passes in Hc by lia.
    rewrite Hb in Hc. unfold F.of_int in Hc. apply ltb_Fin in Hc.
    rewrite Z2Nat.id in Hc by lia. lra.
  - exists m. repeat split; try lia; auto.
    apply counter_passes; [exact H0 | lia].
Qed.

End DoWhileFacts.

(** ** The scratch pool *)

Section PoolFacts.

Context {Inst : Type}.

Lemma pool_fill_length (allocate : nat -> Inst) (n : Z) :
  length (pool_fill allocate n) = Z.to_nat n.
Proof. unfold pool_fill. rewrite length_map, length_seq. reflexivity. Qed.

Lemma pool_fill_size (allocate : nat -> Inst) (n : Z) :
  0 <= n <= Int.max_signed -> pool_size (pool_fill allocate n) = n.
Proof.
  intros H. unfold pool_size. rewrite pool_fill_length, Z2Nat.id by lia.
  apply wrap_in_range. unfold Int.in_range, Int.min_signed, Int.max_signed in *. lia.
Qed.

Lemma pool_fill_nth (allocate : nat -> Inst) (n tid : Z) :
  0 <= tid < n ->
  nth_error (pool_fill allocate n) (Z.to_nat tid) = Some (allocate (Z.to_nat tid)).
Proof.
  intros H. unfold pool_fill.
  rewrite nth_error_map, nth_error_seq.
  replace (Z.to_nat tid <? Z.to_nat n)%nat with true; [reflexivity |].
  symmetry. apply Nat.ltb_lt. lia.
Qed.

Lemma pool_getInstance_raise (pool : list Inst) (tid : Z) :
  (exists msg, pool_getInstance pool tid = Raise msg) <-> tid >= pool_size pool.
Proof.
  unfold pool_getInstance.
  destruct (tid >=? pool_size pool) eqn:Hge.
  - split; [intros _; lia | intros _; eexists; reflexivity].
  - split; [| lia]. intros [msg H].
    destruct (tid <? 0); [discriminate |].
    destruct (nth_error pool (Z.to_nat tid)); discriminate.
Qed.

Lemma pool_getInstance_over (pool : list Inst) (tid : Z) :
  tid >= pool_size pool -> pool_getInstance pool tid = Raise over_limit.
Proof.
  intros H. unfold pool_getInstance.
  destruct (tid >=? pool_size pool) eqn:Hge; [reflexivity | lia].
Qed.

Lemma pool_getInstance_got (allocate : nat -> Inst) (n tid : Z) :
  n <= Int.max_signed -> 0 <= tid < n ->
  pool_getInstance (pool_fill allocate n) tid = Got (allocate (Z.to_nat tid)).
Proof.
  intros Hn H. unfold pool_getInstance.
  rewrite pool_fill_size by lia.
  destruct (tid >=? n) eqn:Hge; [lia |].
  destruct (tid <? 0) eqn:Hneg; [lia |].
  rewrite pool_fill_nth by lia. reflexivity.
Qed.

End PoolFacts.

(** C9. On an estimator constructed with [thread_number = n], the pool
    holds exactly [n] instances; for a thread index [tid], [getInstance]
    raises if and only if [tid >= n], and otherwise returns the instance
    allocated in pass [tid], which is the one at position [tid] of the
    pool; when it raises inside [compute], the POI is as it was before
    the call. *)
Theorem getInstance_checks_thread_id :
  forall (n tid : Z), 0 <= n <= Int.max_signed -> 0 <= tid ->
  forall (rx ry rz : Z) (conv stop : float) (ref tar : Image2D.t)
         (ref3 tar3 : Image3D.t),
  let icgn1 := ICGN2D1.new rx ry conv stop n ref tar in
  let icgn2 := ICGN2D2.new rx ry conv stop n ref tar in
  let icgn3 := ICGN3D1.new rx ry rz conv stop n ref3 tar3 in
  let fftcc := FFTCC2D.new rx ry n ref tar in
  (Z.of_nat (length (ICGN2D1.instance_pool icgn1)) = n /\
   Z.of_nat (length (FFTCC2D.instance_pool fftcc)) = n) /\
  (((exists msg, ICGN2D1.getInstance icgn1 tid = Raise msg) <-> tid >= n) /\
   ((exists msg, FFTCC2D.getInstance fftcc tid = Raise msg) <-> tid >= n)) /\
  (tid < n ->
   ICGN2D1.getInstance icgn1 tid = Got (ICGN2D1_.allocate rx ry (Z.to_nat tid)) /\
   nth_error (ICGN2D1.instance_pool icgn1) (Z.to_nat tid)
     = Some (ICGN2D1_.allocate rx ry (Z.to_nat tid)) /\
   FFTCC2D.getInstance fftcc tid = Got (FFTW.allocate rx ry (Z.to_nat tid)) /\
   nth_error (FFTCC2D.instance_pool fftcc) (Z.to_nat tid)
     = Some (FFTW.allocate rx ry (Z.to_nat tid))) /\
  (tid >= n ->
   forall (N : Numerics) (K : Collaborators2D) (K3 : Collaborators3D)
          (D1 : Deformation2D1.methods) (D2 : Deformation2D2.methods)
          (D3 : Deformation3D1.methods) (L : FFTW.library)
          (fuel : nat) (poi : POI2D.t) (poi3 : POI3D.t),
   ICGN2D1.compute N K D1 icgn1 fuel tid poi = (poi, Thrown over_limit) /\
   ICGN2D2.compute N K D1 D2 icgn2 fuel tid poi = (poi, Thrown over_limit) /\
   ICGN3D1.compute N K3 D3 icgn3 fuel tid poi3 = (poi3, Thrown over_limit) /\
   FFTCC2D.compute L fftcc tid poi = (poi, Thrown over_limit)).
Proof.
  intros n tid Hn Htid rx ry rz conv stop ref tar ref3 tar3 icgn1 icgn2 icgn3 fftcc.
  repeat split.
  - simpl. rewrite pool_fill_length. lia.
  - simpl. rewrite pool_fill_length. lia.
  - intros H. apply pool_getInstance_raise in H. simpl in H.
    rewrite pool_fill_size in H by lia. exact H.
  - intros H. apply pool_getInstance_raise. simpl.
    rewrite pool_fill_size by lia. exact H.
  - intros H. apply pool_getInstance_raise in H. simpl in H.
    rewrite pool_fill_size in H by lia. exact H.
  - intros H. apply pool_getInstance_raise. simpl.
    rewrite pool_fill_size by lia. exact H.
  - apply pool_getInstance_got; lia.
  - apply pool_fill_nth; lia.
  - apply pool_getInstance_got; lia.
  - apply pool_fill_nth; lia.
  - unfold ICGN2D1.compute, ICGN2D1.getInstance.
    rewrite pool_getInstance_over; [reflexivity |].
    simpl. rewrite pool_fill_size by lia. exact H.
  - unfold ICGN2D2.compute, ICGN2D2.getInstance.
    rewrite pool_getInstance_over; [reflexivity |].
    simpl. rewrite pool_fill_size by lia. exact H.
  - unfold ICGN3D1.compute, ICGN3D1.getInstance.
    rewrite pool_getInstance_over; [reflexivity |].
    simpl. rewrite pool_fill_size by lia. exact H.
  - unfold FFTCC2D.compute, FFTCC2D.getInstance.
    rewrite pool_getInstance_over; [reflexivity |].
    simpl. rewrite pool_fill_size by lia. exact H.
Qed.

(** With one thread, index 1 is refused and the POI is untouched. *)
Lemma getInstance_checks_thread_id_witness :
  (0 <= 1 <= Int.max_signed /\ 0 <= 1) /\
  ICGN2D1.compute Example.numerics Example.collaborators2D Example.deformation2D1
                  Example.icgn1 5 1 Example.poi_middle
  = (Example.poi_middle, Thrown over_limit).
Proof.
  assert (H : 0 <= 1 <= Int.max_signed /\ 0 <= 1).
  { unfold Int.max_signed. lia. }
  split; [exact H |].
  destruct H as [Hn Htid].
  destruct (getInstance_checks_thread_id 1 1 Hn Htid 16 16 16
              (Fin (1 / 1000)) (F.of_int 10) Example.image Example.image
              Example.volume Example.volume) as [_ [_ [_ Hthrow]]].
  assert (Hge : 1 >= 1) by lia.
  exact (proj1 (Hthrow Hge Example.numerics Example.collaborators2D
                  Example.collaborators3D Example.deformation2D1
                  Example.deformation2D2 Example.deformation3D1 Example.fftw
                  5%nat Example.poi_middle Example.poi3_middle)).
Defined.

(** ** The boundary test of the ICGN estimators *)

Lemma IZR_radius (r d : Z) : - r <= d <= r -> (- IZR r <= IZR d <= IZR r)%R.
Proof.
  intros [H1 H2]. split.
  - rewrite <- opp_IZR. apply IZR_le. exact H1.
  - apply IZR_le. exact H2.
Qed.

Lemma outside2D_iff (rx ry width height : Z) (x y : R) :
  0 <= rx -> 0 <= ry ->
  subset_outside2D rx ry width height x y <->
  (y - IZR ry < 0 \/ x - IZR rx < 0 \/
   y + IZR ry > IZR height - 1 \/ x + IZR rx > IZR width - 1)%R.
Proof.
  intros Hrx Hry. split.
  - intros [dx [dy [Hdx [Hdy Hout]]]].
    apply IZR_radius in Hdx. apply IZR_radius in Hdy.
    destruct (Rlt_dec (y - IZR ry) 0) as [H1 | H1]; [auto |].
    destruct (Rlt_dec (x - IZR rx) 0) as [H2 | H2]; [auto |].
    destruct (Rlt_dec (IZR height - 1) (y + IZR ry)) as [H3 | H3];
      [right; right; left; lra |].
    destruct (Rlt_dec (IZR width - 1) (x + IZR rx)) as [H4 | H4];
      [right; right; right; lra |].
    exfalso. apply Hout. lra.
  - assert (Hrx' : (0 <= IZR rx)%R) by (apply IZR_le; exact Hrx).
    assert (Hry' : (0 <= IZR ry)%R) by (apply IZR_le; exact Hry).
    intros [H | [H | [H | H]]].
    + exists 0, (- ry). repeat split; try lia. rewrite opp_IZR. lra.
    + exists (- rx), 0. repeat split; try lia. rewrite opp_IZR. lra.
    + exists 0, ry. repeat split; try lia. lra.
    + exists rx, 0. repeat split; try lia. lra.
Qed.

Lemma outside3D_iff (rx ry rz dim_x dim_y dim_z : Z) (x y z : R) :
  0 <= rx -> 0 <= ry -> 0 <= rz ->
  subset_outside3D rx ry rz dim_x dim_y dim_z x y z <->
  (x - IZR rx < 0 \/ y - IZR ry < 0 \/ z - IZR rz < 0 \/
   x + IZR rx > IZR dim_x - 1 \/ y + IZR ry > IZR dim_y - 1 \/
   z + IZR rz > IZR dim_z - 1)%R.
Proof.
  intros Hrx Hry Hrz. split.
  - intros [dx [dy [dz [Hdx [Hdy [Hdz Hout]]]]]].
    apply IZR_radius in Hdx. apply IZR_radius in Hdy. apply IZR_radius in Hdz.
    destruct (Rlt_dec (x - IZR rx) 0) as [H1 | H1]; [auto |].
    destruct (Rlt_dec (y - IZR ry) 0) as [H2 | H2]; [auto |].
    destruct (Rlt_dec (z - IZR rz) 0) as [H3 | H3]; [auto |].
    destruct (Rlt_dec (IZR dim_x - 1) (x + IZR rx)) as [H4 | H4];
      [right; right; right; left; lra |].
    destruct (Rlt_dec (IZR dim_y - 1) (y + IZR ry)) as [H5 | H5];
      [right; right; right; right; left; lra |].
    destruct (Rlt_dec (IZR dim_z - 1) (z + IZR rz)) as [H6 | H6];
      [right; right; right; right; right; lra |].
    exfalso. apply Hout. lra.
  - assert (Hrx' : (0 <= IZR rx)%R) by (apply IZR_le; exact Hrx).
    assert (Hry' : (0 <= IZR ry)%R) by (apply IZR_le; exact Hry).
    assert (Hrz' : (0 <= IZR rz)%R) by (apply IZR_le; exact Hrz).
    intros [H | [H | [H | [H | [H | H]]]]].
    + exists (- rx), 0, 0. repeat split; try lia. rewrite opp_IZR. lra.
    + exists 0, (- ry), 0. repeat split; try lia. rewrite opp_IZR. lra.
    + exists 0, 0, (- rz). repeat split; try lia. rewrite opp_IZR. lra.
    + exists rx, 0, 0. repeat split; try lia. lra.
    + exists 0, ry, 0. repeat split; try lia. lra.
    + exists 0, 0, rz. repeat split; try lia. lra.
Qed.

Lemma size_minus_one (n : Z) :
  0 <= n <= Int.max_signed -> F.of_int (Int.sub n 1) = Fin (IZR n - 1).
Proof.
  intros H. unfold F.of_int, Int.sub. rewrite wrap_in_range.
  - rewrite minus_IZR. reflexivity.
  - unfold Int.in_range, Int.min_signed, Int.max_signed in *. lia.
Qed.

Lemma ICGN2D1_rejects_iff (est : ICGN2D1.t) (poi : POI2D.t) (x y : R) :
  ready2D (ICGN2D1.subset_radius_x est) (ICGN2D1.subset_radius_y est)
          (ICGN2D1.ref_img est) poi x y ->
  ICGN2D1.rejects est poi = true <->
  subset_outside2D (ICGN2D1.subset_radius_x est) (ICGN2D1.subset_radius_y est)
                   (Image2D.width (ICGN2D1.ref_img est))
                   (Image2D.height (ICGN2D1.ref_img est)) x y
  \/ F.isnan (DeformationVector2D.u (POI2D.deformation poi)) = true
  \/ F.isnan (DeformationVector2D.v (POI2D.deformation poi)) = true.
Proof.
  intros [Hrx [Hry [Hw [Hh [Hx Hy]]]]].
  unfold ICGN2D1.rejects. rewrite Hx, Hy, !size_minus_one by assumption.
  unfold F.of_int. cbn [F.sub F.add F.lift2].
  rewrite !orb_true_iff, !ltb_Fin, !gtb_Fin, outside2D_iff by assumption.
  tauto.
Qed.

Lemma ICGN2D2_rejects_iff (est : ICGN2D2.t) (poi : POI2D.t) (x y : R) :
  ready2D (ICGN2D2.subset_radius_x est) (ICGN2D2.subset_radius_y est)
          (ICGN2D2.ref_img est) poi x y ->
  ICGN2D2.rejects est poi = true <->
  subset_outside2D (ICGN2D2.subset_radius_x est) (ICGN2D2.subset_radius_y est)
                   (Image2D.width (ICGN2D2.ref_img est))
                   (Image2D.height (ICGN2D2.ref_img est)) x y
  \/ F.isnan (DeformationVector2D.u (POI2D.deformation poi)) = true
  \/ F.isnan (DeformationVector2D.v (POI2D.deformation poi)) = true.
Proof.
  intros [Hrx [Hry [Hw [Hh [Hx Hy]]]]].
  unfold ICGN2D2.rejects. rewrite Hx, Hy, !size_minus_one by assumption.
  unfold F.of_int. cbn [F.sub F.add F.lift2].
  rewrite !orb_true_iff, !ltb_Fin, !gtb_Fin, outside2D_iff by assumption.
  tauto.
Qed.

Lemma ICGN3D1_rejects_iff (est : ICGN3D1.t) (poi : POI3D.t) (x y z : R) :
  ready3D (ICGN3D1.subset_radius_x est) (ICGN3D1.subset_radius_y est)
          (ICGN3D1.subset_radius_z est) (ICGN3D1.ref_img est) poi x y z ->
  ICGN3D1.rejects est poi = true <->
  subset_outside3D (ICGN3D1.subset_radius_x est) (ICGN3D1.subset_radius_y est)
                   (ICGN3D1.subset_radius_z est)
                   (Image3D.dim_x (ICGN3D1.ref_img est))
                   (Image3D.dim_y (ICGN3D1.ref_img est))
                   (Image3D.dim_z (ICGN3D1.ref_img est)) x y z.
Proof.
  intros [Hrx [Hry [Hrz [Hdx [Hdy [Hdz [Hx [Hy Hz]]]]]]]].
  unfold ICGN3D1.rejects. rewrite Hx, Hy, Hz, !size_minus_one by assumption.
  unfold F.of_int. cbn [F.sub F.add F.lift2].
  rewrite !orb_true_iff, !ltb_Fin, !gtb_Fin, outside3D_iff by assumption.
  tauto.
Qed.

(** What [compute] does without fuel tells the two branches apart. *)
Lemma ICGN2D1_rejected_iff (N : Numerics) (K : Collaborators2D)
    (D : Deformation2D1.methods) (est : ICGN2D1.t) (tid : Z)
    (inst : ICGN2D1_.t) (poi : POI2D.t) :
  ICGN2D1.getInstance est tid = Got inst ->
  rejected (fun fuel => ICGN2D1.compute N K D est fuel tid poi) (ICGN2D1.mark poi)
  <-> ICGN2D1.rejects est poi = true.
Proof.
  intros Hinst. unfold rejected, ICGN2D1.compute. rewrite Hinst.
  destruct (ICGN2D1.rejects est poi); simpl.
  - split; reflexivity.
  - split; intros H; discriminate H.
Qed.

Lemma ICGN2D2_rejected_iff (N : Numerics) (K : Collaborators2D)
    (D1 : Deformation2D1.methods) (D : Deformation2D2.methods)
    (est : ICGN2D2.t) (tid : Z) (inst : ICGN2D2_.t) (poi : POI2D.t) :
  ICGN2D2.getInstance est tid = Got inst ->
  rejected (fun fuel => ICGN2D2.compute N K D1 D est fuel tid poi) (ICGN2D2.mark poi)
  <-> ICGN2D2.rejects est poi = true.
Proof.
  intros Hinst. unfold rejected, ICGN2D2.compute. rewrite Hinst.
  destruct (ICGN2D2.rejects est poi); simpl.
  - split; reflexivity.
  - split; intros H; discriminate H.
Qed.

Lemma ICGN3D1_rejected_iff (N : Numerics) (K : Collaborators3D)
    (D : Deformation3D1.methods) (est : ICGN3D1.t) (tid : Z)
    (inst : ICGN3D1_.t) (poi : POI3D.t) :
  ICGN3D1.getInstance est tid = Got inst ->
  rejected (fun fuel => ICGN3D1.compute N K D est fuel tid poi) (ICGN3D1.mark poi)
  <-> ICGN3D1.rejects est poi = true.
Proof.
  intros Hinst. unfold rejected, ICGN3D1.compute. rewrite Hinst.
  destruct (ICGN3D1.rejects est poi); simpl.
  - split; reflexivity.
  - split; intros H; discriminate H.
Qed.

(** Facts about the inputs of the examples. *)

Lemma example_ready_middle :
  ready2D 16 16 Example.image Example.poi_middle 50 50.
Proof. unfold ready2D, Int.max_signed. simpl. repeat split; lia. Qed.

Lemma example_ready_edge :
  ready2D 16 16 Example.image Example.poi_edge 5 50.
Proof. unfold ready2D, Int.max_signed. simpl. repeat split; lia. Qed.

Lemma example_ready_nan_ux :
  ready2D 16 16 Example.image Example.poi_nan_ux 50 50.
Proof. unfold ready2D, Int.max_signed. simpl. repeat split; lia. Qed.

Lemma example_ready3_middle :
  ready3D 8 8 8 Example.volume Example.poi3_middle 32 32 32.
Proof. unfold ready3D, Int.max_signed. simpl. repeat split; lia. Qed.

Lemma example_ready3_edge :
  ready3D 8 8 8 Example.volume Example.poi3_edge 32 3 32.
Proof. unfold ready3D, Int.max_signed. simpl. repeat split; lia. Qed.

Lemma example_edge_outside : subset_outside2D 16 16 100 100 5 50.
Proof.
  exists (- 16), 0. repeat split; try lia. intros [[H _] _]. lra.
Qed.

Lemma example_middle_inside : ~ subset_outside2D 16 16 100 100 50 50.
Proof.
  intros H. apply outside2D_iff in H; [| lia | lia]. lra.
Qed.

Lemma example3_middle_inside : ~ subset_outside3D 8 8 8 64 64 64 32 32 32.
Proof.
  intros H. apply outside3D_iff in H; [| lia | lia | lia]. lra.
Qed.

Lemma example_instance1 :
  ICGN2D1.getInstance Example.icgn1 0 = Got (ICGN2D1_.allocate 16 16 0).
Proof. reflexivity. Qed.

Lemma example_instance2 :
  ICGN2D2.getInstance Example.icgn2 0 = Got (ICGN2D2_.allocate 16 16 0).
Proof. reflexivity. Qed.

Lemma example_instance3 :
  ICGN3D1.getInstance Example.icgn3 0 = Got (ICGN3D1_.allocate 8 8 8 0).
Proof. reflexivity. Qed.

Lemma example_instance_fftcc :
  FFTCC2D.getInstance Example.fftcc 0 = Got (FFTW.allocate 1 1 0).
Proof. reflexivity. Qed.

(** C1, as the code has it.  With a scratch instance for the thread, radii
    that are not negative and a POI at a finite position: ICGN2D1 and
    ICGN2D2 reject the POI (mark it with [zncc = -1] and return without a
    pass through the loop) exactly when the subset extends outside the
    reference image or [deformation.u] or [deformation.v] is [NaN];
    ICGN3D1 rejects it whenever the subset extends outside the reference
    volume and, when the initial guess has no [NaN], only then. *)
Theorem ICGN_rejects_exactly :
  forall (N : Numerics) (K : Collaborators2D) (K3 : Collaborators3D)
         (D1 : Deformation2D1.methods) (D2 : Deformation2D2.methods)
         (D3 : Deformation3D1.methods)
         (e1 : ICGN2D1.t) (e2 : ICGN2D2.t) (e3 : ICGN3D1.t) (tid : Z)
         (i1 : ICGN2D1_.t) (i2 : ICGN2D2_.t) (i3 : ICGN3D1_.t)
         (poi : POI2D.t) (poi3 : POI3D.t) (x y x3 y3 z3 : R),
  ICGN2D1.getInstance e1 tid = Got i1 ->
  ICGN2D2.getInstance e2 tid = Got i2 ->
  ICGN3D1.getInstance e3 tid = Got i3 ->
  ready2D (ICGN2D1.subset_radius_x e1) (ICGN2D1.subset_radius_y e1)
          (ICGN2D1.ref_img e1) poi x y ->
  ready2D (ICGN2D2.subset_radius_x e2) (ICGN2D2.subset_radius_y e2)
          (ICGN2D2.ref_img e2) poi x y ->
  ready3D (ICGN3D1.subset_radius_x e3) (ICGN3D1.subset_radius_y e3)
          (ICGN3D1.subset_radius_z e3) (ICGN3D1.ref_img e3) poi3 x3 y3 z3 ->
  (Result2D.zncc (POI2D.result (ICGN2D1.mark poi)) = F.of_int (-1) /\
   Result2D.zncc (POI2D.result (ICGN2D2.mark poi)) = F.of_int (-1) /\
   Result3D.zncc (POI3D.result (ICGN3D1.mark poi3)) = F.of_int (-1)) /\
  (rejected (fun fuel => ICGN2D1.compute N K D1 e1 fuel tid poi) (ICGN2D1.mark poi)
   <-> subset_outside2D (ICGN2D1.subset_radius_x e1) (ICGN2D1.subset_radius_y e1)
                        (Image2D.width (ICGN2D1.ref_img e1))
                        (Image2D.height (ICGN2D1.ref_img e1)) x y
       \/ F.isnan (DeformationVector2D.u (POI2D.deformation poi)) = true
       \/ F.isnan (DeformationVector2D.v (POI2D.deformation poi)) = true) /\
  (rejected (fun fuel => ICGN2D2.compute N K D1 D2 e2 fuel tid poi) (ICGN2D2.mark poi)
   <-> subset_outside2D (ICGN2D2.subset_radius_x e2) (ICGN2D2.subset_radius_y e2)
                        (Image2D.width (ICGN2D2.ref_img e2))
                        (Image2D.height (ICGN2D2.ref_img e2)) x y
       \/ F.isnan (DeformationVector2D.u (POI2D.deformation poi)) = true
       \/ F.isnan (DeformationVector2D.v (POI2D.deformation poi)) = true) /\
  (subset_outside3D (ICGN3D1.subset_radius_x e3) (ICGN3D1.subset_radius_y e3)
                    (ICGN3D1.subset_radius_z e3)
                    (Image3D.dim_x (ICGN3D1.ref_img e3))
                    (Image3D.dim_y (ICGN3D1.ref_img e3))
                    (Image3D.dim_z (ICGN3D1.ref_img e3)) x3 y3 z3 ->
   rejected (fun fuel => ICGN3D1.compute N K3 D3 e3 fuel tid poi3) (ICGN3D1.mark poi3)) /\
  (some_nan (guess3D1 poi3) = false ->
   rejected (fun fuel => ICGN3D1.compute N K3 D3 e3 fuel tid poi3) (ICGN3D1.mark poi3) ->
   subset_outside3D (ICGN3D1.subset_radius_x e3) (ICGN3D1.subset_radius_y e3)
                    (ICGN3D1.subset_radius_z e3)
                    (Image3D.dim_x (ICGN3D1.ref_img e3))
                    (Image3D.dim_y (ICGN3D1.ref_img e3))
                    (Image3D.dim_z (ICGN3D1.ref_img e3)) x3 y3 z3).
Proof.
  intros N K K3 D1 D2 D3 e1 e2 e3 tid i1 i2 i3 poi poi3 x y x3 y3 z3
         Hi1 Hi2 Hi3 Hr1 Hr2 Hr3.
  split; [repeat split |].
  split; [| split; [| split]].
  - rewrite (ICGN2D1_rejected_iff N K D1 e1 tid i1 poi Hi1).
    apply ICGN2D1_rejects_iff. exact Hr1.
  - rewrite (ICGN2D2_rejected_iff N K D1 D2 e2 tid i2 poi Hi2).
    apply ICGN2D2_rejects_iff. exact Hr2.
  - intros Hout.
    apply (ICGN3D1_rejected_iff N K3 D3 e3 tid i3 poi3 Hi3).
    apply (ICGN3D1_rejects_iff e3 poi3 x3 y3 z3 Hr3). exact Hout.
  - intros _ Hrej.
    apply (ICGN3D1_rejects_iff e3 poi3 x3 y3 z3 Hr3).
    apply (ICGN3D1_rejected_iff N K3 D3 e3 tid i3 poi3 Hi3). exact Hrej.
Qed.

(** The POI 5 pixels from the edge, subset radius 16, is rejected. *)
Lemma ICGN_rejects_exactly_witness :
  rejected (fun fuel =>
              ICGN2D1.compute Example.numerics Example.collaborators2D
                              Example.deformation2D1 Example.icgn1 fuel 0
                              Example.poi_edge)
           (ICGN2D1.mark Example.poi_edge).
Proof.
  apply (ICGN_rejects_exactly
           Example.numerics Example.collaborators2D Example.collaborators3D
           Example.deformation2D1 Example.deformation2D2 Example.deformation3D1
           Example.icgn1 Example.icgn2 Example.icgn3 0
           (ICGN2D1_.allocate 16 16 0) (ICGN2D2_.allocate 16 16 0)
           (ICGN3D1_.allocate 8 8 8 0)
           Example.poi_edge Example.poi3_edge 5 50 32 3 32
           example_instance1 example_instance2 example_instance3
           example_ready_edge example_ready_edge example_ready3_edge).
  left. exact example_edge_outside.
Defined.

(** C1, as the claim has it, fails: a POI in the middle of the image whose
    initial guess has [ux = NaN] is not rejected by ICGN2D1. *)
Lemma ICGN_rejects_any_nan_counterexample :
  ~ (rejected (fun fuel =>
                 ICGN2D1.compute Example.numerics Example.collaborators2D
                                 Example.deformation2D1 Example.icgn1 fuel 0
                                 Example.poi_nan_ux)
              (ICGN2D1.mark Example.poi_nan_ux)
     <-> subset_outside2D 16 16 100 100 50 50
         \/ some_nan (guess2D1 Example.poi_nan_ux) = true).
Proof.
  intros [_ H].
  assert (Hrej : rejected (fun fuel =>
                 ICGN2D1.compute Example.numerics Example.collaborators2D
                                 Example.deformation2D1 Example.icgn1 fuel 0
                                 Example.poi_nan_ux)
              (ICGN2D1.mark Example.poi_nan_ux)).
  { apply H. right. reflexivity. }
  apply (ICGN2D1_rejected_iff _ _ _ Example.icgn1 0 _ _ example_instance1) in Hrej.
  apply (ICGN2D1_rejects_iff Example.icgn1 Example.poi_nan_ux 50 50
           example_ready_nan_ux) in Hrej.
  destruct Hrej as [Hout | [Hu | Hv]].
  - exact (example_middle_inside Hout).
  - discriminate Hu.
  - discriminate Hv.
Qed.

(** C3. When the boundary test of an ICGN [compute] rejects a POI, the POI
    after the call is the POI before it with [result.zncc] replaced by
    [-1]: the coordinates, the whole deformation vector and the other
    result fields are as they were. *)
Theorem rejected_poi_keeps_other_fields :
  forall (N : Numerics) (K : Collaborators2D) (K3 : Collaborators3D)
         (D1 : Deformation2D1.methods) (D2 : Deformation2D2.methods)
         (D3 : Deformation3D1.methods)
         (e1 : ICGN2D1.t) (e2 : ICGN2D2.t) (e3 : ICGN3D1.t) (fuel : nat) (tid : Z)
         (i1 : ICGN2D1_.t) (i2 : ICGN2D2_.t) (i3 : ICGN3D1_.t)
         (poi : POI2D.t) (poi3 : POI3D.t),
  ICGN2D1.getInstance e1 tid = Got i1 ->
  ICGN2D2.getInstance e2 tid = Got i2 ->
  ICGN3D1.getInstance e3 tid = Got i3 ->
  let r := POI2D.result poi in
  let r3 := POI3D.result poi3 in
  let after :=
    POI2D.mk (POI2D.x poi) (POI2D.y poi) (POI2D.deformation poi)
      (Result2D.mk (Result2D.u0 r) (Result2D.v0 r) (F.of_int (-1))
                   (Result2D.iteration r) (Result2D.convergence r)) in
  let after3 :=
    POI3D.mk (POI3D.x poi3) (POI3D.y poi3) (POI3D.z poi3) (POI3D.deformation poi3)
      (Result3D.mk (Result3D.u0 r3) (Result3D.v0 r3) (Result3D.w0 r3) (F.of_int (-1))
                   (Result3D.iteration r3) (Result3D.convergence r3)) in
  (ICGN2D1.rejects e1 poi = true ->
   ICGN2D1.compute N K D1 e1 fuel tid poi = (after, Returned)) /\
  (ICGN2D2.rejects e2 poi = true ->
   ICGN2D2.compute N K D1 D2 e2 fuel tid poi = (after, Returned)) /\
  (ICGN3D1.rejects e3 poi3 = true ->
   ICGN3D1.compute N K3 D3 e3 fuel tid poi3 = (after3, Returned)).
Proof.
  intros N K K3 D1 D2 D3 e1 e2 e3 fuel tid i1 i2 i3 poi poi3 Hi1 Hi2 Hi3.
  cbv zeta. repeat split; intros Hrej.
  - unfold ICGN2D1.compute. rewrite Hi1, Hrej. reflexivity.
  - unfold ICGN2D2.compute. rewrite Hi2, Hrej. reflexivity.
  - unfold ICGN3D1.compute. rewrite Hi3, Hrej. reflexivity.
Qed.

(** The POI 5 pixels from the edge keeps everything but its [zncc]. *)
Lemma rejected_poi_keeps_other_fields_witness :
  ICGN2D1.rejects Example.icgn1 Example.poi_edge = true /\
  ICGN2D1.compute Example.numerics Example.collaborators2D Example.deformation2D1
                  Example.icgn1 7 0 Example.poi_edge
  = (POI2D.mk (Fin 5) (Fin 50) Example.zero2D
       (Result2D.mk (Fin 0) (Fin 0) (F.of_int (-1)) (Fin 0) (Fin 0)),
     Returned).
Proof.
  assert (Hrej : ICGN2D1.rejects Example.icgn1 Example.poi_edge = true).
  { apply (ICGN2D1_rejects_iff Example.icgn1 Example.poi_edge 5 50
             example_ready_edge).
    left. exact example_edge_outside. }
  split; [exact Hrej |].
  exact (proj1 (rejected_poi_keeps_other_fields
                  Example.numerics Example.collaborators2D Example.collaborators3D
                  Example.deformation2D1 Example.deformation2D2 Example.deformation3D1
                  Example.icgn1 Example.icgn2 Example.icgn3 7%nat 0
                  (ICGN2D1_.allocate 16 16 0) (ICGN2D2_.allocate 16 16 0)
                  (ICGN3D1_.allocate 8 8 8 0)
                  Example.poi_edge Example.poi3_edge
                  example_instance1 example_instance2 example_instance3) Hrej).
Defined.

(** ** The convergence norm *)

Lemma sqrt_squared (s : R) :
  (0 <= s)%R -> F.mul (F.sqrt (Fin s)) (F.sqrt (Fin s)) = Fin s.
Proof.
  intros H. rewrite sqrt_Fin by exact H. simpl.
  rewrite sqrt_sqrt by exact H. reflexivity.
Qed.

Lemma square_in_range (r : Z) : r * r <= Int.max_signed -> Int.in_range (r * r).
Proof.
  intros H. unfold Int.in_range, Int.min_signed. split; [nia | exact H].
Qed.

Lemma int_square (r : Z) :
  r * r <= Int.max_signed -> F.of_int (Int.mul r r) = Fin (IZR r * IZR r).
Proof.
  intros H. unfold Int.mul, F.of_int.
  rewrite wrap_in_range by (apply square_in_range; exact H).
  rewrite mult_IZR. reflexivity.
Qed.

Lemma int_square_square (a b : Z) :
  a * a <= Int.max_signed -> b * b <= Int.max_signed ->
  a * a * (b * b) <= Int.max_signed ->
  F.of_int (Int.mul (Int.mul a a) (Int.mul b b))
  = Fin (IZR a * IZR a * (IZR b * IZR b)).
Proof.
  intros Ha Hb Hab. unfold Int.mul, F.of_int.
  rewrite (wrap_in_range (a * a)) by (apply square_in_range; exact Ha).
  rewrite (wrap_in_range (b * b)) by (apply square_in_range; exact Hb).
  rewrite wrap_in_range.
  - rewrite !mult_IZR. reflexivity.
  - unfold Int.in_range, Int.min_signed. split; [nia | exact Hab].
Qed.

(** X23.  Where the products that the code takes in [int] fit an [int]
    ([rx * rx] and [ry * ry] of lines 223-224 and 481-482, and for order 2
    also their product [rx^2 * ry^2] of line 483), and for an increment
    with finite components, the square of the convergence norm is the
    weighted sum of the spec: in 2D, order 1,
    [du^2 + dv^2 + (dux^2 + dvx^2) rx^2 + (duy^2 + dvy^2) ry^2]; in 2D,
    order 2, that sum plus
    [(duxx^2 + dvxx^2) rx^4 / 4 + (duyy^2 + dvyy^2) ry^4 / 4
     + (duxy^2 + dvxy^2) rx^2 ry^2]; in 3D the norm is
    [sqrt (du^2 + dv^2 + dw^2)], whatever the nine gradient components. *)
Theorem dp_norm_weights :
  forall (rx ry : Z)
         (du dux duy duxx duxy duyy dv dvx dvy dvxx dvxy dvyy dw : R)
         (gux guy guz gvx gvy gvz gwx gwy gwz : float) (W : matrix),
  rx * rx <= Int.max_signed -> ry * ry <= Int.max_signed ->
  let n1 := ICGN2D1.dp_norm rx ry
              (Deformation2D1.mk (Fin du) (Fin dux) (Fin duy)
                                 (Fin dv) (Fin dvx) (Fin dvy) W) in
  let n2 := ICGN2D2.dp_norm rx ry
              (Deformation2D2.mk (Fin du) (Fin dux) (Fin duy)
                                 (Fin duxx) (Fin duxy) (Fin duyy)
                                 (Fin dv) (Fin dvx) (Fin dvy)
                                 (Fin dvxx) (Fin dvxy) (Fin dvyy) W) in
  let n3 := ICGN3D1.dp_norm
              (Deformation3D1.mk (Fin du) gux guy guz (Fin dv) gvx gvy gvz
                                 (Fin dw) gwx gwy gwz W) in
  F.mul n1 n1
  = Fin (du ^ 2 + dv ^ 2 + (dux ^ 2 + dvx ^ 2) * IZR rx ^ 2
         + (duy ^ 2 + dvy ^ 2) * IZR ry ^ 2) /\
  (rx * rx * (ry * ry) <= Int.max_signed ->
   F.mul n2 n2
   = Fin (du ^ 2 + dv ^ 2 + (dux ^ 2 + dvx ^ 2) * IZR rx ^ 2
          + (duy ^ 2 + dvy ^ 2) * IZR ry ^ 2
          + (duxx ^ 2 + dvxx ^ 2) * IZR rx ^ 4 / 4
          + (duyy ^ 2 + dvyy ^ 2) * IZR ry ^ 4 / 4
          + (duxy ^ 2 + dvxy ^ 2) * IZR rx ^ 2 * IZR ry ^ 2)) /\
  n3 = Fin (sqrt (du ^ 2 + dv ^ 2 + dw ^ 2)).
Proof.
  intros rx ry du dux duy duxx duxy duyy dv dvx dvy dvxx dvxy dvyy dw
         gux guy guz gvx gvy gvz gwx gwy gwz W Hx Hy n1 n2 n3.
  subst n1 n2 n3.
  pose proof (Rle_0_sqr du) as Pu. pose proof (Rle_0_sqr dv) as Pv.
  pose proof (Rle_0_sqr dw) as Pw.
  pose proof (Rle_0_sqr (dux * IZR rx)) as Pux.
  pose proof (Rle_0_sqr (duy * IZR ry)) as Puy.
  pose proof (Rle_0_sqr (dvx * IZR rx)) as Pvx.
  pose proof (Rle_0_sqr (dvy * IZR ry)) as Pvy.
  unfold Rsqr in *.
  split; [| split].
  - unfold ICGN2D1.dp_norm. cbv zeta.
    rewrite !int_square by assumption.
    cbn [F.add F.mul F.lift2 Deformation2D1.u Deformation2D1.ux Deformation2D1.uy
         Deformation2D1.v Deformation2D1.vx Deformation2D1.vy].
    rewrite sqrt_squared; [f_equal; ring | nra].
  - intros Hxy.
    pose proof (Rle_0_sqr (duxx * (IZR rx * IZR rx))) as Puxx.
    pose proof (Rle_0_sqr (duyy * (IZR ry * IZR ry))) as Puyy.
    pose proof (Rle_0_sqr (duxy * (IZR rx * IZR ry))) as Puxy.
    pose proof (Rle_0_sqr (dvxx * (IZR rx * IZR rx))) as Pvxx.
    pose proof (Rle_0_sqr (dvyy * (IZR ry * IZR ry))) as Pvyy.
    pose proof (Rle_0_sqr (dvxy * (IZR rx * IZR ry))) as Pvxy.
    unfold Rsqr in *.
    unfold ICGN2D2.dp_norm. cbv zeta beta.
    rewrite !int_square_square, !int_square by assumption.
    cbn [F.add F.mul F.lift2 Deformation2D2.u Deformation2D2.ux Deformation2D2.uy
         Deformation2D2.uxx Deformation2D2.uxy Deformation2D2.uyy
         Deformation2D2.v Deformation2D2.vx Deformation2D2.vy
         Deformation2D2.vxx Deformation2D2.vxy Deformation2D2.vyy].
    rewrite !div_Fin by lra.
    cbn [F.add F.lift2].
    rewrite sqrt_squared; [f_equal; field | nra].
  - unfold ICGN3D1.dp_norm.
    cbn [F.add F.mul F.lift2 Deformation3D1.u Deformation3D1.v Deformation3D1.w].
    rewrite sqrt_Fin by nra. f_equal. f_equal. ring.
Qed.

(** Radius 16 and an increment of 1/16 in every component. *)
Lemma dp_norm_weights_witness :
  (16 * 16 <= Int.max_signed /\ 16 * 16 * (16 * 16) <= Int.max_signed) /\
  F.mul (ICGN2D1.dp_norm 16 16
           (Deformation2D1.mk (Fin (1 / 16)) (Fin (1 / 16)) (Fin (1 / 16))
                              (Fin (1 / 16)) (Fin (1 / 16)) (Fin (1 / 16)) []))
        (ICGN2D1.dp_norm 16 16
           (Deformation2D1.mk (Fin (1 / 16)) (Fin (1 / 16)) (Fin (1 / 16))
                              (Fin (1 / 16)) (Fin (1 / 16)) (Fin (1 / 16)) []))
  = Fin ((1 / 16) ^ 2 + (1 / 16) ^ 2
         + ((1 / 16) ^ 2 + (1 / 16) ^ 2) * IZR 16 ^ 2
         + ((1 / 16) ^ 2 + (1 / 16) ^ 2) * IZR 16 ^ 2).
Proof.
  assert (H : 16 * 16 <= Int.max_signed /\ 16 * 16 * (16 * 16) <= Int.max_signed).
  { unfold Int.max_signed. lia. }
  split; [exact H |].
  exact (proj1 (dp_norm_weights 16 16
                  (1 / 16) (1 / 16) (1 / 16) (1 / 16) (1 / 16) (1 / 16)
                  (1 / 16) (1 / 16) (1 / 16) (1 / 16) (1 / 16) (1 / 16) (1 / 16)
                  NaN NaN NaN NaN NaN NaN NaN NaN NaN []
                  (proj1 H) (proj1 H))).
Defined.

(** C4.  The weight of the mixed second-order components is not [rx^2 ry^2]
    for every pair of radii.  Line 483 takes the product
    [subset_radius_x2 * subset_radius_y2] in [int], where lines 488-489 and
    493-494 take the fourth powers in [float].  At radii [(216, 216)] the
    squares [46656] fit an [int] and their product [2176782336] does not:
    the [int] holds [-2118184960], and that is the weight of
    [duxy^2 + dvxy^2] in the sum under the root, for every increment.  For
    the increment whose only non-zero component is [uxy = 1] the sum is
    negative and [dp_norm] is [NaN], so the test
    [dp_norm_max >= conv_criterion] of the loop fails whatever the
    criterion; the sum of the claim is [2176782336], a norm of [46656]. *)
Theorem dp_norm_order2_overflow :
  let p_increment :=
    Deformation2D2.mk (Fin 0) (Fin 0) (Fin 0) (Fin 0) (Fin 1) (Fin 0)
                      (Fin 0) (Fin 0) (Fin 0) (Fin 0) (Fin 0) (Fin 0) [] in
  let n2 := ICGN2D2.dp_norm 216 216 p_increment in
  let claimed :=
    (0 ^ 2 + 0 ^ 2 + (0 ^ 2 + 0 ^ 2) * IZR 216 ^ 2 + (0 ^ 2 + 0 ^ 2) * IZR 216 ^ 2
     + (0 ^ 2 + 0 ^ 2) * IZR 216 ^ 4 / 4 + (0 ^ 2 + 0 ^ 2) * IZR 216 ^ 4 / 4
     + (1 ^ 2 + 0 ^ 2) * IZR 216 ^ 2 * IZR 216 ^ 2)%R in
  Int.mul 216 216 = 46656 /\
  Int.mul (Int.mul 216 216) (Int.mul 216 216) = - 2118184960 /\
  (forall (du dux duy duxx duxy duyy dv dvx dvy dvxx dvxy dvyy : R) (W : matrix),
     ICGN2D2.dp_norm 216 216
       (Deformation2D2.mk (Fin du) (Fin dux) (Fin duy) (Fin duxx) (Fin duxy) (Fin duyy)
                          (Fin dv) (Fin dvx) (Fin dvy) (Fin dvxx) (Fin dvxy) (Fin dvyy) W)
     = F.sqrt (Fin (du ^ 2 + dv ^ 2 + (dux ^ 2 + dvx ^ 2) * IZR 216 ^ 2
                    + (duy ^ 2 + dvy ^ 2) * IZR 216 ^ 2
                    + (duxx ^ 2 + dvxx ^ 2) * IZR 216 ^ 4 / 4
                    + (duyy ^ 2 + dvyy ^ 2) * IZR 216 ^ 4 / 4
                    + (duxy ^ 2 + dvxy ^ 2) * IZR (- 2118184960)))) /\
  n2 = NaN /\
  (forall conv_criterion : float, F.geb n2 conv_criterion = false) /\
  claimed = 2176782336%R /\
  F.sqrt (Fin claimed) = Fin 46656 /\
  F.mul n2 n2 <> Fin claimed.
Proof.
  cbv zeta.
  assert (Hx : Int.mul 216 216 = 46656) by reflexivity.
  assert (Hxy : Int.mul (Int.mul 216 216) (Int.mul 216 216) = - 2118184960)
    by reflexivity.
  assert (Hall : forall (du dux duy duxx duxy duyy dv dvx dvy dvxx dvxy dvyy : R)
                        (W : matrix),
     ICGN2D2.dp_norm 216 216
       (Deformation2D2.mk (Fin du) (Fin dux) (Fin duy) (Fin duxx) (Fin duxy) (Fin duyy)
                          (Fin dv) (Fin dvx) (Fin dvy) (Fin dvxx) (Fin dvxy) (Fin dvyy) W)
     = F.sqrt (Fin (du ^ 2 + dv ^ 2 + (dux ^ 2 + dvx ^ 2) * IZR 216 ^ 2
                    + (duy ^ 2 + dvy ^ 2) * IZR 216 ^ 2
                    + (duxx ^ 2 + dvxx ^ 2) * IZR 216 ^ 4 / 4
                    + (duyy ^ 2 + dvyy ^ 2) * IZR 216 ^ 4 / 4
                    + (duxy ^ 2 + dvxy ^ 2) * IZR (- 2118184960)))).
  { intros. unfold ICGN2D2.dp_norm. cbv zeta beta.
    rewrite Hxy, Hx. unfold F.of_int.
    cbn [F.add F.mul F.lift2 Deformation2D2.u Deformation2D2.ux Deformation2D2.uy
         Deformation2D2.uxx Deformation2D2.uxy Deformation2D2.uyy
         Deformation2D2.v Deformation2D2.vx Deformation2D2.vy
         Deformation2D2.vxx Deformation2D2.vxy Deformation2D2.vyy].
    rewrite !div_Fin by lra.
    cbn [F.add F.lift2].
    f_equal. f_equal. field. }
  assert (Hn : ICGN2D2.dp_norm 216 216
                 (Deformation2D2.mk (Fin 0) (Fin 0) (Fin 0) (Fin 0) (Fin 1) (Fin 0)
                    (Fin 0) (Fin 0) (Fin 0) (Fin 0) (Fin 0) (Fin 0) []) = NaN).
  { rewrite Hall. apply sqrt_negative. lra. }
  rewrite Hn.
  split; [exact Hx |]. split; [exact Hxy |]. split; [exact Hall |].
  split; [reflexivity |].
  split; [intros c; apply geb_NaN_l |].
  split; [lra |].
  split.
  - rewrite sqrt_Fin by lra. f_equal.
    replace (0 ^ 2 + 0 ^ 2 + (0 ^ 2 + 0 ^ 2) * 216 ^ 2 + (0 ^ 2 + 0 ^ 2) * 216 ^ 2
             + (0 ^ 2 + 0 ^ 2) * 216 ^ 4 / 4 + (0 ^ 2 + 0 ^ 2) * 216 ^ 4 / 4
             + (1 ^ 2 + 0 ^ 2) * 216 ^ 2 * 216 ^ 2)%R
      with (46656 * 46656)%R by lra.
    apply sqrt_square. lra.
  - cbn [F.mul F.lift2]. discriminate.
Qed.

(** ** The iteration loop *)

Lemma ICGN2D1_loop (N : Numerics) (K : Collaborators2D)
    (D : Deformation2D1.methods) (est : ICGN2D1.t) (poi : POI2D.t) (s : R) :
  ICGN2D1.stop_condition est = Fin s -> (1 <= s <= IZR Int.max_signed)%R ->
  exists n : nat,
    first_exit (ICGN2D1.continue est) (ICGN2D1.after N K D est poi) n /\
    Z.of_nat n <= ceil s /\
    ICGN2D1.iteration (ICGN2D1.after N K D est poi n) = Z.of_nat n /\
    forall fuel : nat, (n <= fuel)%nat ->
      ICGN2D1.iterate N K D est fuel poi = Some (ICGN2D1.after N K D est poi n).
Proof.
  intros Hs Hrange.
  destruct (do_while_bounded (ICGN2D1.body N K D est poi) (ICGN2D1.continue est)
              ICGN2D1.iteration (ICGN2D1.stop_condition est)
              (fun st => eq_refl)
              (fun st H => proj1 (proj1 (andb_true_iff _ _) H))
              s (ICGN2D1.start D poi) Hs Hrange eq_refl)
    as [n [Hn [Hcount [Hstop [Hbefore Hrun]]]]].
  exists n. unfold first_exit, ICGN2D1.after, ICGN2D1.iterate.
  repeat split; auto; lia.
Qed.

Lemma ICGN2D2_loop (N : Numerics) (K : Collaborators2D)
    (D1 : Deformation2D1.methods) (D : Deformation2D2.methods)
    (est : ICGN2D2.t) (poi : POI2D.t) (s : R) :
  ICGN2D2.stop_condition est = Fin s -> (1 <= s <= IZR Int.max_signed)%R ->
  exists n : nat,
    first_exit (ICGN2D2.continue est) (ICGN2D2.after N K D1 D est poi) n /\
    Z.of_nat n <= ceil s /\
    ICGN2D2.iteration (ICGN2D2.after N K D1 D est poi n) = Z.of_nat n /\
    forall fuel : nat, (n <= fuel)%nat ->
      ICGN2D2.iterate N K D1 D est fuel poi = Some (ICGN2D2.after N K D1 D est poi n).
Proof.
  intros Hs Hrange.
  destruct (do_while_bounded (ICGN2D2.body N K D est poi) (ICGN2D2.continue est)
              ICGN2D2.iteration (ICGN2D2.stop_condition est)
              (fun st => eq_refl)
              (fun st H => proj1 (proj1 (andb_true_iff _ _) H))
              s (ICGN2D2.start D1 D poi) Hs Hrange eq_refl)
    as [n [Hn [Hcount [Hstop [Hbefore Hrun]]]]].
  exists n. unfold first_exit, ICGN2D2.after, ICGN2D2.iterate.
  repeat split; auto; lia.
Qed.

Lemma ICGN3D1_loop (N : Numerics) (K : Collaborators3D)
    (D : Deformation3D1.methods) (est : ICGN3D1.t) (poi : POI3D.t) (s : R) :
  ICGN3D1.stop_condition est = Fin s -> (1 <= s <= IZR Int.max_signed)%R ->
  exists n : nat,
    first_exit (ICGN3D1.continue est) (ICGN3D1.after N K D est poi) n /\
    Z.of_nat n <= ceil s /\
    ICGN3D1.iteration (ICGN3D1.after N K D est poi n) = Z.of_nat n /\
    forall fuel : nat, (n <= fuel)%nat ->
      ICGN3D1.iterate N K D est fuel poi = Some (ICGN3D1.after N K D est poi n).
Proof.
  intros Hs Hrange.
  destruct (do_while_bounded (ICGN3D1.body N K D est poi) (ICGN3D1.continue est)
              ICGN3D1.iteration (ICGN3D1.stop_condition est)
              (fun st => eq_refl)
              (fun st H => proj1 (proj1 (andb_true_iff _ _) H))
              s (ICGN3D1.start D poi) Hs Hrange eq_refl)
    as [n [Hn [Hcount [Hstop [Hbefore Hrun]]]]].
  exists n. unfold first_exit, ICGN3D1.after, ICGN3D1.iterate.
  repeat split; auto; lia.
Qed.

(** The test of the loops on finite numbers. *)
Lemma leave_test (iteration : Z) (dp_norm_max stop conv : float) (d c s : R) :
  dp_norm_max = Fin d -> conv = Fin c -> stop = Fin s ->
  F.ltb (F.of_int iteration) stop && F.geb dp_norm_max conv = false
  <-> (IZR iteration >= s \/ d < c)%R.
Proof.
  intros -> -> ->. unfold F.of_int.
  rewrite andb_false_iff, ltb_Fin_false. unfold F.geb. rewrite leb_Fin_false.
  split; intros [H | H]; auto; left; lra.
Qed.

(** C5, as the code has it.  For a POI that passes the boundary test and a
    finite [stop_condition] between 1 and the largest [int], the loop
    makes a first pass and leaves after pass [n], the first pass after
    which its test [iteration < stop_condition && dp_norm >= conv_criterion]
    is false; [1 <= n <= ceil stop_condition]; [compute] returns for every
    fuel from [n] on and records [iteration = n].  When [dp_norm_max] and
    the two settings are finite, the test is false exactly when
    [iteration >= stop_condition] or [dp_norm < conv_criterion]. *)
Theorem ICGN_loop_leaves :
  forall (N : Numerics) (K : Collaborators2D) (K3 : Collaborators3D)
         (D1 : Deformation2D1.methods) (D2 : Deformation2D2.methods)
         (D3 : Deformation3D1.methods)
         (e1 : ICGN2D1.t) (e2 : ICGN2D2.t) (e3 : ICGN3D1.t) (tid : Z)
         (i1 : ICGN2D1_.t) (i2 : ICGN2D2_.t) (i3 : ICGN3D1_.t)
         (poi : POI2D.t) (poi3 : POI3D.t) (s : R),
  ICGN2D1.getInstance e1 tid = Got i1 ->
  ICGN2D2.getInstance e2 tid = Got i2 ->
  ICGN3D1.getInstance e3 tid = Got i3 ->
  ICGN2D1.rejects e1 poi = false ->
  ICGN2D2.rejects e2 poi = false ->
  ICGN3D1.rejects e3 poi3 = false ->
  ICGN2D1.stop_condition e1 = Fin s ->
  ICGN2D2.stop_condition e2 = Fin s ->
  ICGN3D1.stop_condition e3 = Fin s ->
  (1 <= s <= IZR Int.max_signed)%R ->
  (exists n : nat,
     first_exit (ICGN2D1.continue e1) (ICGN2D1.after N K D1 e1 poi) n /\
     Z.of_nat n <= ceil s /\
     (forall fuel : nat, (n <= fuel)%nat ->
        ICGN2D1.compute N K D1 e1 fuel tid poi
        = (ICGN2D1.store poi (ICGN2D1.after N K D1 e1 poi n), Returned)) /\
     Result2D.iteration
       (POI2D.result (ICGN2D1.store poi (ICGN2D1.after N K D1 e1 poi n)))
     = F.of_int (Z.of_nat n)) /\
  (exists n : nat,
     first_exit (ICGN2D2.continue e2) (ICGN2D2.after N K D1 D2 e2 poi) n /\
     Z.of_nat n <= ceil s /\
     (forall fuel : nat, (n <= fuel)%nat ->
        ICGN2D2.compute N K D1 D2 e2 fuel tid poi
        = (ICGN2D2.store poi (ICGN2D2.after N K D1 D2 e2 poi n), Returned)) /\
     Result2D.iteration
       (POI2D.result (ICGN2D2.store poi (ICGN2D2.after N K D1 D2 e2 poi n)))
     = F.of_int (Z.of_nat n)) /\
  (exists n : nat,
     first_exit (ICGN3D1.continue e3) (ICGN3D1.after N K3 D3 e3 poi3) n /\
     Z.of_nat n <= ceil s /\
     (forall fuel : nat, (n <= fuel)%nat ->
        ICGN3D1.compute N K3 D3 e3 fuel tid poi3
        = (ICGN3D1.store poi3 (ICGN3D1.after N K3 D3 e3 poi3 n), Returned)) /\
     Result3D.iteration
       (POI3D.result (ICGN3D1.store poi3 (ICGN3D1.after N K3 D3 e3 poi3 n)))
     = F.of_int (Z.of_nat n)) /\
  (forall (d c : R) (st1 : ICGN2D1.loop) (st2 : ICGN2D2.loop) (st3 : ICGN3D1.loop),
     (ICGN2D1.dp_norm_max st1 = Fin d -> ICGN2D1.conv_criterion e1 = Fin c ->
      ICGN2D1.continue e1 st1 = false
      <-> (IZR (ICGN2D1.iteration st1) >= s \/ d < c)%R) /\
     (ICGN2D2.dp_norm_max st2 = Fin d -> ICGN2D2.conv_criterion e2 = Fin c ->
      ICGN2D2.continue e2 st2 = false
      <-> (IZR (ICGN2D2.iteration st2) >= s \/ d < c)%R) /\
     (ICGN3D1.dp_norm_max st3 = Fin d -> ICGN3D1.conv_criterion e3 = Fin c ->
      ICGN3D1.continue e3 st3 = false
      <-> (IZR (ICGN3D1.iteration st3) >= s \/ d < c)%R)).
Proof.
  intros N K K3 D1 D2 D3 e1 e2 e3 tid i1 i2 i3 poi poi3 s
         Hi1 Hi2 Hi3 Hr1 Hr2 Hr3 Hs1 Hs2 Hs3 Hrange.
  split; [| split; [| split]].
  - destruct (ICGN2D1_loop N K D1 e1 poi s Hs1 Hrange)
      as [n [Hfirst [Hceil [Hcount Hrun]]]].
    exists n. repeat split; auto.
    + apply Hfirst.
    + apply Hfirst.
    + apply Hfirst.
    + intros fuel Hfuel. unfold ICGN2D1.compute.
      rewrite Hi1, Hr1, (Hrun fuel Hfuel). reflexivity.
    + simpl. rewrite Hcount. reflexivity.
  - destruct (ICGN2D2_loop N K D1 D2 e2 poi s Hs2 Hrange)
      as [n [Hfirst [Hceil [Hcount Hrun]]]].
    exists n. repeat split; auto.
    + apply Hfirst.
    + apply Hfirst.
    + apply Hfirst.
    + intros fuel Hfuel. unfold ICGN2D2.compute.
      rewrite Hi2, Hr2, (Hrun fuel Hfuel). reflexivity.
    + simpl. rewrite Hcount. reflexivity.
  - destruct (ICGN3D1_loop N K3 D3 e3 poi3 s Hs3 Hrange)
      as [n [Hfirst [Hceil [Hcount Hrun]]]].
    exists n. repeat split; auto.
    + apply Hfirst.
    + apply Hfirst.
    + apply Hfirst.
    + intros fuel Hfuel. unfold ICGN3D1.compute.
      rewrite Hi3, Hr3, (Hrun fuel Hfuel). reflexivity.
    + simpl. rewrite Hcount. reflexivity.
  - intros d c st1 st2 st3. split; [| split]; intros Hd Hc.
    + unfold ICGN2D1.continue. apply leave_test; assumption.
    + unfold ICGN2D2.continue. apply leave_test; assumption.
    + unfold ICGN3D1.continue. apply leave_test; assumption.
Qed.

Lemma example_passes1 : ICGN2D1.rejects Example.icgn1 Example.poi_middle = false.
Proof.
  destruct (ICGN2D1.rejects Example.icgn1 Example.poi_middle) eqn:H; [| reflexivity].
  apply (ICGN2D1_rejects_iff Example.icgn1 Example.poi_middle 50 50
           example_ready_middle) in H.
  destruct H as [H | [H | H]]; [| discriminate H | discriminate H].
  exfalso. exact (example_middle_inside H).
Qed.

Lemma example_passes2 : ICGN2D2.rejects Example.icgn2 Example.poi_middle = false.
Proof.
  destruct (ICGN2D2.rejects Example.icgn2 Example.poi_middle) eqn:H; [| reflexivity].
  apply (ICGN2D2_rejects_iff Example.icgn2 Example.poi_middle 50 50
           example_ready_middle) in H.
  destruct H as [H | [H | H]]; [| discriminate H | discriminate H].
  exfalso. exact (example_middle_inside H).
Qed.

Lemma example_passes3 : ICGN3D1.rejects Example.icgn3 Example.poi3_middle = false.
Proof.
  destruct (ICGN3D1.rejects Example.icgn3 Example.poi3_middle) eqn:H; [| reflexivity].
  apply (ICGN3D1_rejects_iff Example.icgn3 Example.poi3_middle 32 32 32
           example_ready3_middle) in H.
  exfalso. exact (example3_middle_inside H).
Qed.

Lemma example_stop_range : (1 <= 10 <= IZR Int.max_signed)%R.
Proof. unfold Int.max_signed. lra. Qed.

(** With the sample's settings the POI in the middle of the image is
    done within ten passes. *)
Lemma ICGN_loop_leaves_witness :
  exists n : nat,
    first_exit (ICGN2D1.continue Example.icgn1)
               (ICGN2D1.after Example.numerics Example.collaborators2D
                              Example.deformation2D1 Example.icgn1
                              Example.poi_middle) n /\
    Z.of_nat n <= ceil 10 /\
    (forall fuel : nat, (n <= fuel)%nat ->
       ICGN2D1.compute Example.numerics Example.collaborators2D
                       Example.deformation2D1 Example.icgn1 fuel 0
                       Example.poi_middle
       = (ICGN2D1.store Example.poi_middle
            (ICGN2D1.after Example.numerics Example.collaborators2D
                           Example.deformation2D1 Example.icgn1
                           Example.poi_middle n),
          Returned)) /\
    Result2D.iteration
      (POI2D.result
         (ICGN2D1.store Example.poi_middle
            (ICGN2D1.after Example.numerics Example.collaborators2D
                           Example.deformation2D1 Example.icgn1
                           Example.poi_middle n)))
    = F.of_int (Z.of_nat n).
Proof.
  exact (proj1 (ICGN_loop_leaves
                  Example.numerics Example.collaborators2D Example.collaborators3D
                  Example.deformation2D1 Example.deformation2D2 Example.deformation3D1
                  Example.icgn1 Example.icgn2 Example.icgn3 0
                  (ICGN2D1_.allocate 16 16 0) (ICGN2D2_.allocate 16 16 0)
                  (ICGN3D1_.allocate 8 8 8 0)
                  Example.poi_middle Example.poi3_middle 10
                  example_instance1 example_instance2 example_instance3
                  example_passes1 example_passes2 example_passes3
                  eq_refl eq_refl eq_refl example_stop_range)).
Defined.

(** ** A textureless subset *)

Lemma mul_NaN_r (a : float) : F.mul a NaN = NaN.
Proof. destruct a; reflexivity. Qed.

Lemma div_zero_zero : F.div (Fin 0) (Fin 0) = NaN.
Proof.
  simpl. destruct (Req_dec_T 0 0) as [_ | H]; [reflexivity | contradiction H; reflexivity].
Qed.

Lemma fold_left_nan {A : Type} (f : float -> A -> float) (l : list A) :
  (forall d a, In a l -> f d a = NaN) -> l <> [] -> forall d, fold_left f l d = NaN.
Proof.
  intros Hf Hl d. destruct l as [| a l]; [contradiction |].
  simpl. rewrite Hf by (left; reflexivity).
  assert (Hrest : forall d a', In a' l -> f d a' = NaN).
  { intros d' a' Hin. apply Hf. right. exact Hin. }
  clear Hf Hl a d.
  induction l as [| a l IH]; [reflexivity |].
  simpl. rewrite Hrest by (left; reflexivity).
  apply IH. intros d a' Hin. apply Hrest. right. exact Hin.
Qed.

Lemma sum_zero (l : list float) :
  Forall (eq (Fin 0)) l -> fold_left F.add l (Fin 0) = Fin 0.
Proof.
  induction 1 as [| a l Ha _ IH]; [reflexivity |].
  simpl. rewrite <- Ha. simpl. replace (0 + 0)%R with 0%R by lra. exact IH.
Qed.

Lemma squaredNorm_zero (l : list float) :
  Forall (eq (Fin 0)) l -> squaredNorm l = Fin 0.
Proof.
  unfold squaredNorm. induction 1 as [| a l Ha _ IH]; [reflexivity |].
  simpl. rewrite <- Ha. simpl. replace (0 + 0 * 0)%R with 0%R by lra. exact IH.
Qed.

(** The norm of a constant subset is 0. *)
Lemma zeroMeanNorm_zero (l : list float) :
  Forall (eq (Fin 0)) l -> l <> [] -> snd (Example.zeroMeanNorm l) = Fin 0.
Proof.
  intros Hzero Hl. unfold Example.zeroMeanNorm. cbn [snd].
  rewrite sum_zero by exact Hzero.
  unfold F.of_int. rewrite div_Fin.
  - rewrite squaredNorm_zero.
    + rewrite sqrt_Fin by lra. rewrite sqrt_0. reflexivity.
    + apply Forall_forall. intros a Ha. apply in_map_iff in Ha.
      destruct Ha as [b [Hb Hin]]. rewrite Forall_forall in Hzero.
      rewrite <- (Hzero b Hin) in Hb. rewrite <- Hb. simpl. f_equal. lra.
  - apply not_0_IZR. destruct l; [contradiction | simpl; lia].
Qed.

Lemma numerator_nan (P : nat) (sd_img : list (list float)) (error_img : list float)
    (j : nat) :
  (forall e, In e error_img -> e = NaN) -> combine sd_img error_img <> [] ->
  nth j (numerator P sd_img error_img) NaN = NaN.
Proof.
  intros Herr Hne. unfold numerator.
  match goal with |- nth j ?l NaN = NaN =>
    destruct (nth_in_or_default j l NaN) as [Hin | Hdef]; [| exact Hdef] end.
  apply in_map_iff in Hin. destruct Hin as [i [Hi _]]. rewrite <- Hi.
  apply fold_left_nan; [| exact Hne].
  intros d [sd e] Hin. apply in_combine_r in Hin. cbn [fst snd].
  rewrite (Herr e Hin), mul_NaN_r, add_NaN_r. reflexivity.
Qed.

Lemma increment_nan (P : nat) (inv_hessian : matrix) (num : list float) (k : nat) :
  (forall j, nth j num NaN = NaN) -> nth k (increment P inv_hessian num) NaN = NaN.
Proof.
  intros Hnum. unfold increment.
  match goal with |- nth k ?l NaN = NaN =>
    destruct (nth_in_or_default k l NaN) as [Hin | Hdef]; [| exact Hdef] end.
  apply in_map_iff in Hin. destruct Hin as [i [Hi Hin]]. rewrite <- Hi.
  apply fold_left_nan.
  - intros d j _. rewrite Hnum, mul_NaN_r, add_NaN_r. reflexivity.
  - destruct P; [destruct Hin | discriminate].
Qed.

Lemma example_points : length (ICGN2D1.points Example.icgn1) = 1089%nat.
Proof. reflexivity. Qed.

(** On the textureless image the norms of both subsets are 0, the error
    factor is 0/0, and the norm of the increment is [NaN], whatever
    [inverse()] and the matrix product return. *)
Lemma textureless_dp_norm_nan (N : Numerics) (s : ICGN2D1.loop) :
  zeroMeanNorm N = Example.zeroMeanNorm ->
  ICGN2D1.dp_norm_max
    (ICGN2D1.body N Example.collaborators2D Example.deformation2D1
                  Example.icgn1 Example.poi_middle s) = NaN.
Proof.
  intros HN. unfold ICGN2D1.body, ICGN2D1.pass. rewrite HN.
  cbn [ICGN2D1.dp_norm_max].
  unfold Deformation2D1.setDeformation_p, Deformation2D1.new, ICGN2D1.dp_norm.
  cbn [Deformation2D1.u Deformation2D1.ux Deformation2D1.uy
       Deformation2D1.v Deformation2D1.vx Deformation2D1.vy].
  set (ref := Example.zeroMeanNorm _).
  assert (Href : snd ref = Fin 0).
  { subst ref. apply zeroMeanNorm_zero.
    - apply Forall_forall. intros a Ha. apply repeat_spec in Ha. rewrite Ha. reflexivity.
    - discriminate. }
  rewrite Href, div_zero_zero.
  set (error_img := map _ (combine (fst ref) (fst ref))).
  assert (Herr : forall e, In e error_img -> e = NaN).
  { intros e He. subst error_img. apply in_map_iff in He.
    destruct He as [tr [Htr _]]. rewrite <- Htr, mul_NaN_r. reflexivity. }
  assert (Hne : combine (map (ICGN2D1.sd_row Example.collaborators2D Example.icgn1
                                Example.poi_middle)
                             (ICGN2D1.points Example.icgn1)) error_img <> []).
  { intros H. apply (f_equal (@length (list float * float))) in H.
    subst error_img. subst ref. unfold Example.zeroMeanNorm in H.
    cbn [fst] in H.
    cbn [fill2D Example.collaborators2D] in H.
    rewrite !length_combine, !length_map, !length_combine, !length_map,
            example_points, repeat_length in H.
    discriminate H. }
  rewrite !increment_nan by (intros j; apply numerator_nan; assumption).
  reflexivity.
Qed.

(** C5, as the claim has it, fails.  On a textureless subset the error
    factor is 0/0 and the norm of the increment is [NaN]: the loop leaves
    after its first pass although neither [iteration >= stop_condition]
    (1 against 10) nor [dp_norm < conv_criterion] holds. *)
Lemma ICGN_loop_leaves_on_nan_counterexample :
  let final := ICGN2D1.after Example.numerics Example.collaborators2D
                             Example.deformation2D1 Example.icgn1
                             Example.poi_middle 1 in
  ICGN2D1.compute Example.numerics Example.collaborators2D Example.deformation2D1
                  Example.icgn1 1 0 Example.poi_middle
  = (ICGN2D1.store Example.poi_middle final, Returned) /\
  ICGN2D1.iteration final = 1 /\
  F.geb (F.of_int (ICGN2D1.iteration final)) (ICGN2D1.stop_condition Example.icgn1)
  = false /\
  F.ltb (ICGN2D1.dp_norm_max final) (ICGN2D1.conv_criterion Example.icgn1) = false.
Proof.
  cbv zeta.
  assert (Hnan : ICGN2D1.dp_norm_max
                   (ICGN2D1.after Example.numerics Example.collaborators2D
                      Example.deformation2D1 Example.icgn1 Example.poi_middle 1) = NaN).
  { unfold ICGN2D1.after. simpl passes. apply textureless_dp_norm_nan. reflexivity. }
  assert (Hit : ICGN2D1.iteration
                   (ICGN2D1.after Example.numerics Example.collaborators2D
                      Example.deformation2D1 Example.icgn1 Example.poi_middle 1) = 1).
  { reflexivity. }
  split; [| split; [| split]].
  - unfold ICGN2D1.compute. rewrite example_instance1, example_passes1.
    unfold ICGN2D1.iterate. simpl do_while.
    replace (ICGN2D1.continue Example.icgn1 _) with false; [reflexivity |].
    symmetry. unfold ICGN2D1.continue.
    change (ICGN2D1.body Example.numerics Example.collaborators2D
              Example.deformation2D1 Example.icgn1 Example.poi_middle
              (ICGN2D1.start Example.deformation2D1 Example.poi_middle))
      with (ICGN2D1.after Example.numerics Example.collaborators2D
              Example.deformation2D1 Example.icgn1 Example.poi_middle 1).
    rewrite Hnan, geb_NaN_l. apply andb_false_r.
  - exact Hit.
  - rewrite Hit. unfold F.geb, F.of_int. simpl ICGN2D1.stop_condition.
    apply leb_Fin_false. lra.
  - rewrite Hnan. reflexivity.
Qed.

(** ** FFT-CC: the peak and its decoding *)

Lemma gtb_trans_false (a m b : float) :
  F.gtb a m = false -> F.gtb b m = true -> F.gtb a b = false.
Proof.
  destruct a as [| x]; [destruct b; reflexivity |].
  destruct m as [| y]; [discriminate |].
  destruct b as [| z]; [discriminate |].
  unfold F.gtb. rewrite ltb_Fin, !ltb_Fin_false. lra.
Qed.

Lemma gtb_irrefl (a : float) : F.gtb a a = false.
Proof.
  destruct a as [| x]; [reflexivity |]. unfold F.gtb. apply ltb_Fin_false. lra.
Qed.

Lemma search_step_searched (zncc : list float) (seen : Z -> Prop)
    (m : float * Z) (i : Z) :
  searched zncc seen m ->
  searched zncc (fun j => seen j \/ j = i) (FFTCC2D.search_step zncc m i).
Proof.
  intros [Hle Hat]. unfold FFTCC2D.search_step.
  destruct (F.gtb (nth (Z.to_nat i) zncc NaN) (fst m)) eqn:Hgt; split; simpl.
  - intros j [Hj | ->].
    + apply (gtb_trans_false _ (fst m)); auto.
    + apply gtb_irrefl.
  - right. split; [right; reflexivity | reflexivity].
  - intros j [Hj | ->]; auto.
  - destruct Hat as [Hat | [Hs Hat]]; [left; exact Hat | right; auto].
Qed.

Lemma search_fold_searched (zncc : list float) (l : list Z) (seen : Z -> Prop)
    (m : float * Z) :
  searched zncc seen m ->
  searched zncc (fun j => seen j \/ In j l) (fold_left (FFTCC2D.search_step zncc) l m).
Proof.
  revert seen m. induction l as [| i l IH]; intros seen m Hinv.
  - simpl. destruct Hinv as [Hle Hat]. split.
    + intros j [Hj | []]. auto.
    + destruct Hat as [Hat | [Hs Hat]]; [left; exact Hat | right; auto].
  - simpl. apply search_step_searched with (i := i) in Hinv.
    apply IH in Hinv. destruct Hinv as [Hle Hat]. split.
    + intros j [Hj | [<- | Hj]]; apply Hle; auto.
    + destruct Hat as [Hat | [[[Hs | Hs] | Hs] Hat]]; [left; exact Hat | | |];
        right; split; auto.
Qed.

(** The pair the search leaves: no value of the surface is above
    [max_zncc], and [max_zncc] is either the start value [-2] or the value
    at [max_zncc_index]. *)
Lemma search_max_spec (zncc : list float) (subset_size : Z) :
  let m := FFTCC2D.search_max zncc subset_size in
  (forall i, 0 <= i < subset_size ->
             F.gtb (nth (Z.to_nat i) zncc NaN) (fst m) = false) /\
  ((fst m = F.of_int (-2) /\ snd m = 0) \/
   (0 <= snd m < subset_size /\ fst m = nth (Z.to_nat (snd m)) zncc NaN)).
Proof.
  cbv zeta.
  pose proof (search_fold_searched zncc (range subset_size) (fun _ => False)
                (F.of_int (-2), 0)) as H.
  destruct H as [Hle Hat].
  - split; [intros i [] | left; split; reflexivity].
  - split.
    + intros i Hi. apply Hle. right. apply in_range_iff. exact Hi.
    + destruct Hat as [Hat | [[[] | Hs] Hat]]; [left; exact Hat |].
      right. split; [apply in_range_iff; exact Hs | exact Hat].
Qed.

Lemma search_max_index (zncc : list float) (subset_size : Z) :
  0 < subset_size -> 0 <= snd (FFTCC2D.search_max zncc subset_size) < subset_size.
Proof.
  intros Hpos. destruct (search_max_spec zncc subset_size) as [_ [[_ H] | [H _]]].
  - rewrite H. lia.
  - exact H.
Qed.

(** When some value of the surface is above the start value, the search
    ends on a value of the surface. *)
Lemma search_max_peak (zncc : list float) (subset_size : Z) :
  (exists i, 0 <= i < subset_size /\
             F.gtb (nth (Z.to_nat i) zncc NaN) (F.of_int (-2)) = true) ->
  let m := FFTCC2D.search_max zncc subset_size in
  0 <= snd m < subset_size /\ fst m = nth (Z.to_nat (snd m)) zncc NaN /\
  forall i, 0 <= i < subset_size ->
            F.gtb (nth (Z.to_nat i) zncc NaN) (fst m) = false.
Proof.
  intros [i [Hi Hgt]]. cbv zeta.
  destruct (search_max_spec zncc subset_size) as [Hle [[Hm _] | [Hk Hm]]].
  - specialize (Hle i Hi). rewrite Hm in Hle. congruence.
  - auto.
Qed.

Lemma subtract_mean_fold (mean : float) (buf acc : list float) (s : float) :
  fold_left
    (fun (st : list float * float) (a : float) =>
       let a' := F.sub a mean in
       (fst st ++ [a'], F.add (snd st) (F.mul a' a')))
    buf (acc, s)
  = (acc ++ map (fun a => F.sub a mean) buf,
     fold_left (fun s e => F.add s (F.mul e e))
               (map (fun a => F.sub a mean) buf) s).
Proof.
  revert acc s. induction buf as [| a buf IH]; intros acc s; simpl.
  - rewrite app_nil_r. reflexivity.
  - rewrite IH. simpl. rewrite <- app_assoc. reflexivity.
Qed.

(** The pass of lines 271-276 leaves the mean-subtracted buffer and the
    sum of its squares. *)
Lemma subtract_mean_spec (buf : list float) (mean : float) :
  FFTCC2D.subtract_mean buf mean
  = (map (fun a => F.sub a mean) buf,
     squaredNorm (map (fun a => F.sub a mean) buf)).
Proof. unfold FFTCC2D.subtract_mean. rewrite subtract_mean_fold. reflexivity. Qed.

Lemma doubled_in_range (r : Z) :
  0 <= r -> 2 * r <= Int.max_signed -> Int.mul r 2 = 2 * r.
Proof.
  intros H0 H. unfold Int.mul. rewrite wrap_in_range; [lia |].
  unfold Int.in_range, Int.min_signed, Int.max_signed in *. lia.
Qed.

Lemma subset_size_value (est : FFTCC2D.t) :
  1 <= FFTCC2D.subset_radius_x est -> 1 <= FFTCC2D.subset_radius_y est ->
  2 * FFTCC2D.subset_radius_x est * (2 * FFTCC2D.subset_radius_y est)
    <= Int.max_signed ->
  FFTCC2D.subset_size est
  = 2 * FFTCC2D.subset_radius_x est * (2 * FFTCC2D.subset_radius_y est).
Proof.
  intros Hx Hy H.
  unfold FFTCC2D.subset_size, FFTCC2D.subset_width, FFTCC2D.subset_height.
  rewrite (doubled_in_range (FFTCC2D.subset_radius_x est)) by nia.
  rewrite (doubled_in_range (FFTCC2D.subset_radius_y est)) by nia.
  unfold Int.mul. apply wrap_in_range.
  unfold Int.in_range, Int.min_signed. split; [nia | exact H].
Qed.

(** Lines 302-308 on an index of the surface. *)
Lemma decode_spec (rx ry k : Z) :
  1 <= rx -> 1 <= ry -> 2 * rx <= Int.max_signed -> 2 * ry <= Int.max_signed ->
  0 <= k < 2 * rx * (2 * ry) ->
  let du := if k mod (2 * rx) >? rx then k mod (2 * rx) - 2 * rx else k mod (2 * rx) in
  let dv := if k / (2 * rx) >? ry then k / (2 * rx) - 2 * ry else k / (2 * rx) in
  FFTCC2D.decode rx ry k = (du, dv) /\
  (- rx < du <= rx) /\ (- ry < dv <= ry).
Proof.
  intros Hx Hy Hmx Hmy Hk. cbv zeta.
  unfold FFTCC2D.decode.
  rewrite (doubled_in_range rx), (doubled_in_range ry) by lia.
  rewrite Z.rem_mod_nonneg, Z.quot_div_nonneg by lia.
  assert (Hmod : 0 <= k mod (2 * rx) < 2 * rx) by (apply Z.mod_pos_bound; lia).
  assert (Hdiv : 0 <= k / (2 * rx) < 2 * ry).
  { split; [apply Z.div_pos; lia | apply Z.div_lt_upper_bound; lia]. }
  generalize dependent (k mod (2 * rx)). intros m Hmod.
  generalize dependent (k / (2 * rx)). intros q Hdiv.
  clear Hk.
  assert (Hmin : Int.min_signed = - 2147483648) by reflexivity.
  assert (Hmax : Int.max_signed = 2147483647) by reflexivity.
  destruct (m >? rx) eqn:Hu; destruct (q >? ry) eqn:Hv;
    unfold Int.sub; rewrite ?wrap_in_range by (unfold Int.in_range; lia);
    (split; [reflexivity | lia]).
Qed.

Lemma example_ref_subset :
  FFTCC2D.ref_subset Example.fftcc Example.poi_middle = [Fin 0; Fin 0; Fin 0; Fin 0].
Proof. reflexivity. Qed.

Lemma example_tar_subset :
  FFTCC2D.tar_subset Example.fftcc Example.poi_middle = [Fin 0; Fin 0; Fin 0; Fin 0].
Proof. reflexivity. Qed.

Lemma example_subset_size : FFTCC2D.subset_size Example.fftcc = 4.
Proof. reflexivity. Qed.

Lemma example_mean :
  FFTCC2D.mean Example.fftcc [Fin 0; Fin 0; Fin 0; Fin 0] = Fin ((0 + 0 + 0 + 0 + 0) / 4).
Proof.
  unfold FFTCC2D.mean. rewrite example_subset_size. unfold F.of_int.
  cbn [fold_left F.add F.lift2]. apply div_Fin. lra.
Qed.

Lemma gtb_Fin_false (a b : R) : (a <= b)%R -> F.gtb (Fin a) (Fin b) = false.
Proof. intros H. unfold F.gtb. apply ltb_Fin_false. exact H. Qed.

Lemma gtb_Fin_true (a b : R) : (a > b)%R -> F.gtb (Fin a) (Fin b) = true.
Proof. intros H. apply gtb_Fin. exact H. Qed.

Lemma fold_left_cons {A B : Type} (f : A -> B -> A) (b : B) (l : list B) (a : A) :
  fold_left f (b :: l) a = fold_left f l (f a b).
Proof. reflexivity. Qed.

Lemma surface_peak : FFTCC2D.search_max Example.surface 16 = (Fin 1, 2).
Proof.
  unfold FFTCC2D.search_max.
  replace (range 16) with [0; 1; 2; 3; 4; 5; 6; 7; 8; 9; 10; 11; 12; 13; 14; 15]
    by reflexivity.
  unfold F.of_int.
  set (f := FFTCC2D.search_step Example.surface).
  assert (Hup : forall r k i x,
             nth (Z.to_nat i) Example.surface NaN = Fin x -> (x > r)%R ->
             f (Fin r, k) i = (Fin x, i)).
  { intros r k i x Hx Hr. unfold f, FFTCC2D.search_step. cbn [fst].
    rewrite Hx, gtb_Fin_true by exact Hr.
    reflexivity. }
  assert (Hkeep : forall r k i x,
             nth (Z.to_nat i) Example.surface NaN = Fin x -> (x <= r)%R ->
             f (Fin r, k) i = (Fin r, k)).
  { intros r k i x Hx Hr. unfold f, FFTCC2D.search_step. cbn [fst].
    rewrite Hx, gtb_Fin_false by exact Hr.
    reflexivity. }
  rewrite fold_left_cons, (Hup _ _ 0 0%R eq_refl) by lra.
  rewrite fold_left_cons, (Hkeep _ _ 1 0%R eq_refl) by lra.
  rewrite fold_left_cons, (Hup _ _ 2 1%R eq_refl) by lra.
  rewrite fold_left_cons, (Hkeep _ _ 3 0%R eq_refl) by lra.
  rewrite fold_left_cons, (Hkeep _ _ 4 0%R eq_refl) by lra.
  rewrite fold_left_cons, (Hkeep _ _ 5 0%R eq_refl) by lra.
  rewrite fold_left_cons, (Hkeep _ _ 6 0%R eq_refl) by lra.
  rewrite fold_left_cons, (Hkeep _ _ 7 0%R eq_refl) by lra.
  rewrite fold_left_cons, (Hkeep _ _ 8 0%R eq_refl) by lra.
  rewrite fold_left_cons, (Hkeep _ _ 9 0%R eq_refl) by lra.
  rewrite fold_left_cons, (Hkeep _ _ 10 0%R eq_refl) by lra.
  rewrite fold_left_cons, (Hkeep _ _ 11 0%R eq_refl) by lra.
  rewrite fold_left_cons, (Hkeep _ _ 12 0%R eq_refl) by lra.
  rewrite fold_left_cons, (Hkeep _ _ 13 0%R eq_refl) by lra.
  rewrite fold_left_cons, (Hkeep _ _ 14 0%R eq_refl) by lra.
  rewrite fold_left_cons, (Hkeep _ _ 15 0%R eq_refl) by lra.
  reflexivity.
Qed.

(** C2, as the code has it.  For radii of at least 1 whose subset size is
    an [int], the index [k] of the peak that [compute] finds lies in the
    surface, it is decoded as [k mod 2rx] and [k / 2rx], each lowered by
    the full size [2rx] or [2ry] when it is above the radius, and the
    decoded pair satisfies [-rx < du <= rx] and [-ry < dv <= ry]. *)
Theorem decoded_peak_range :
  forall (L : FFTW.library) (est : FFTCC2D.t) (inst : FFTW.t) (poi : POI2D.t),
  let rx := FFTCC2D.subset_radius_x est in
  let ry := FFTCC2D.subset_radius_y est in
  1 <= rx -> 1 <= ry -> 2 * rx * (2 * ry) <= Int.max_signed ->
  let k := FFTCC2D.max_zncc_index (FFTCC2D.work L est inst poi) in
  let du := if k mod (2 * rx) >? rx then k mod (2 * rx) - 2 * rx else k mod (2 * rx) in
  let dv := if k / (2 * rx) >? ry then k / (2 * rx) - 2 * ry else k / (2 * rx) in
  0 <= k < 2 * rx * (2 * ry) /\
  FFTCC2D.decode rx ry k = (du, dv) /\
  (- rx < du <= rx) /\ (- ry < dv <= ry).
Proof.
  intros L est inst poi rx ry Hx Hy Hsize k.
  assert (Hk : 0 <= k < 2 * rx * (2 * ry)).
  { subst k rx ry. unfold FFTCC2D.work. cbn [FFTCC2D.max_zncc_index].
    rewrite <- (subset_size_value est Hx Hy Hsize).
    apply search_max_index. rewrite (subset_size_value est Hx Hy Hsize).
    nia. }
  split; [exact Hk |].
  apply decode_spec; try assumption; subst rx ry; nia.
Qed.

(** Radii [(1, 1)] on the textureless image. *)
Lemma decoded_peak_range_witness :
  (1 <= 1 /\ 2 * 1 * (2 * 1) <= Int.max_signed) /\
  (- 1 < fst (FFTCC2D.decode 1 1
                (FFTCC2D.max_zncc_index
                   (FFTCC2D.work Example.fftw Example.fftcc (FFTW.allocate 1 1 0)
                                 Example.poi_middle))) <= 1).
Proof.
  assert (H : 1 <= 1 /\ 2 * 1 * (2 * 1) <= Int.max_signed).
  { unfold Int.max_signed. lia. }
  split; [exact H |].
  destruct (decoded_peak_range Example.fftw Example.fftcc (FFTW.allocate 1 1 0)
              Example.poi_middle (proj1 H) (proj1 H) (proj2 H))
    as [_ [Hdec [Hu _]]].
  cbv zeta in Hdec, Hu. cbn [FFTCC2D.subset_radius_x FFTCC2D.subset_radius_y Example.fftcc
                            FFTCC2D.new] in Hdec, Hu.
  rewrite Hdec. exact Hu.
Defined.

(** C2, as the claim has it, fails: for radii [(2, 2)] and a surface whose
    peak is at index 2, the decoded [du] is 2, which is not below [rx]. *)
Lemma decoded_peak_range_counterexample :
  let k := snd (FFTCC2D.search_max Example.surface (2 * 2 * (2 * 2))) in
  let du := fst (FFTCC2D.decode 2 2 k) in
  let dv := snd (FFTCC2D.decode 2 2 k) in
  k = 2 /\ du = 2 /\ dv = 0 /\ ~ (- 2 <= du < 2 /\ - 2 <= dv < 2).
Proof.
  cbv zeta. change (2 * 2 * (2 * 2)) with 16. rewrite surface_peak.
  cbn [snd]. change (FFTCC2D.decode 2 2 2) with (2, 0). cbn [fst snd].
  repeat split; try reflexivity. lia.
Qed.

(** Line 281: the length of the loop over the spectrum. *)
Lemma buffer_length_value (rx ry : Z) :
  1 <= rx -> 1 <= ry -> 2 * rx * (2 * ry) <= Int.max_signed ->
  Int.mul (Int.mul rx 2) (Int.add ry 1) = 2 * rx * (ry + 1).
Proof.
  intros Hx Hy H.
  assert (Hmin : Int.min_signed = - 2147483648) by reflexivity.
  assert (Hmax : Int.max_signed = 2147483647) by reflexivity.
  rewrite (doubled_in_range rx) by nia.
  unfold Int.add, Int.mul.
  rewrite (wrap_in_range (ry + 1)) by (unfold Int.in_range; nia).
  apply wrap_in_range. unfold Int.in_range. nia.
Qed.

(** The stripes under the subset of radii [(1, 1)] around [(50, 50)]. *)
Lemma example_instance_stripes :
  FFTCC2D.getInstance Example.fftcc_stripes 0 = Got (FFTW.allocate 1 1 0).
Proof. reflexivity. Qed.

Lemma example_stripes_points :
  FFTCC2D.points Example.fftcc_stripes = [(0, 0); (0, 1); (1, 0); (1, 1)].
Proof. reflexivity. Qed.

Lemma example_stripes_sample (img : Image2D.t) (r c : Z) (x y : R) :
  (x = IZR c)%R -> (y = IZR r)%R -> Int.in_range c -> Int.in_range r ->
  FFTCC2D.sample img (Point2D.mk (Fin x) (Fin y)) = Image2D.eg_mat img r c.
Proof.
  intros Hx Hy Hc Hr. unfold FFTCC2D.sample. cbn [Point2D.x Point2D.y].
  rewrite (to_int_Fin x c Hx Hc), (to_int_Fin y r Hy Hr). reflexivity.
Qed.

Lemma example_stripes_ref :
  FFTCC2D.ref_subset Example.fftcc_stripes Example.poi_middle
  = [Fin 0; Fin 1; Fin 0; Fin 1].
Proof.
  unfold FFTCC2D.ref_subset. rewrite example_stripes_points.
  cbn [map]. unfold FFTCC2D.ref_point, F.of_int.
  cbn [Example.poi_middle POI2D.x POI2D.y fst snd F.add F.sub F.lift2
       Example.fftcc_stripes FFTCC2D.new FFTCC2D.subset_radius_x FFTCC2D.subset_radius_y
       FFTCC2D.ref_img].
  assert (H49 : Int.in_range 49) by (unfold Int.in_range, Int.min_signed, Int.max_signed; lia).
  assert (H50 : Int.in_range 50) by (unfold Int.in_range, Int.min_signed, Int.max_signed; lia).
  rewrite (example_stripes_sample _ 49 49 (50 + 0 - 1) (50 + 0 - 1)) by (assumption || lra).
  rewrite (example_stripes_sample _ 49 50 (50 + 1 - 1) (50 + 0 - 1)) by (assumption || lra).
  rewrite (example_stripes_sample _ 50 49 (50 + 0 - 1) (50 + 1 - 1)) by (assumption || lra).
  rewrite (example_stripes_sample _ 50 50 (50 + 1 - 1) (50 + 1 - 1)) by (assumption || lra).
  reflexivity.
Qed.

Lemma example_stripes_tar :
  FFTCC2D.tar_subset Example.fftcc_stripes Example.poi_middle
  = [Fin 1; Fin 0; Fin 1; Fin 0].
Proof.
  unfold FFTCC2D.tar_subset. cbv zeta. rewrite example_stripes_points.
  cbn [map]. unfold FFTCC2D.ref_point, Point2D.add, F.of_int.
  cbn [Example.poi_middle POI2D.x POI2D.y POI2D.deformation Example.zero2D
       DeformationVector2D.u DeformationVector2D.v Point2D.x Point2D.y
       fst snd F.add F.sub F.lift2
       Example.fftcc_stripes FFTCC2D.new FFTCC2D.subset_radius_x FFTCC2D.subset_radius_y
       FFTCC2D.tar_img].
  assert (H49 : Int.in_range 49) by (unfold Int.in_range, Int.min_signed, Int.max_signed; lia).
  assert (H50 : Int.in_range 50) by (unfold Int.in_range, Int.min_signed, Int.max_signed; lia).
  rewrite (example_stripes_sample _ 49 49 (50 + 0 - 1 + 0) (50 + 0 - 1 + 0))
    by (assumption || lra).
  rewrite (example_stripes_sample _ 49 50 (50 + 1 - 1 + 0) (50 + 0 - 1 + 0))
    by (assumption || lra).
  rewrite (example_stripes_sample _ 50 49 (50 + 0 - 1 + 0) (50 + 1 - 1 + 0))
    by (assumption || lra).
  rewrite (example_stripes_sample _ 50 50 (50 + 1 - 1 + 0) (50 + 1 - 1 + 0))
    by (assumption || lra).
  reflexivity.
Qed.

Lemma example_stripes_size : FFTCC2D.subset_size Example.fftcc_stripes = 4.
Proof. reflexivity. Qed.

Lemma example_stripes_mean (a b c d : R) :
  FFTCC2D.mean Example.fftcc_stripes [Fin a; Fin b; Fin c; Fin d]
  = Fin ((a + b + c + d) / 4).
Proof.
  unfold FFTCC2D.mean. rewrite example_stripes_size. unfold F.of_int.
  cbn [fold_left F.add F.lift2]. rewrite div_Fin by lra. f_equal. lra.
Qed.

Lemma example_stripes_work :
  FFTCC2D.work Example.fftw Example.fftcc_stripes (FFTW.allocate 1 1 0) Example.poi_middle
  = FFTCC2D.mkworked (Point2D.mk (Fin 0) (Fin 0)) (Fin 1) (Fin 1)
      [Fin (-4); Fin 4; Fin (-4); Fin 4] (Fin 4) 1.
Proof.
  unfold FFTCC2D.work.
  rewrite example_stripes_ref, example_stripes_tar, !example_stripes_mean,
    !subtract_mean_spec.
  cbn [fst snd map F.sub F.lift2].
  replace ((0 + 1 + 0 + 1) / 4)%R with (1 / 2)%R by lra.
  replace ((1 + 0 + 1 + 0) / 4)%R with (1 / 2)%R by lra.
  replace (0 - 1 / 2)%R with (- (1 / 2))%R by lra.
  replace (1 - 1 / 2)%R with (1 / 2)%R by lra.
  assert (Hrn : squaredNorm [Fin (- (1 / 2)); Fin (1 / 2); Fin (- (1 / 2)); Fin (1 / 2)]
                = Fin 1).
  { unfold squaredNorm. cbn [fold_left F.add F.mul F.lift2]. f_equal. lra. }
  assert (Htn : squaredNorm [Fin (1 / 2); Fin (- (1 / 2)); Fin (1 / 2); Fin (- (1 / 2))]
                = Fin 1).
  { unfold squaredNorm. cbn [fold_left F.add F.mul F.lift2]. f_equal. lra. }
  rewrite Hrn, Htn.
  assert (Hcorr : FFTCC2D.correlate Example.fftw Example.fftcc_stripes (FFTW.allocate 1 1 0)
                    [Fin (- (1 / 2)); Fin (1 / 2); Fin (- (1 / 2)); Fin (1 / 2)]
                    [Fin (1 / 2); Fin (- (1 / 2)); Fin (1 / 2); Fin (- (1 / 2))]
                  = [Fin (-4); Fin 4; Fin (-4); Fin 4]).
  { unfold FFTCC2D.correlate.
    replace (Int.mul (FFTCC2D.subset_width Example.fftcc_stripes)
                     (Int.add (FFTCC2D.subset_radius_y Example.fftcc_stripes) 1)) with 4
      by reflexivity.
    unfold FFTCC2D.cross_spectrum.
    replace (range 4) with [0; 1; 2; 3] by reflexivity.
    cbn [map].
    change (Z.to_nat 0) with 0%nat. change (Z.to_nat 1) with 1%nat.
    change (Z.to_nat 2) with 2%nat. change (Z.to_nat 3) with 3%nat.
    cbn [Example.fftw FFTW.r2c FFTW.c2r Example.dft2x2 map nth
         FFTCC2D.cross fst snd F.add F.sub F.mul F.lift2].
    unfold Example.dft2x2. cbn [F.add F.sub F.lift2].
    do 3 (f_equal; [f_equal; lra |]). do 2 f_equal. lra. }
  rewrite Hcorr, example_stripes_size.
  assert (Hsearch : FFTCC2D.search_max [Fin (-4); Fin 4; Fin (-4); Fin 4] 4 = (Fin 4, 1)).
  { unfold FFTCC2D.search_max.
    replace (range 4) with [0; 1; 2; 3] by reflexivity.
    unfold F.of_int. cbn [fold_left].
    unfold FFTCC2D.search_step.
    change (Z.to_nat 0) with 0%nat. change (Z.to_nat 1) with 1%nat.
    change (Z.to_nat 2) with 2%nat. change (Z.to_nat 3) with 3%nat.
    cbn [nth fst].
    rewrite (gtb_Fin_false (-4) (-2)) by lra. cbn [fst].
    rewrite (gtb_Fin_true 4 (-2)) by lra. cbn [fst].
    rewrite (gtb_Fin_false (-4) 4) by lra. cbn [fst].
    rewrite (gtb_Fin_false 4 4) by lra.
    reflexivity. }
  rewrite Hsearch. reflexivity.
Qed.

Lemma example_stripes_above :
  exists i : Z,
    0 <= i < 2 * 1 * (2 * 1) /\
    F.gtb (nth (Z.to_nat i)
               (FFTCC2D.zncc (FFTCC2D.work Example.fftw Example.fftcc_stripes
                                (FFTW.allocate 1 1 0) Example.poi_middle)) NaN)
          (F.of_int (-2)) = true.
Proof.
  exists 1. split; [lia |].
  rewrite example_stripes_work. cbn [FFTCC2D.zncc].
  change (Z.to_nat 1) with 1%nat. cbn [nth].
  unfold F.of_int. apply gtb_Fin_true. lra.
Qed.

Lemma example_stripes_zncc :
  let ref := [Fin 0; Fin 1; Fin 0; Fin 1] in
  let tar := [Fin 1; Fin 0; Fin 1; Fin 0] in
  let ref_mean := F.div (fold_left F.add ref (Fin 0)) (F.of_int 4) in
  let tar_mean := F.div (fold_left F.add tar (Fin 0)) (F.of_int 4) in
  let ref0 := map (fun a => F.sub a ref_mean) ref in
  let tar0 := map (fun a => F.sub a tar_mean) tar in
  let ref_norm := fold_left (fun s a => F.add s (F.mul a a)) ref0 (Fin 0) in
  let tar_norm := fold_left (fun s a => F.add s (F.mul a a)) tar0 (Fin 0) in
  F.div (Fin 4) (F.mul (F.sqrt (F.mul ref_norm tar_norm)) (F.of_int 4)) = Fin 1.
Proof.
  cbv zeta. unfold F.of_int.
  cbn [fold_left F.add F.lift2].
  rewrite !div_Fin by lra.
  cbn [map fold_left F.add F.sub F.mul F.lift2].
  rewrite sqrt_Fin by lra.
  cbn [F.mul F.lift2].
  match goal with
  | |- context [sqrt ?e] => replace e with 1%R by lra
  end.
  rewrite sqrt_1. rewrite div_Fin by lra. f_equal. lra.
Qed.

(** C6.  With a scratch instance for the thread, radii of at least 1 whose
    subset size is an [int], and a correlation surface that has a value
    above the start value [-2] of the search: [compute] returns, having
    stored [u = du + u0] and [v = dv + v0] for the initial guess
    [(u0, v0)], which it records, and the integer peak offset [(du, dv)]
    decoded from the index of the peak, and
    [zncc = peak / (sqrt (ref_norm * tar_norm) * subset_size)] with
    [subset_size = 2rx * 2ry].  Here the reference subset holds at
    [r * 2rx + c] the pixel of the reference image at row
    [(int) (y + r - ry)] and column [(int) (x + c - rx)], the target
    subset the pixel of the target image at that point moved by the
    initial guess; the means are the sums over [subset_size];
    [ref_norm] and [tar_norm] are the sums of squares of the
    mean-subtracted subsets; the surface is the inverse transform of the
    spectrum that holds at every [n < 2rx * (ry + 1)] the product of the
    conjugate of the transform of the mean-subtracted reference subset
    with the transform of the mean-subtracted target subset; and [peak]
    is the value of the surface at the index found, which no value of the
    surface exceeds. *)
Theorem FFTCC2D_compute_reports :
  forall (L : FFTW.library) (est : FFTCC2D.t) (tid : Z) (inst : FFTW.t)
         (poi : POI2D.t),
  let rx := FFTCC2D.subset_radius_x est in
  let ry := FFTCC2D.subset_radius_y est in
  let k := FFTCC2D.work L est inst poi in
  let corr := FFTCC2D.zncc k in
  FFTCC2D.getInstance est tid = Got inst ->
  1 <= rx -> 1 <= ry -> 2 * rx * (2 * ry) <= Int.max_signed ->
  (exists i : Z, 0 <= i < 2 * rx * (2 * ry) /\
                 F.gtb (nth (Z.to_nat i) corr NaN) (F.of_int (-2)) = true) ->
  let after := fst (FFTCC2D.compute L est tid poi) in
  let d := POI2D.deformation poi in
  let u0 := DeformationVector2D.u d in
  let v0 := DeformationVector2D.v d in
  let peak := FFTCC2D.max_zncc k in
  let index := FFTCC2D.max_zncc_index k in
  let du := if index mod (2 * rx) >? rx then index mod (2 * rx) - 2 * rx
            else index mod (2 * rx) in
  let dv := if index / (2 * rx) >? ry then index / (2 * rx) - 2 * ry
            else index / (2 * rx) in
  let subset_size := 2 * rx * (2 * ry) in
  let ref := FFTCC2D.ref_subset est poi in
  let tar := FFTCC2D.tar_subset est poi in
  let ref_mean := F.div (fold_left F.add ref (Fin 0)) (F.of_int subset_size) in
  let tar_mean := F.div (fold_left F.add tar (Fin 0)) (F.of_int subset_size) in
  let ref0 := map (fun a => F.sub a ref_mean) ref in
  let tar0 := map (fun a => F.sub a tar_mean) tar in
  let ref_norm := fold_left (fun s a => F.add s (F.mul a a)) ref0 (Fin 0) in
  let tar_norm := fold_left (fun s a => F.add s (F.mul a a)) tar0 (Fin 0) in
  let ref_freq := FFTW.r2c L inst ref0 in
  let tar_freq := FFTW.r2c L inst tar0 in
  snd (FFTCC2D.compute L est tid poi) = Returned /\
  DeformationVector2D.u (POI2D.deformation after) = F.add (F.of_int du) u0 /\
  DeformationVector2D.v (POI2D.deformation after) = F.add (F.of_int dv) v0 /\
  Result2D.u0 (POI2D.result after) = u0 /\
  Result2D.v0 (POI2D.result after) = v0 /\
  Result2D.zncc (POI2D.result after)
  = F.div peak (F.mul (F.sqrt (F.mul ref_norm tar_norm)) (F.of_int subset_size)) /\
  (length ref = Z.to_nat subset_size /\ length tar = Z.to_nat subset_size /\
   forall r c : Z, 0 <= r < 2 * ry -> 0 <= c < 2 * rx ->
     let x := F.sub (F.add (POI2D.x poi) (F.of_int c)) (F.of_int rx) in
     let y := F.sub (F.add (POI2D.y poi) (F.of_int r)) (F.of_int ry) in
     nth (Z.to_nat (r * (2 * rx) + c)) ref NaN
     = Image2D.eg_mat (FFTCC2D.ref_img est) (F.to_int y) (F.to_int x) /\
     nth (Z.to_nat (r * (2 * rx) + c)) tar NaN
     = Image2D.eg_mat (FFTCC2D.tar_img est)
                      (F.to_int (F.add y v0)) (F.to_int (F.add x u0))) /\
  (exists zncc_freq : list FFTW.complex,
     corr = FFTW.c2r L inst zncc_freq /\
     length zncc_freq = Z.to_nat (2 * rx * (ry + 1)) /\
     forall n : Z, 0 <= n < 2 * rx * (ry + 1) ->
       let a := nth (Z.to_nat n) ref_freq (NaN, NaN) in
       let b := nth (Z.to_nat n) tar_freq (NaN, NaN) in
       nth (Z.to_nat n) zncc_freq (NaN, NaN)
       = (F.add (F.mul (fst a) (fst b)) (F.mul (snd a) (snd b)),
          F.sub (F.mul (fst a) (snd b)) (F.mul (snd a) (fst b)))) /\
  0 <= index < subset_size /\
  peak = nth (Z.to_nat index) corr NaN /\
  (forall i : Z, 0 <= i < subset_size ->
                 F.gtb (nth (Z.to_nat i) corr NaN) peak = false).
Proof.
  intros L est tid inst poi rx ry k corr Hinst Hx Hy Hsize Habove
         after d u0 v0 peak index du dv subset_size ref tar ref_mean tar_mean
         ref0 tar0 ref_norm tar_norm ref_freq tar_freq.
  pose proof (subset_size_value est Hx Hy Hsize) as Hval.
  fold rx ry in Hval. fold subset_size in Hval.
  assert (Hrm : FFTCC2D.mean est ref = ref_mean).
  { unfold FFTCC2D.mean. rewrite Hval. reflexivity. }
  assert (Htm : FFTCC2D.mean est tar = tar_mean).
  { unfold FFTCC2D.mean. rewrite Hval. reflexivity. }
  assert (Hk : k = FFTCC2D.mkworked (Point2D.mk u0 v0) ref_norm tar_norm
                 (FFTCC2D.correlate L est inst ref0 tar0)
                 (fst (FFTCC2D.search_max (FFTCC2D.correlate L est inst ref0 tar0)
                                          subset_size))
                 (snd (FFTCC2D.search_max (FFTCC2D.correlate L est inst ref0 tar0)
                                          subset_size))).
  { subst k. unfold FFTCC2D.work. rewrite !subtract_mean_spec.
    fold ref tar. rewrite Hrm, Htm, Hval. reflexivity. }
  assert (Hsurface : corr = FFTCC2D.correlate L est inst ref0 tar0).
  { subst corr. rewrite Hk. reflexivity. }
  assert (Hafter : FFTCC2D.compute L est tid poi = (FFTCC2D.store est poi k, Returned)).
  { unfold FFTCC2D.compute. rewrite Hinst. reflexivity. }
  destruct (search_max_peak corr subset_size Habove) as [Hidx [Hpeak Hmax]].
  assert (Hsearch : FFTCC2D.search_max corr subset_size = (peak, index)).
  { subst peak index. rewrite Hsurface, Hk.
    cbn [FFTCC2D.max_zncc FFTCC2D.max_zncc_index]. apply surjective_pairing. }
  rewrite Hsearch in Hidx, Hpeak, Hmax. cbn [fst snd] in Hidx, Hpeak, Hmax.
  destruct (decode_spec rx ry index) as [Hdec _]; try assumption; try nia.
  cbv zeta in Hdec. fold du dv in Hdec.
  subst after. rewrite Hafter. cbn [fst snd].
  split; [reflexivity |].
  unfold FFTCC2D.store.
  cbn [POI2D.deformation POI2D.result DeformationVector2D.u DeformationVector2D.v
       Result2D.u0 Result2D.v0 Result2D.zncc].
  fold rx ry index. rewrite Hdec, Hval. cbn [fst snd].
  assert (Hinit : FFTCC2D.initial_displacement k = Point2D.mk u0 v0).
  { rewrite Hk. reflexivity. }
  assert (Hrn : FFTCC2D.ref_norm k = ref_norm) by (rewrite Hk; reflexivity).
  assert (Htn : FFTCC2D.tar_norm k = tar_norm) by (rewrite Hk; reflexivity).
  rewrite Hinit, Hrn, Htn. cbn [Point2D.x Point2D.y].
  repeat (split; [reflexivity |]).
  assert (Hw : FFTCC2D.subset_width est = 2 * rx).
  { unfold FFTCC2D.subset_width. apply doubled_in_range; subst rx; nia. }
  assert (Hh : FFTCC2D.subset_height est = 2 * ry).
  { unfold FFTCC2D.subset_height. apply doubled_in_range; subst ry; nia. }
  assert (Hpoints : length (FFTCC2D.points est) = Z.to_nat subset_size).
  { unfold FFTCC2D.points. rewrite grid_length, Hw, Hh.
    unfold subset_size. rewrite <- Z2Nat.inj_mul by lia. f_equal. lia. }
  split.
  { split; [subst ref; unfold FFTCC2D.ref_subset; rewrite length_map; exact Hpoints |].
    split; [subst tar; unfold FFTCC2D.tar_subset; cbv zeta; rewrite length_map;
            exact Hpoints |].
    intros r c Hr Hc. cbv zeta. split.
    - subst ref. unfold FFTCC2D.ref_subset, FFTCC2D.points. rewrite Hw, Hh.
      rewrite grid_nth by assumption. reflexivity.
    - subst tar. unfold FFTCC2D.tar_subset, FFTCC2D.points. cbv zeta. rewrite Hw, Hh.
      rewrite grid_nth by assumption. reflexivity. }
  split.
  { exists (FFTCC2D.cross_spectrum (2 * rx * (ry + 1)) ref_freq tar_freq).
    split.
    - rewrite Hsurface. unfold FFTCC2D.correlate. cbv zeta.
      unfold FFTCC2D.subset_width. fold rx ry.
      rewrite (buffer_length_value rx ry Hx Hy Hsize). reflexivity.
    - split.
      + unfold FFTCC2D.cross_spectrum. rewrite length_map. apply range_length.
      + intros n Hn. cbv zeta. unfold FFTCC2D.cross_spectrum.
        rewrite map_range_nth by exact Hn. reflexivity. }
  split; [exact Hidx |].
  split; [exact Hpeak | exact Hmax].
Qed.

(** Radii [(1, 1)] on the stripes and the stripes moved one pixel to the
    right: the peak is at index 1, the displacement found is [(1, 0)] and
    the coefficient is 1. *)
Lemma FFTCC2D_compute_reports_witness :
  let after :=
    fst (FFTCC2D.compute Example.fftw Example.fftcc_stripes 0 Example.poi_middle) in
  DeformationVector2D.u (POI2D.deformation after) = F.add (F.of_int 1) (Fin 0) /\
  DeformationVector2D.v (POI2D.deformation after) = F.add (F.of_int 0) (Fin 0) /\
  Result2D.zncc (POI2D.result after) = Fin 1.
Proof.
  assert (H1 : 1 <= 1) by lia.
  assert (H2 : 2 * 1 * (2 * 1) <= Int.max_signed) by (unfold Int.max_signed; lia).
  destruct (FFTCC2D_compute_reports Example.fftw Example.fftcc_stripes 0
              (FFTW.allocate 1 1 0) Example.poi_middle
              example_instance_stripes H1 H1 H2 example_stripes_above)
    as [_ [Hu [Hv [_ [_ [Hz _]]]]]].
  cbv zeta in Hu, Hv, Hz |- *.
  rewrite example_stripes_work in Hu, Hv, Hz.
  rewrite example_stripes_ref, example_stripes_tar in Hz.
  split; [exact Hu |]. split; [exact Hv |].
  rewrite Hz. exact example_stripes_zncc.
Defined.

(** C10.  Whatever the thread index and the POI, after
    [FFTCC2D::compute] the coordinates of the POI, the gradient components
    [ux, uy, vx, vy], the second-order components, [result.iteration] and
    [result.convergence] are what they were before: the call writes
    [deformation.u], [deformation.v], [result.u0], [result.v0] and
    [result.zncc] at most, and there is no test that would skip them. *)
Theorem FFTCC2D_compute_frame :
  forall (L : FFTW.library) (est : FFTCC2D.t) (tid : Z) (poi : POI2D.t),
  let after := fst (FFTCC2D.compute L est tid poi) in
  let d := POI2D.deformation poi in
  let d' := POI2D.deformation after in
  POI2D.x after = POI2D.x poi /\ POI2D.y after = POI2D.y poi /\
  DeformationVector2D.ux d' = DeformationVector2D.ux d /\
  DeformationVector2D.uy d' = DeformationVector2D.uy d /\
  DeformationVector2D.vx d' = DeformationVector2D.vx d /\
  DeformationVector2D.vy d' = DeformationVector2D.vy d /\
  DeformationVector2D.uxx d' = DeformationVector2D.uxx d /\
  DeformationVector2D.uxy d' = DeformationVector2D.uxy d /\
  DeformationVector2D.uyy d' = DeformationVector2D.uyy d /\
  DeformationVector2D.vxx d' = DeformationVector2D.vxx d /\
  DeformationVector2D.vxy d' = DeformationVector2D.vxy d /\
  DeformationVector2D.vyy d' = DeformationVector2D.vyy d /\
  Result2D.iteration (POI2D.result after) = Result2D.iteration (POI2D.result poi) /\
  Result2D.convergence (POI2D.result after) = Result2D.convergence (POI2D.result poi).
Proof.
  intros L est tid poi. cbv zeta. unfold FFTCC2D.compute.
  destruct (FFTCC2D.getInstance est tid) as [inst | msg |];
    cbn [fst]; repeat split; reflexivity.
Qed.

(** ** The half-peak search of the speckle size *)

Lemma crossing_reads (M : Z -> Z -> float) (h : float) (p1 p2 : Z * Z) (a1 a2 : Z)
    (p : Z * Z) :
  In p (snd (FFTCC2D.crossing M h p1 p2 a1 a2)) -> p = p1 \/ p = p2.
Proof.
  unfold FFTCC2D.crossing.
  destruct (F.gtb (M (fst p1) (snd p1)) h); [destruct (F.leb (M (fst p2) (snd p2)) h) |];
    simpl; intuition auto.
Qed.

Lemma scan_reads (step : Z -> option float * FFTCC2D.reads) (l : list Z) (p : Z * Z) :
  In p (snd (FFTCC2D.scan step l)) -> exists i, In i l /\ In p (snd (step i)).
Proof.
  induction l as [| i l IH]; simpl; [intros [] |].
  destruct (fst (step i)); simpl.
  - intros H. exists i. auto.
  - intros H. apply in_app_or in H. destruct H as [H | H].
    + exists i. auto.
    + destruct (IH H) as [j [Hj Hp]]. exists j. auto.
Qed.

(** The rows the two loops along y read, for a radius whose subset height
    is an [int]. *)
Lemma y_search_rows (M : Z -> Z -> float) (h : float) (x0 ry : Z) (p : Z * Z) :
  0 <= ry -> 2 * ry <= Int.max_signed ->
  In p (snd (FFTCC2D.search_ry1 M h x0 (Int.sub ry 1))
        ++ snd (FFTCC2D.search_ry2 M h x0 (Int.sub ry 1))) ->
  0 <= fst p <= 2 * ry - 2.
Proof.
  intros Hry Hmax Hin.
  assert (Hmin : Int.min_signed = - 2147483648) by reflexivity.
  assert (Hmx : Int.max_signed = 2147483647) by reflexivity.
  assert (Hy0 : Int.sub ry 1 = ry - 1).
  { unfold Int.sub. apply wrap_in_range. unfold Int.in_range. lia. }
  rewrite Hy0 in Hin.
  apply in_app_or in Hin. destruct Hin as [Hin | Hin].
  - unfold FFTCC2D.search_ry1 in Hin. apply scan_reads in Hin.
    destruct Hin as [i [Hi Hp]]. apply in_range_iff in Hi.
    apply crossing_reads in Hp.
    assert (H1 : Int.add (ry - 1) i = ry - 1 + i).
    { unfold Int.add. apply wrap_in_range. unfold Int.in_range. lia. }
    assert (H2 : Int.add (ry - 1 + i) 1 = ry + i).
    { unfold Int.add. rewrite wrap_in_range; [lia | unfold Int.in_range; lia]. }
    rewrite H1, H2 in Hp. destruct Hp as [-> | ->]; cbn [fst]; lia.
  - unfold FFTCC2D.search_ry2 in Hin. apply scan_reads in Hin.
    destruct Hin as [i [Hi Hp]]. apply in_range_iff in Hi.
    apply crossing_reads in Hp.
    assert (H1 : Int.sub (ry - 1) i = ry - 1 - i).
    { unfold Int.sub. apply wrap_in_range. unfold Int.in_range. lia. }
    assert (H2 : Int.sub (ry - 1 - i) 1 = ry - 2 - i).
    { unfold Int.sub. rewrite wrap_in_range; [lia | unfold Int.in_range; lia]. }
    rewrite H1, H2 in Hp. destruct Hp as [-> | ->]; cbn [fst]; lia.
Qed.

(** C8, as the code has it.  For every radius whose subset height is an
    [int], every row the two half-peak loops along y read lies in
    [[0, 2 ry - 2]], inside the extent [[0, 2 ry - 1]] of the matrix: the
    bound [i < y0] lets no read fall outside. *)
Theorem y_search_reads_in_bounds :
  forall (zncc_matrix : Z -> Z -> float) (half_peak_ratio : float)
         (subset_radius_x subset_radius_y : Z) (p : Z * Z),
  0 <= subset_radius_y -> 2 * subset_radius_y <= Int.max_signed ->
  let y0 := Int.sub subset_radius_y 1 in
  let x0 := Int.sub subset_radius_x 1 in
  In p (snd (FFTCC2D.search_ry1 zncc_matrix half_peak_ratio x0 y0)
        ++ snd (FFTCC2D.search_ry2 zncc_matrix half_peak_ratio x0 y0)) ->
  0 <= fst p <= 2 * subset_radius_y - 2 /\
  0 <= fst p <= 2 * subset_radius_y - 1.
Proof.
  intros M h rx ry p Hry Hmax y0 x0 Hin.
  pose proof (y_search_rows M h x0 ry p Hry Hmax Hin) as H. lia.
Qed.

Lemma example_row_read :
  In (1, 1) (snd (FFTCC2D.search_ry1 Example.peak (Fin (1 / 2)) (Int.sub 2 1) (Int.sub 2 1))
             ++ snd (FFTCC2D.search_ry2 Example.peak (Fin (1 / 2)) (Int.sub 2 1) (Int.sub 2 1))).
Proof.
  apply in_or_app. left.
  change (Int.sub 2 1) with 1.
  unfold FFTCC2D.search_ry1. change (range 1) with [0].
  cbn [FFTCC2D.scan]. change (Int.add 1 0) with 1. change (Int.add 1 1) with 2.
  unfold FFTCC2D.crossing.
  destruct (F.gtb (Example.peak (fst (1, 1)) (snd (1, 1))) (Fin (1 / 2)));
    [destruct (F.leb (Example.peak (fst (2, 1)) (snd (2, 1))) (Fin (1 / 2))) |];
    cbn [fst snd app]; left; reflexivity.
Qed.

(** Radius 2 and the peak of the examples: row 1 is read. *)
Lemma y_search_reads_in_bounds_witness :
  (0 <= 2 /\ 2 * 2 <= Int.max_signed) /\ 0 <= fst (1, 1) <= 2 * 2 - 1.
Proof.
  assert (H : 0 <= 2 /\ 2 * 2 <= Int.max_signed) by (unfold Int.max_signed; lia).
  split; [exact H |].
  exact (proj2 (y_search_reads_in_bounds Example.peak (Fin (1 / 2)) 2 2 (1, 1)
                  (proj1 H) (proj2 H) example_row_read)).
Defined.

(** C8, as the claim has it, fails: there is no radius, matrix and ratio
    for which one of the two loops reads a row outside [[0, 2 ry - 1]]. *)
Lemma y_search_out_of_bounds_counterexample :
  ~ exists (subset_radius_x subset_radius_y : Z) (zncc_matrix : Z -> Z -> float)
           (half_peak_ratio : float) (p : Z * Z),
      0 <= subset_radius_y /\ 2 * subset_radius_y <= Int.max_signed /\
      In p (snd (FFTCC2D.search_ry1 zncc_matrix half_peak_ratio
                   (Int.sub subset_radius_x 1) (Int.sub subset_radius_y 1))
            ++ snd (FFTCC2D.search_ry2 zncc_matrix half_peak_ratio
                      (Int.sub subset_radius_x 1) (Int.sub subset_radius_y 1))) /\
      ~ (0 <= fst p <= 2 * subset_radius_y - 1).
Proof.
  intros [rx [ry [M [h [p [Hry [Hmax [Hin Hout]]]]]]]].
  apply Hout.
  pose proof (y_search_rows M h (Int.sub rx 1) ry p Hry Hmax Hin) as H. lia.
Qed.

Lemma crossing_taken (M : Z -> Z -> float) (h f1 f2 : R) (p1 p2 : Z * Z) (a1 a2 : Z) :
  M (fst p1) (snd p1) = Fin f1 -> M (fst p2) (snd p2) = Fin f2 ->
  (f1 > h)%R -> (f2 <= h)%R ->
  fst (FFTCC2D.crossing M (Fin h) p1 p2 a1 a2)
  = Some (Fin (IZR a2 - IZR (Int.sub a2 a1) * (h - f2) * (f1 - f2))).
Proof.
  intros H1 H2 Hgt Hle. unfold FFTCC2D.crossing.
  rewrite H1, H2, gtb_Fin_true by exact Hgt.
  replace (F.leb (Fin f2) (Fin h)) with true by (symmetry; apply leb_Fin; exact Hle).
  reflexivity.
Qed.

(** C7 at an input.  For radii [(2, 2)], ratio 1/2 and an autocorrelation
    that is 1 at the peak and 1/4 next to it, the code returns 13/8 along
    each axis; the crossings of the interpolating lines are 4/3 apart. *)
Theorem speckle_size_multiplies_by_the_drop :
  FFTCC2D.speckle_size Example.peak (Fin (1 / 2)) 2 2
  = Point2D.mk
      (Fin (2 - 1 * (1 / 2 - 1 / 4) * (1 - 1 / 4)
            - (0 - -1 * (1 / 2 - 1 / 4) * (1 - 1 / 4))))
      (Fin (2 - 1 * (1 / 2 - 1 / 4) * (1 - 1 / 4)
            - (0 - -1 * (1 / 2 - 1 / 4) * (1 - 1 / 4)))) /\
  (2 - 1 * (1 / 2 - 1 / 4) * (1 - 1 / 4)
   - (0 - -1 * (1 / 2 - 1 / 4) * (1 - 1 / 4)) = 13 / 8)%R /\
  (interpolated 1 2 1 (1 / 4) (1 / 2) - interpolated 1 0 1 (1 / 4) (1 / 2) = 4 / 3)%R.
Proof.
  split; [| split].
  - unfold FFTCC2D.speckle_size. change (Int.sub 2 1) with 1.
    unfold FFTCC2D.search_rx1, FFTCC2D.search_rx2,
           FFTCC2D.search_ry1, FFTCC2D.search_ry2.
    change (range 1) with [0]. cbn [FFTCC2D.scan].
    change (Int.add 1 0) with 1. change (Int.add 1 1) with 2.
    change (Int.sub 1 0) with 1. change (Int.sub 1 1) with 0.
    rewrite (crossing_taken Example.peak (1 / 2) 1 (1 / 4) (1, 1) (1, 2) 1 2
               eq_refl eq_refl) by lra.
    rewrite (crossing_taken Example.peak (1 / 2) 1 (1 / 4) (1, 1) (1, 0) 1 0
               eq_refl eq_refl) by lra.
    rewrite (crossing_taken Example.peak (1 / 2) 1 (1 / 4) (1, 1) (2, 1) 1 2
               eq_refl eq_refl) by lra.
    rewrite (crossing_taken Example.peak (1 / 2) 1 (1 / 4) (1, 1) (0, 1) 1 0
               eq_refl eq_refl) by lra.
    change (Int.sub 2 1) with 1. change (Int.sub 0 1) with (-1).
    cbn [fst F.sub F.lift2]. reflexivity.
  - lra.
  - unfold interpolated. simpl Z.sub. field.
Qed.

(** * Further properties of the code *)

(** ** The Hessian *)

Lemma F_mul_comm (a b : float) : F.mul a b = F.mul b a.
Proof.
  destruct a as [| x], b as [| y]; try reflexivity.
  unfold F.mul, F.lift2. f_equal. apply Rmult_comm.
Qed.

Lemma hessian_entry (P : nat) (sd_img : list (list float)) (i j : nat) :
  (i < P)%nat -> (j < P)%nat ->
  at2 (hessian P sd_img) i j
  = fold_left (fun h sd => F.add h (F.mul (nth i sd NaN) (nth j sd NaN)))
              sd_img (Fin 0).
Proof.
  intros Hi Hj. unfold at2, hessian.
  rewrite (nth_indep _ [] (map (fun j0 : nat =>
             fold_left (fun h sd => F.add h (F.mul (nth 0%nat sd NaN) (nth j0 sd NaN)))
                       sd_img (Fin 0)) (seq 0 P)))
    by (rewrite length_map, length_seq; exact Hi).
  rewrite (map_nth (fun i0 : nat => map (fun j0 : nat =>
             fold_left (fun h sd => F.add h (F.mul (nth i0 sd NaN) (nth j0 sd NaN)))
                       sd_img (Fin 0)) (seq 0 P)) (seq 0 P) 0%nat i).
  rewrite seq_nth by exact Hi. cbn [Nat.add].
  rewrite (nth_indep _ NaN (fold_left (fun h sd => F.add h (F.mul (nth i sd NaN) (nth 0%nat sd NaN)))
                       sd_img (Fin 0)))
    by (rewrite length_map, length_seq; exact Hj).
  rewrite (map_nth (fun j0 : nat =>
             fold_left (fun h sd => F.add h (F.mul (nth i sd NaN) (nth j0 sd NaN)))
                       sd_img (Fin 0)) (seq 0 P) 0%nat j).
  rewrite seq_nth by exact Hj. reflexivity.
Qed.

Lemma hessian_outside (P : nat) (sd_img : list (list float)) (i j : nat) :
  (P <= i)%nat \/ (P <= j)%nat -> at2 (hessian P sd_img) i j = NaN.
Proof.
  intros H. unfold at2.
  destruct (Nat.lt_ge_cases i P) as [Hi | Hi].
  - destruct H as [H | H]; [lia |].
    apply nth_overflow.
    unfold hessian.
    rewrite (nth_indep _ [] (map (fun j0 : nat =>
             fold_left (fun h sd => F.add h (F.mul (nth 0%nat sd NaN) (nth j0 sd NaN)))
                       sd_img (Fin 0)) (seq 0 P)))
      by (rewrite length_map, length_seq; exact Hi).
    rewrite (map_nth (fun i0 : nat => map (fun j0 : nat =>
             fold_left (fun h sd => F.add h (F.mul (nth i0 sd NaN) (nth j0 sd NaN)))
                       sd_img (Fin 0)) (seq 0 P)) (seq 0 P) 0%nat i).
    rewrite length_map, length_seq. exact H.
  - rewrite (nth_overflow (hessian P sd_img) []).
    + destruct j; reflexivity.
    + unfold hessian. rewrite length_map, length_seq. exact Hi.
Qed.

(** X1.  The Hessian that [compute] assembles from the steepest-descent
    rows is symmetric: [hessian(i, j) = hessian(j, i)] for all [i], [j],
    whatever the rows hold. *)
Theorem hessian_symmetric :
  forall (P : nat) (sd_img : list (list float)) (i j : nat),
  at2 (hessian P sd_img) i j = at2 (hessian P sd_img) j i.
Proof.
  intros P sd_img i j.
  destruct (Nat.lt_ge_cases i P) as [Hi | Hi];
    [destruct (Nat.lt_ge_cases j P) as [Hj | Hj] |].
  - rewrite !hessian_entry by assumption.
    generalize (Fin 0). induction sd_img as [| sd l IH]; intros a; [reflexivity |].
    cbn [fold_left]. rewrite (F_mul_comm (nth i sd NaN)). apply IH.
  - rewrite !hessian_outside by auto. reflexivity.
  - rewrite !hessian_outside by auto. reflexivity.
Qed.

Lemma rsum_ext {A : Type} (f g : A -> R) (l : list A) :
  (forall a, f a = g a) -> rsum f l = rsum g l.
Proof.
  intros H. induction l as [| a l IH]; [reflexivity |].
  cbn [rsum fold_right]. unfold rsum in IH. rewrite IH, H. reflexivity.
Qed.

Lemma rsum_plus {A : Type} (f g : A -> R) (l : list A) :
  rsum (fun a => f a + g a)%R l = (rsum f l + rsum g l)%R.
Proof.
  induction l as [| a l IH]; cbn [rsum fold_right]; [lra |].
  unfold rsum in IH. rewrite IH. lra.
Qed.

Lemma rsum_scale {A : Type} (c : R) (f : A -> R) (l : list A) :
  rsum (fun a => c * f a)%R l = (c * rsum f l)%R.
Proof.
  induction l as [| a l IH]; cbn [rsum fold_right]; [lra |].
  unfold rsum in IH. rewrite IH. lra.
Qed.

Lemma rsum_zero {A : Type} (l : list A) : rsum (fun _ => 0 * 0)%R l = 0%R.
Proof. induction l as [| a l IH]; cbn [rsum fold_right]; [reflexivity |]. unfold rsum in IH. rewrite IH. lra. Qed.

Lemma quadratic_rank_one (P : nat) (h : nat -> nat -> R) (v x : nat -> R) :
  quadratic P (fun i j => h i j + x i * x j)%R v
  = (quadratic P h v + rsum (fun i => v i * x i)%R (seq 0 P)
                       * rsum (fun i => v i * x i)%R (seq 0 P))%R.
Proof.
  unfold quadratic.
  rewrite <- rsum_scale, <- rsum_plus. apply rsum_ext. intros i.
  rewrite Rmult_comm, <- rsum_scale, <- rsum_plus. apply rsum_ext. intros j. ring.
Qed.

Lemma quadratic_fold (P : nat) (rows : list (list R)) (a : nat -> nat -> R)
    (v : nat -> R) :
  (quadratic P a v
   <= quadratic P
        (fun i j => fold_left (fun s row => s + nth i row 0 * nth j row 0) rows (a i j))
        v)%R.
Proof.
  revert a. induction rows as [| row rows IH]; intros a.
  - cbn [fold_left]. apply Rle_refl.
  - cbn [fold_left].
    specialize (IH (fun i j => a i j + nth i row 0 * nth j row 0)%R).
    cbv beta in IH. rewrite (quadratic_rank_one P a v (fun i => nth i row 0%R)) in IH.
    pose proof (Rle_0_sqr (rsum (fun i => v i * nth i row 0)%R (seq 0 P))) as Hsq.
    unfold Rsqr in Hsq. lra.
Qed.

Lemma quadratic_zero (P : nat) (v : nat -> R) : quadratic P (fun _ _ => 0%R) v = 0%R.
Proof.
  unfold quadratic.
  rewrite (rsum_ext _ (fun _ => 0 * 0)%R).
  - apply rsum_zero.
  - intros i. rewrite (rsum_ext _ (fun _ => 0 * 0)%R).
    + rewrite rsum_zero. lra.
    + intros j. ring.
Qed.

Lemma nth_fin (row : list R) (i : nat) :
  (i < length row)%nat -> nth i (map Fin row) NaN = Fin (nth i row 0%R).
Proof.
  intros Hi. rewrite (nth_indep _ NaN (Fin 0)) by (rewrite length_map; exact Hi).
  apply map_nth.
Qed.

Lemma hessian_fold_fin (P : nat) (rows : list (list R)) (i j : nat) (a0 : R) :
  Forall (fun row => (P <= length row)%nat) rows -> (i < P)%nat -> (j < P)%nat ->
  fold_left (fun h sd => F.add h (F.mul (nth i sd NaN) (nth j sd NaN)))
            (map (map Fin) rows) (Fin a0)
  = Fin (fold_left (fun s row => s + nth i row 0 * nth j row 0)%R rows a0).
Proof.
  intros Hrows Hi Hj. revert a0.
  induction Hrows as [| row rows Hrow _ IH]; intros a0; [reflexivity |].
  cbn [map fold_left]. rewrite !nth_fin by lia.
  change (F.add (Fin a0) (F.mul (Fin (nth i row 0%R)) (Fin (nth j row 0%R))))
    with (Fin (a0 + nth i row 0 * nth j row 0)%R).
  apply IH.
Qed.

(** X2.  Over the exact arithmetic of the idealised [float]: for
    steepest-descent rows of at least [P] finite entries, every
    entry of the Hessian is finite and the Hessian is positive
    semidefinite: its quadratic form is not negative at any vector. *)
Theorem hessian_positive_semidefinite :
  forall (P : nat) (rows : list (list R)),
  Forall (fun row => (P <= length row)%nat) rows ->
  exists h : nat -> nat -> R,
    (forall i j : nat, (i < P)%nat -> (j < P)%nat ->
       at2 (hessian P (map (map Fin) rows)) i j = Fin (h i j)) /\
    forall v : nat -> R, (0 <= quadratic P h v)%R.
Proof.
  intros P rows Hrows.
  exists (fun i j => fold_left (fun s row => s + nth i row 0 * nth j row 0)%R rows 0%R).
  split.
  - intros i j Hi Hj. rewrite hessian_entry by assumption.
    apply (hessian_fold_fin P); assumption.
  - intros v.
    pose proof (quadratic_fold P rows (fun _ _ => 0%R) v) as H.
    rewrite quadratic_zero in H. exact H.
Qed.

(** Two rows of two entries. *)
Lemma hessian_positive_semidefinite_witness :
  exists h : nat -> nat -> R,
    at2 (hessian 2 (map (map Fin) [[1; 2]; [3; 4]]%R)) 0 1 = Fin (h 0%nat 1%nat) /\
    (0 <= quadratic 2 h (fun i => nth i [1; -1]%R 0%R))%R.
Proof.
  destruct (hessian_positive_semidefinite 2 [[1; 2]; [3; 4]]%R) as [h [Hentry Hpsd]].
  - repeat constructor.
  - exists h. split; [apply Hentry; lia | apply Hpsd].
Defined.

(** ** The correlation criterion of a pass *)

Lemma squaredNorm_fin {A : Type} (g : A -> R) (l : list A) (a0 : R) :
  fold_left (fun s e => F.add s (F.mul e e)) (map (fun a => Fin (g a)) l) (Fin a0)
  = Fin (a0 + rsum (fun a => g a * g a)%R l).
Proof.
  revert a0. induction l as [| a l IH]; intros a0.
  - cbn [map fold_left rsum fold_right]. f_equal. lra.
  - cbn [map fold_left rsum fold_right].
    change (F.add (Fin a0) (F.mul (Fin (g a)) (Fin (g a)))) with (Fin (a0 + g a * g a)%R).
    rewrite IH. f_equal. unfold rsum. lra.
Qed.

Lemma combine_fin (pairs : list (R * R)) :
  combine (map (fun p => Fin (fst p)) pairs) (map (fun p => Fin (snd p)) pairs)
  = map (fun p => (Fin (fst p), Fin (snd p))) pairs.
Proof.
  induction pairs as [| p l IH]; [reflexivity |].
  cbn [map combine]. rewrite IH. reflexivity.
Qed.

Lemma rsum_error (c : R) (pairs : list (R * R)) :
  rsum (fun p => (fst p * c - snd p) * (fst p * c - snd p))%R pairs
  = (c * c * rsum (fun p => fst p * fst p) pairs
     - 2 * c * rsum (fun p => fst p * snd p) pairs
     + rsum (fun p => snd p * snd p) pairs)%R.
Proof.
  induction pairs as [| p l IH]; cbn [rsum fold_right]; [ring |].
  unfold rsum in IH. rewrite IH. ring.
Qed.

(** X3.  Over the exact arithmetic of the idealised [float]: in a pass
    of ICGN2D1 whose two subsets are finite and have the
    norms [rn] and [tn], both not 0, the [znssd] of lines 190-195 is
    [2 - 2 zncc] and the value stored in [result.zncc], [0.5 (2 - znssd)],
    is [zncc], where [zncc = sum (tar_i ref_i) / (rn tn)] is the zero-mean
    normalised cross-correlation of the two subsets. *)
Theorem znssd_is_zncc :
  forall (N : Numerics) (K : Collaborators2D) (D : Deformation2D1.methods)
         (est : ICGN2D1.t) (poi : POI2D.t) (pairs : list (R * R)) (rn tn : R)
         (sd_img : list (list float)) (inv_hessian : matrix) (s : ICGN2D1.loop),
  zeroMeanNorm N (ICGN2D1.reconstruct K D est poi (ICGN2D1.p_current s))
  = (map (fun p => Fin (fst p)) pairs, Fin tn) ->
  rn <> 0%R -> tn <> 0%R ->
  rsum (fun p => fst p * fst p)%R pairs = (tn * tn)%R ->
  rsum (fun p => snd p * snd p)%R pairs = (rn * rn)%R ->
  let s' := ICGN2D1.pass N K D est poi (map (fun p => Fin (snd p)) pairs) (Fin rn)
                         sd_img inv_hessian s in
  let zncc := (rsum (fun p => fst p * snd p) pairs / (rn * tn))%R in
  ICGN2D1.znssd s' = Fin (2 - 2 * zncc) /\
  Result2D.zncc (POI2D.result (ICGN2D1.store poi s')) = Fin zncc.
Proof.
  intros N K D est poi pairs rn tn sd_img inv_hessian s Htar Hrn Htn Ht Hr s' zncc.
  assert (Hz : ICGN2D1.znssd s' = Fin (2 - 2 * zncc)).
  { subst s'. unfold ICGN2D1.pass. cbn [ICGN2D1.znssd].
    change (map _ (ICGN2D1.points est))
      with (ICGN2D1.reconstruct K D est poi (ICGN2D1.p_current s)).
    rewrite Htar. cbn [fst snd].
    rewrite combine_fin, map_map. cbn [fst snd].
    rewrite (div_Fin rn tn Htn).
    change (fun x : R * R => F.sub (F.mul (Fin (fst x)) (Fin (rn / tn))) (Fin (snd x)))
      with (fun x : R * R => Fin (fst x * (rn / tn) - snd x)%R).
    unfold squaredNorm. rewrite squaredNorm_fin, rsum_error, Ht, Hr.
    change (F.mul (Fin rn) (Fin rn)) with (Fin (rn * rn)).
    rewrite div_Fin by (apply Rmult_integral_contrapositive; split; exact Hrn).
    f_equal. subst zncc. field. split; assumption. }
  split; [exact Hz |].
  unfold ICGN2D1.store. cbn [POI2D.result Result2D.zncc]. rewrite Hz.
  unfold half, F.of_int, F.mul, F.sub, F.lift2. f_equal. lra.
Qed.

Lemma example_row_points : ICGN2D1.points Example.icgn_row = [(0, 0); (0, 1); (0, 2)].
Proof. reflexivity. Qed.

Lemma example_row_target :
  zeroMeanNorm Example.numerics
    (ICGN2D1.reconstruct Example.ramp_collaborators Example.deformation2D1
       Example.icgn_row Example.poi_middle
       (ICGN2D1.p_current (ICGN2D1.start Example.deformation2D1 Example.poi_middle)))
  = (map (fun p => Fin (fst p)) Example.row_pairs, Fin (sqrt 2)).
Proof.
  unfold ICGN2D1.reconstruct. rewrite example_row_points.
  cbn [map fst snd Example.icgn_row ICGN2D1.new ICGN2D1.subset_radius_x
       ICGN2D1.subset_radius_y ICGN2D1.tar_img].
  change (Int.sub 0 1) with (-1). change (Int.sub 1 1) with 0.
  change (Int.sub 2 1) with 1. change (Int.sub 0 0) with 0.
  cbn [Example.ramp_collaborators bicubic].
  unfold Point2D.add. cbn [Point2D.x].
  unfold ICGN2D1.start. cbn [ICGN2D1.p_current].
  unfold Example.deformation2D1, Deformation2D1.new.
  cbn [Deformation2D1.warp Deformation2D1.setWarp Deformation2D1.warp_matrix
       Deformation2D1.ux Deformation2D1.uy Deformation2D1.u
       Deformation2D1.vx Deformation2D1.vy Deformation2D1.v
       POI2D.deformation Example.poi_middle Example.zero2D
       DeformationVector2D.u DeformationVector2D.ux DeformationVector2D.uy
       DeformationVector2D.v DeformationVector2D.vx DeformationVector2D.vy
       at2 nth Point2D.x Point2D.y POI2D.point POI2D.x POI2D.y].
  unfold F.of_int. cbn [F.add F.mul F.lift2].
  cbn [zeroMeanNorm Example.numerics]. unfold Example.zeroMeanNorm.
  cbn [length fold_left F.add F.lift2 Z.of_nat Pos.of_succ_nat Pos.succ].
  unfold F.of_int. rewrite div_Fin by lra.
  cbn [map F.sub F.lift2]. unfold squaredNorm.
  cbn [fold_left F.add F.mul F.lift2].
  rewrite sqrt_Fin by nra.
  unfold Example.row_pairs. cbn [map fst].
  f_equal; [f_equal; [f_equal; lra | f_equal; [f_equal; lra | f_equal; f_equal; lra]] |].
  f_equal. f_equal. field.
Qed.

Lemma example_row_norm :
  rsum (fun p => fst p * fst p)%R Example.row_pairs = (sqrt 2 * sqrt 2)%R /\
  rsum (fun p => snd p * snd p)%R Example.row_pairs = (sqrt 2 * sqrt 2)%R.
Proof.
  rewrite sqrt_def by lra.
  unfold rsum, Example.row_pairs. cbn [fold_right fst snd]. split; lra.
Qed.

(** The row of three pixels of the textured scene, whose norm is
    [sqrt 2]. *)
Lemma znssd_is_zncc_witness :
  sqrt 2 <> 0%R /\
  Result2D.zncc
    (POI2D.result
       (ICGN2D1.store Example.poi_middle
          (ICGN2D1.pass Example.numerics Example.ramp_collaborators
             Example.deformation2D1 Example.icgn_row Example.poi_middle
             (map (fun p => Fin (snd p)) Example.row_pairs) (Fin (sqrt 2)) [] []
             (ICGN2D1.start Example.deformation2D1 Example.poi_middle))))
  = Fin (rsum (fun p => fst p * snd p)%R Example.row_pairs / (sqrt 2 * sqrt 2)).
Proof.
  split; [exact sqrt2_neq_0 |].
  exact (proj2 (znssd_is_zncc Example.numerics Example.ramp_collaborators
                  Example.deformation2D1 Example.icgn_row Example.poi_middle
                  Example.row_pairs (sqrt 2) (sqrt 2) [] []
                  (ICGN2D1.start Example.deformation2D1 Example.poi_middle)
                  example_row_target sqrt2_neq_0 sqrt2_neq_0
                  (proj1 example_row_norm) (proj2 example_row_norm))).
Defined.

(** ** Subsets that match at the initial guess *)

Section DoWhileOnce.
Context {S : Type}.
Variable body : S -> S.
Variable continue : S -> bool.

Lemma do_while_once (s : S) (fuel : nat) :
  continue (body s) = false -> (1 <= fuel)%nat ->
  do_while body continue fuel s = Some (body s).
Proof.
  intros H Hfuel. destruct fuel as [| fuel]; [lia |].
  cbn [do_while]. rewrite H. reflexivity.
Qed.
End DoWhileOnce.

Lemma error_matched (r : list R) (rn : R) :
  rn <> 0%R ->
  map (fun tr => F.sub (F.mul (fst tr) (F.div (Fin rn) (Fin rn))) (snd tr))
      (combine (map Fin r) (map Fin r))
  = map (fun _ => Fin 0) r.
Proof.
  intros Hrn. rewrite (div_Fin rn rn Hrn).
  induction r as [| x r IH]; [reflexivity |].
  cbn [map combine fst snd]. rewrite IH. f_equal.
  unfold F.sub, F.mul, F.lift2. f_equal. field. exact Hrn.
Qed.

Lemma finite_is_Fin (a : float) : F.isnan a = false -> exists x, a = Fin x.
Proof. destruct a as [| x]; [discriminate | intros _; exists x; reflexivity]. Qed.

Lemma numerator_matched (i : nat) (sd_img : list (list float)) (A : Type) (l : list A) :
  (forall sd, In sd sd_img -> F.isnan (nth i sd NaN) = false) ->
  fold_left (fun n (se : list float * float) =>
               F.add n (F.mul (nth i (fst se) NaN) (snd se)))
            (combine sd_img (map (fun _ => Fin 0) l)) (Fin 0)
  = Fin 0.
Proof.
  revert l. induction sd_img as [| sd sd_img IH]; intros l H; [reflexivity |].
  destruct l as [| a l]; [reflexivity |].
  cbn [map combine fold_left fst snd].
  destruct (finite_is_Fin (nth i sd NaN)) as [g Hg]; [apply H; left; reflexivity |].
  rewrite Hg.
  replace (F.add (Fin 0) (F.mul (Fin g) (Fin 0))) with (Fin 0)
    by (unfold F.add, F.mul, F.lift2; f_equal; lra).
  apply IH. intros sd' Hin. apply H. right. exact Hin.
Qed.

Lemma increment_matched (inv_hessian : matrix) (i : nat) (l : list nat) :
  (forall j, In j l -> (j < 6)%nat) ->
  (forall j, (j < 6)%nat -> F.isnan (at2 inv_hessian i j) = false) ->
  fold_left (fun d j => F.add d (F.mul (at2 inv_hessian i j)
                                       (nth j (map (fun _ : nat => Fin 0) (seq 0 6)) NaN)))
            l (Fin 0)
  = Fin 0.
Proof.
  intros Hl Hfin. induction l as [| j l IH]; [reflexivity |].
  cbn [fold_left].
  destruct (finite_is_Fin (at2 inv_hessian i j)) as [a Ha];
    [apply Hfin, Hl; left; reflexivity |].
  rewrite Ha.
  assert (Hj : nth j (map (fun _ : nat => Fin 0) (seq 0 6)) NaN = Fin 0).
  { assert (j < 6)%nat as Hlt by (apply Hl; left; reflexivity).
    do 6 (destruct j as [| j]; [reflexivity |]). lia. }
  rewrite Hj.
  replace (F.add (Fin 0) (F.mul (Fin a) (Fin 0))) with (Fin 0)
    by (unfold F.add, F.mul, F.lift2; f_equal; lra).
  apply IH. intros j' Hin. apply Hl. right. exact Hin.
Qed.

Lemma dp_norm_zero (rx ry : Z) (W : matrix) :
  ICGN2D1.dp_norm rx ry
    (Deformation2D1.mk (Fin 0) (Fin 0) (Fin 0) (Fin 0) (Fin 0) (Fin 0) W)
  = Fin 0.
Proof.
  unfold ICGN2D1.dp_norm, F.of_int.
  cbn [Deformation2D1.u Deformation2D1.ux Deformation2D1.uy
       Deformation2D1.v Deformation2D1.vx Deformation2D1.vy F.add F.mul F.lift2].
  rewrite sqrt_Fin by lra. f_equal.
  etransitivity; [| apply sqrt_0]. f_equal. ring.
Qed.

Lemma sd_row_finite (K : Collaborators2D) (est : ICGN2D1.t) (poi : POI2D.t)
    (rc : Z * Z) (i : nat) :
  (forall y x : Z,
     F.isnan (gradient2D_x K (ICGN2D1.ref_img est) y x) = false /\
     F.isnan (gradient2D_y K (ICGN2D1.ref_img est) y x) = false) ->
  (i < 6)%nat ->
  F.isnan (nth i (ICGN2D1.sd_row K est poi rc) NaN) = false.
Proof.
  intros H Hi. unfold ICGN2D1.sd_row.
  set (y := Int.add (F.to_int (POI2D.y poi)) _).
  set (x := Int.add (F.to_int (POI2D.x poi)) _).
  destruct (H y x) as [Hx Hy].
  destruct (finite_is_Fin _ Hx) as [gx ->].
  destruct (finite_is_Fin _ Hy) as [gy ->].
  do 6 (destruct i as [| i]; [reflexivity |]). lia.
Qed.

(** X4.  Over the exact arithmetic of the idealised [float]: when the
    target subset reconstructed at the initial guess is,
    after [zeroMeanNorm], the reference subset with a norm that is not 0,
    the gradients and the inverse of the Hessian are finite and
    [conv_criterion] is positive, ICGN2D1's [compute] returns after one
    pass with [result.iteration = 1], [result.convergence = 0] and
    [result.zncc = 1]. *)
Theorem matched_subsets_converge_at_once :
  forall (N : Numerics) (K : Collaborators2D) (D : Deformation2D1.methods)
         (est : ICGN2D1.t) (tid : Z) (inst : ICGN2D1_.t) (poi : POI2D.t)
         (r : list R) (rn c : R) (fuel : nat),
  ICGN2D1.getInstance est tid = Got inst ->
  ICGN2D1.rejects est poi = false ->
  zeroMeanNorm N (fill2D K (ICGN2D1.ref_img est) (POI2D.point poi)
                         (ICGN2D1.subset_radius_x est) (ICGN2D1.subset_radius_y est))
  = (map Fin r, Fin rn) ->
  zeroMeanNorm N (ICGN2D1.reconstruct K D est poi
                    (ICGN2D1.p_current (ICGN2D1.start D poi)))
  = (map Fin r, Fin rn) ->
  rn <> 0%R ->
  (forall y x : Z,
     F.isnan (gradient2D_x K (ICGN2D1.ref_img est) y x) = false /\
     F.isnan (gradient2D_y K (ICGN2D1.ref_img est) y x) = false) ->
  (forall i j : nat, (i < 6)%nat -> (j < 6)%nat ->
     F.isnan (at2 (inverse N (hessian 6 (map (ICGN2D1.sd_row K est poi)
                                             (ICGN2D1.points est)))) i j) = false) ->
  ICGN2D1.conv_criterion est = Fin c -> (0 < c)%R ->
  (1 <= fuel)%nat ->
  let out := ICGN2D1.compute N K D est fuel tid poi in
  snd out = Returned /\
  Result2D.iteration (POI2D.result (fst out)) = F.of_int 1 /\
  Result2D.convergence (POI2D.result (fst out)) = Fin 0 /\
  Result2D.zncc (POI2D.result (fst out)) = Fin 1.
Proof.
  intros N K D est tid inst poi r rn c fuel
         Hinst Hrej Href Htar Hrn Hgrad Hinv Hconv Hc Hfuel out.
  set (s1 := ICGN2D1.body N K D est poi (ICGN2D1.start D poi)).
  assert (Hbody : ICGN2D1.znssd s1 = Fin 0 /\ ICGN2D1.dp_norm_max s1 = Fin 0).
  { subst s1. unfold ICGN2D1.body. rewrite Href. cbn [fst snd].
    unfold ICGN2D1.pass. cbn [ICGN2D1.znssd ICGN2D1.dp_norm_max].
    set (sd_img := map (ICGN2D1.sd_row K est poi) (ICGN2D1.points est)) in *.
    change (map _ (ICGN2D1.points est))
      with (ICGN2D1.reconstruct K D est poi (ICGN2D1.p_current (ICGN2D1.start D poi))).
    rewrite Htar. cbn [fst snd]. rewrite (error_matched r rn Hrn).
    split.
    - unfold squaredNorm.
      rewrite (squaredNorm_fin (fun _ : R => 0%R) r 0), rsum_zero.
      change (F.mul (Fin rn) (Fin rn)) with (Fin (rn * rn)).
      rewrite div_Fin by (apply Rmult_integral_contrapositive; split; exact Hrn).
      f_equal. field. exact Hrn.
    - assert (Hnum : numerator 6 sd_img (map (fun _ : R => Fin 0) r)
                     = map (fun _ : nat => Fin 0) (seq 0 6)).
      { unfold numerator. apply map_ext_in. intros i Hi. apply in_seq in Hi.
        apply numerator_matched. intros sd Hsd. subst sd_img.
        apply in_map_iff in Hsd. destruct Hsd as [rc [<- _]].
        apply sd_row_finite; [exact Hgrad | lia]. }
      rewrite Hnum.
      assert (Hdp : increment 6 (inverse N (hessian 6 sd_img))
                      (map (fun _ : nat => Fin 0) (seq 0 6))
                    = map (fun _ : nat => Fin 0) (seq 0 6)).
      { unfold increment. apply map_ext_in. intros i Hi. apply in_seq in Hi.
        apply increment_matched.
        - intros j Hj. apply in_seq in Hj. lia.
        - intros j Hj. apply Hinv; lia. }
      rewrite Hdp.
      unfold Deformation2D1.setDeformation_p, Deformation2D1.new.
      cbn [seq map nth]. apply dp_norm_zero. }
  destruct Hbody as [Hz Hd].
  assert (Hout : out = (ICGN2D1.store poi s1, Returned)).
  { subst out. unfold ICGN2D1.compute, ICGN2D1.iterate. rewrite Hinst, Hrej.
    rewrite do_while_once; [reflexivity | | exact Hfuel].
    fold s1. unfold ICGN2D1.continue. rewrite Hd, Hconv.
    replace (F.geb (Fin 0) (Fin c)) with false
      by (symmetry; unfold F.geb; apply leb_Fin_false; exact Hc).
    apply andb_false_r. }
  rewrite Hout. cbn [fst snd]. split; [reflexivity |].
  unfold ICGN2D1.store. cbn [POI2D.result Result2D.iteration Result2D.convergence
                             Result2D.zncc].
  split; [reflexivity |]. split; [exact Hd |].
  rewrite Hz. unfold half, F.of_int, F.mul, F.sub, F.lift2. f_equal. lra.
Qed.

Lemma example_row_passes : ICGN2D1.rejects Example.icgn_row Example.poi_middle = false.
Proof.
  destruct (ICGN2D1.rejects Example.icgn_row Example.poi_middle) eqn:H; [| reflexivity].
  apply (ICGN2D1_rejects_iff Example.icgn_row Example.poi_middle 50 50) in H.
  - destruct H as [H | [H | H]]; [| discriminate H | discriminate H].
    exfalso.
    cbn [Example.icgn_row ICGN2D1.new ICGN2D1.subset_radius_x ICGN2D1.subset_radius_y
         ICGN2D1.ref_img Example.ramp Image2D.width Image2D.height] in H.
    apply outside2D_iff in H; [| lia | lia]. lra.
  - unfold ready2D.
    cbn [Example.icgn_row ICGN2D1.new ICGN2D1.subset_radius_x ICGN2D1.subset_radius_y
         ICGN2D1.ref_img Example.ramp Image2D.width Image2D.height].
    unfold Int.max_signed. repeat split; lia.
Qed.

Lemma example_row_instance :
  ICGN2D1.getInstance Example.icgn_row 0 = Got (ICGN2D1_.allocate 1 0 0).
Proof. reflexivity. Qed.

Lemma example_row_reference :
  zeroMeanNorm Example.ramp_numerics
    (fill2D Example.ramp_collaborators (ICGN2D1.ref_img Example.icgn_row)
            (POI2D.point Example.poi_middle)
            (ICGN2D1.subset_radius_x Example.icgn_row)
            (ICGN2D1.subset_radius_y Example.icgn_row))
  = (map Fin [-1; 0; 1]%R, Fin (sqrt 2)).
Proof.
  cbn [Example.icgn_row ICGN2D1.new ICGN2D1.subset_radius_x ICGN2D1.subset_radius_y
       ICGN2D1.ref_img Example.ramp_collaborators fill2D].
  change (range (2 * 0 + 1)) with [0]. change (range (2 * 1 + 1)) with [0; 1; 2].
  cbn [flat_map map app POI2D.point Point2D.x Example.poi_middle POI2D.x].
  change (0 - 1) with (-1). change (1 - 1) with 0. change (2 - 1) with 1.
  unfold F.of_int. cbn [F.add F.lift2].
  cbn [zeroMeanNorm Example.ramp_numerics]. unfold Example.zeroMeanNorm.
  cbn [length fold_left F.add F.lift2 Z.of_nat Pos.of_succ_nat Pos.succ].
  unfold F.of_int. rewrite div_Fin by lra.
  cbn [map F.sub F.lift2]. unfold squaredNorm.
  cbn [fold_left F.add F.mul F.lift2].
  rewrite sqrt_Fin by nra.
  f_equal; [f_equal; [f_equal; lra | f_equal; [f_equal; lra | f_equal; f_equal; lra]] |].
  f_equal. f_equal. field.
Qed.

Lemma example_unit_inverse (m : matrix) (i j : nat) :
  (i < 6)%nat -> (j < 6)%nat -> F.isnan (at2 (Example.unit_inverse m) i j) = false.
Proof.
  intros Hi Hj.
  do 6 (destruct i as [| i]; [do 6 (destruct j as [| j]; [reflexivity |]); lia |]).
  lia.
Qed.

Lemma example_criterion : (0 < 1 / 1000)%R.
Proof. lra. Qed.

(** The textured scene, whose target and reference are the same image. *)
Lemma matched_subsets_converge_at_once_witness :
  sqrt 2 <> 0%R /\
  Result2D.zncc
    (POI2D.result
       (fst (ICGN2D1.compute Example.ramp_numerics Example.ramp_collaborators
               Example.deformation2D1 Example.icgn_row 1 0 Example.poi_middle)))
  = Fin 1.
Proof.
  split; [exact sqrt2_neq_0 |].
  exact (proj2 (proj2 (proj2
           (matched_subsets_converge_at_once
              Example.ramp_numerics Example.ramp_collaborators Example.deformation2D1
              Example.icgn_row 0 (ICGN2D1_.allocate 1 0 0) Example.poi_middle
              [-1; 0; 1]%R (sqrt 2) (1 / 1000) 1
              example_row_instance example_row_passes example_row_reference
              example_row_target sqrt2_neq_0
              (fun _ _ => conj eq_refl eq_refl)
              (fun i j Hi Hj => example_unit_inverse _ i j Hi Hj)
              eq_refl example_criterion (le_n 1))))).
Defined.

(** ** A stop condition that allows no second pass *)

(** X5.  When [stop_condition] is [NaN] or not above 1 (the test
    [1 < stop_condition] fails), the do-while of each of the three
    estimators makes exactly one pass on a POI that passes the boundary
    test: [compute] returns for any fuel from 1 on, with the state after
    the first pass stored and [result.iteration = 1]. *)
Theorem ICGN_single_pass :
  forall (N : Numerics) (K : Collaborators2D) (K3 : Collaborators3D)
         (D1 : Deformation2D1.methods) (D2 : Deformation2D2.methods)
         (D3 : Deformation3D1.methods)
         (e1 : ICGN2D1.t) (e2 : ICGN2D2.t) (e3 : ICGN3D1.t) (tid : Z)
         (i1 : ICGN2D1_.t) (i2 : ICGN2D2_.t) (i3 : ICGN3D1_.t)
         (poi : POI2D.t) (poi3 : POI3D.t) (fuel : nat),
  ICGN2D1.getInstance e1 tid = Got i1 ->
  ICGN2D2.getInstance e2 tid = Got i2 ->
  ICGN3D1.getInstance e3 tid = Got i3 ->
  ICGN2D1.rejects e1 poi = false ->
  ICGN2D2.rejects e2 poi = false ->
  ICGN3D1.rejects e3 poi3 = false ->
  F.ltb (F.of_int 1) (ICGN2D1.stop_condition e1) = false ->
  F.ltb (F.of_int 1) (ICGN2D2.stop_condition e2) = false ->
  F.ltb (F.of_int 1) (ICGN3D1.stop_condition e3) = false ->
  (1 <= fuel)%nat ->
  (ICGN2D1.compute N K D1 e1 fuel tid poi
   = (ICGN2D1.store poi (ICGN2D1.after N K D1 e1 poi 1), Returned) /\
   Result2D.iteration (POI2D.result (fst (ICGN2D1.compute N K D1 e1 fuel tid poi)))
   = F.of_int 1) /\
  (ICGN2D2.compute N K D1 D2 e2 fuel tid poi
   = (ICGN2D2.store poi (ICGN2D2.after N K D1 D2 e2 poi 1), Returned) /\
   Result2D.iteration (POI2D.result (fst (ICGN2D2.compute N K D1 D2 e2 fuel tid poi)))
   = F.of_int 1) /\
  (ICGN3D1.compute N K3 D3 e3 fuel tid poi3
   = (ICGN3D1.store poi3 (ICGN3D1.after N K3 D3 e3 poi3 1), Returned) /\
   Result3D.iteration (POI3D.result (fst (ICGN3D1.compute N K3 D3 e3 fuel tid poi3)))
   = F.of_int 1).
Proof.
  intros N K K3 D1 D2 D3 e1 e2 e3 tid i1 i2 i3 poi poi3 fuel
         Hi1 Hi2 Hi3 Hr1 Hr2 Hr3 Hs1 Hs2 Hs3 Hfuel.
  split; [| split].
  - assert (H : ICGN2D1.compute N K D1 e1 fuel tid poi
                = (ICGN2D1.store poi (ICGN2D1.after N K D1 e1 poi 1), Returned)).
    { unfold ICGN2D1.compute, ICGN2D1.iterate. rewrite Hi1, Hr1.
      rewrite do_while_once; [reflexivity | | exact Hfuel].
      unfold ICGN2D1.continue.
      change (ICGN2D1.iteration (ICGN2D1.body N K D1 e1 poi (ICGN2D1.start D1 poi)))
        with 1.
      rewrite Hs1. reflexivity. }
    split; [exact H | rewrite H; reflexivity].
  - assert (H : ICGN2D2.compute N K D1 D2 e2 fuel tid poi
                = (ICGN2D2.store poi (ICGN2D2.after N K D1 D2 e2 poi 1), Returned)).
    { unfold ICGN2D2.compute, ICGN2D2.iterate. rewrite Hi2, Hr2.
      rewrite do_while_once; [reflexivity | | exact Hfuel].
      unfold ICGN2D2.continue.
      change (ICGN2D2.iteration (ICGN2D2.body N K D2 e2 poi (ICGN2D2.start D1 D2 poi)))
        with 1.
      rewrite Hs2. reflexivity. }
    split; [exact H | rewrite H; reflexivity].
  - assert (H : ICGN3D1.compute N K3 D3 e3 fuel tid poi3
                = (ICGN3D1.store poi3 (ICGN3D1.after N K3 D3 e3 poi3 1), Returned)).
    { unfold ICGN3D1.compute, ICGN3D1.iterate. rewrite Hi3, Hr3.
      rewrite do_while_once; [reflexivity | | exact Hfuel].
      unfold ICGN3D1.continue.
      change (ICGN3D1.iteration (ICGN3D1.body N K3 D3 e3 poi3 (ICGN3D1.start D3 poi3)))
        with 1.
      rewrite Hs3. reflexivity. }
    split; [exact H | rewrite H; reflexivity].
Qed.

Lemma example_no_second_pass : F.ltb (F.of_int 1) (F.of_int 0) = false.
Proof. unfold F.of_int. apply ltb_Fin_false. lra. Qed.

(** [stop_condition = 0], set with [setIteration]. *)
Lemma ICGN_single_pass_witness :
  Result2D.iteration
    (POI2D.result
       (fst (ICGN2D1.compute Example.numerics Example.collaborators2D
               Example.deformation2D1
               (ICGN2D1.setIteration Example.icgn1 (Fin (1 / 1000)) (F.of_int 0))
               1 0 Example.poi_middle)))
  = F.of_int 1.
Proof.
  exact (proj2 (proj1 (ICGN_single_pass
           Example.numerics Example.collaborators2D Example.collaborators3D
           Example.deformation2D1 Example.deformation2D2 Example.deformation3D1
           (ICGN2D1.setIteration Example.icgn1 (Fin (1 / 1000)) (F.of_int 0))
           (ICGN2D2.setIteration Example.icgn2 (Fin (1 / 1000)) (F.of_int 0))
           (ICGN3D1.setIteration Example.icgn3 (Fin (1 / 1000)) (F.of_int 0))
           0
           (ICGN2D1_.allocate 16 16 0) (ICGN2D2_.allocate 16 16 0)
           (ICGN3D1_.allocate 8 8 8 0)
           Example.poi_middle Example.poi3_middle 1
           example_instance1 example_instance2 example_instance3
           example_passes1 example_passes2 example_passes3
           example_no_second_pass example_no_second_pass example_no_second_pass
           (le_n 1)))).
Defined.

(** ** The settings taken from a POI *)

Lemma ceil_IZR (z : Z) : ceil (IZR z) = z.
Proof. unfold ceil. rewrite <- opp_IZR, up_IZR. lia. Qed.

(** X6.  [setIteration(poi)] on the POI that [compute] has returned
    after [n] passes sets [stop_condition] to [n], the count surviving
    the [(int)] cast, and [conv_criterion] to the last norm; with these
    settings [compute] returns on any POI that passes the boundary test
    after [n] passes at most. *)
Theorem setIteration_from_a_result :
  forall (N : Numerics) (K : Collaborators2D) (D : Deformation2D1.methods)
         (est : ICGN2D1.t) (tid : Z) (inst : ICGN2D1_.t) (poi : POI2D.t) (s : R),
  ICGN2D1.getInstance est tid = Got inst ->
  ICGN2D1.rejects est poi = false ->
  ICGN2D1.stop_condition est = Fin s ->
  (1 <= s <= IZR Int.max_signed)%R ->
  exists n : nat,
    (1 <= n)%nat /\
    (forall fuel : nat, (n <= fuel)%nat ->
       ICGN2D1.compute N K D est fuel tid poi
       = (ICGN2D1.store poi (ICGN2D1.after N K D est poi n), Returned)) /\
    let est' := ICGN2D1.setIteration_poi est
                  (ICGN2D1.store poi (ICGN2D1.after N K D est poi n)) in
    ICGN2D1.stop_condition est' = F.of_int (Z.of_nat n) /\
    ICGN2D1.conv_criterion est'
    = ICGN2D1.dp_norm_max (ICGN2D1.after N K D est poi n) /\
    forall poi' : POI2D.t,
      ICGN2D1.rejects est poi' = false ->
      exists n' : nat,
        (1 <= n' <= n)%nat /\
        forall fuel : nat, (n' <= fuel)%nat ->
          ICGN2D1.compute N K D est' fuel tid poi'
          = (ICGN2D1.store poi' (ICGN2D1.after N K D est' poi' n'), Returned).
Proof.
  intros N K D est tid inst poi s Hinst Hrej Hs Hrange.
  destruct (ICGN2D1_loop N K D est poi s Hs Hrange)
    as [n [[Hn1 _] [Hceil [Hcount Hrun]]]].
  assert (Hmax : Z.of_nat n <= Int.max_signed).
  { pose proof (ceil_spec s) as [Hc _].
    assert (ceil s - 1 < Int.max_signed); [| lia].
    apply lt_IZR. rewrite minus_IZR. lra. }
  exists n. split; [exact Hn1 |]. split.
  - intros fuel Hfuel. unfold ICGN2D1.compute.
    rewrite Hinst, Hrej, (Hrun fuel Hfuel). reflexivity.
  - cbv zeta.
    assert (Hstop : ICGN2D1.stop_condition
                      (ICGN2D1.setIteration_poi est
                         (ICGN2D1.store poi (ICGN2D1.after N K D est poi n)))
                    = F.of_int (Z.of_nat n)).
    { unfold ICGN2D1.setIteration_poi, ICGN2D1.setIteration, ICGN2D1.store.
      cbn [ICGN2D1.stop_condition POI2D.result Result2D.iteration].
      rewrite Hcount, to_int_of_int; [reflexivity |].
      unfold Int.in_range, Int.min_signed. lia. }
    split; [exact Hstop |]. split; [reflexivity |].
    intros poi' Hrej'.
    destruct (ICGN2D1_loop N K D
                (ICGN2D1.setIteration_poi est
                   (ICGN2D1.store poi (ICGN2D1.after N K D est poi n)))
                poi' (IZR (Z.of_nat n)) Hstop)
      as [n' [[Hn1' _] [Hceil' [_ Hrun']]]].
    { split; [apply IZR_le; lia | apply IZR_le; exact Hmax]. }
    rewrite ceil_IZR in Hceil'.
    exists n'. split; [lia |].
    intros fuel Hfuel. unfold ICGN2D1.compute.
    change (ICGN2D1.getInstance
              (ICGN2D1.setIteration_poi est
                 (ICGN2D1.store poi (ICGN2D1.after N K D est poi n))) tid)
      with (ICGN2D1.getInstance est tid).
    change (ICGN2D1.rejects
              (ICGN2D1.setIteration_poi est
                 (ICGN2D1.store poi (ICGN2D1.after N K D est poi n))) poi')
      with (ICGN2D1.rejects est poi').
    rewrite Hinst, Hrej', (Hrun' fuel Hfuel). reflexivity.
Qed.

(** The textureless scene with the settings of the sample. *)
Lemma setIteration_from_a_result_witness :
  exists n : nat,
    (1 <= n)%nat /\
    ICGN2D1.stop_condition
      (ICGN2D1.setIteration_poi Example.icgn1
         (ICGN2D1.store Example.poi_middle
            (ICGN2D1.after Example.numerics Example.collaborators2D
               Example.deformation2D1 Example.icgn1 Example.poi_middle n)))
    = F.of_int (Z.of_nat n).
Proof.
  destruct (setIteration_from_a_result
              Example.numerics Example.collaborators2D Example.deformation2D1
              Example.icgn1 0 (ICGN2D1_.allocate 16 16 0) Example.poi_middle 10
              example_instance1 example_passes1 eq_refl example_stop_range)
    as [n [Hn [_ [Hstop _]]]].
  exists n. split; [exact Hn | exact Hstop].
Defined.

(** ** What the ICGN estimators leave as it was *)

(** X7.  Whatever the outcome of the call, [compute] of the three
    estimators leaves the coordinates of the POI as they were, and
    ICGN2D1 leaves the six second-order components of the deformation;
    ICGN2D1 records the initial guess [(u, v)] in [result.u0] and
    [result.v0] exactly when it returns from the iteration, and leaves
    them otherwise. *)
Theorem ICGN_compute_frame :
  forall (N : Numerics) (K : Collaborators2D) (K3 : Collaborators3D)
         (D1 : Deformation2D1.methods) (D2 : Deformation2D2.methods)
         (D3 : Deformation3D1.methods)
         (e1 : ICGN2D1.t) (e2 : ICGN2D2.t) (e3 : ICGN3D1.t)
         (fuel : nat) (tid : Z) (poi : POI2D.t) (poi3 : POI3D.t),
  let out1 := ICGN2D1.compute N K D1 e1 fuel tid poi in
  let out2 := ICGN2D2.compute N K D1 D2 e2 fuel tid poi in
  let out3 := ICGN3D1.compute N K3 D3 e3 fuel tid poi3 in
  let d := POI2D.deformation poi in
  let d1 := POI2D.deformation (fst out1) in
  (POI2D.x (fst out1) = POI2D.x poi /\ POI2D.y (fst out1) = POI2D.y poi /\
   DeformationVector2D.uxx d1 = DeformationVector2D.uxx d /\
   DeformationVector2D.uxy d1 = DeformationVector2D.uxy d /\
   DeformationVector2D.uyy d1 = DeformationVector2D.uyy d /\
   DeformationVector2D.vxx d1 = DeformationVector2D.vxx d /\
   DeformationVector2D.vxy d1 = DeformationVector2D.vxy d /\
   DeformationVector2D.vyy d1 = DeformationVector2D.vyy d /\
   Result2D.u0 (POI2D.result (fst out1))
   = (if ICGN2D1.rejects e1 poi then Result2D.u0 (POI2D.result poi)
      else match snd out1 with
           | Returned => DeformationVector2D.u d
           | _ => Result2D.u0 (POI2D.result poi)
           end) /\
   Result2D.v0 (POI2D.result (fst out1))
   = (if ICGN2D1.rejects e1 poi then Result2D.v0 (POI2D.result poi)
      else match snd out1 with
           | Returned => DeformationVector2D.v d
           | _ => Result2D.v0 (POI2D.result poi)
           end)) /\
  (POI2D.x (fst out2) = POI2D.x poi /\ POI2D.y (fst out2) = POI2D.y poi) /\
  (POI3D.x (fst out3) = POI3D.x poi3 /\ POI3D.y (fst out3) = POI3D.y poi3 /\
   POI3D.z (fst out3) = POI3D.z poi3).
Proof.
  intros N K K3 D1 D2 D3 e1 e2 e3 fuel tid poi poi3. cbv zeta.
  split; [| split].
  - unfold ICGN2D1.compute.
    destruct (ICGN2D1.getInstance e1 tid) as [inst | msg |];
      destruct (ICGN2D1.rejects e1 poi);
      try destruct (ICGN2D1.iterate N K D1 e1 fuel poi);
      cbn [fst snd]; repeat split; reflexivity.
  - unfold ICGN2D2.compute.
    destruct (ICGN2D2.getInstance e2 tid) as [inst | msg |];
      destruct (ICGN2D2.rejects e2 poi);
      try destruct (ICGN2D2.iterate N K D1 D2 e2 fuel poi);
      cbn [fst snd]; repeat split; reflexivity.
  - unfold ICGN3D1.compute.
    destruct (ICGN3D1.getInstance e3 tid) as [inst | msg |];
      destruct (ICGN3D1.rejects e3 poi3);
      try destruct (ICGN3D1.iterate N K3 D3 e3 fuel poi3);
      cbn [fst snd]; repeat split; reflexivity.
Qed.

(** ** The boundary test and the reads of the gradient *)

Lemma to_int_floor (r : R) :
  (0 <= r <= IZR Int.max_signed)%R ->
  0 <= F.to_int (Fin r) <= Int.max_signed /\
  (IZR (F.to_int (Fin r)) <= r < IZR (F.to_int (Fin r)) + 1)%R.
Proof.
  intros [H0 Hmax]. unfold F.to_int.
  destruct (Rle_dec 0 r) as [_ | H]; [| lra].
  destruct (archimed r) as [H1 H2].
  assert (Hlow : 1 <= up r).
  { assert (0 < up r); [| lia]. apply lt_IZR. lra. }
  assert (Hhigh : up r - 1 <= Int.max_signed).
  { apply le_IZR. rewrite minus_IZR. lra. }
  rewrite wrap_in_range by (unfold Int.in_range, Int.min_signed in *; lia).
  split; [lia |]. rewrite minus_IZR. lra.
Qed.

(** One axis: a centre [x] whose subset of radius [rr] is inside
    [0 .. dim - 1], and the position of the point [c] of the subset. *)
Lemma axis_in_bounds (x : R) (rr dim c : Z) :
  0 <= rr -> 0 <= dim <= Int.max_signed ->
  (0 <= x - IZR rr)%R -> (x + IZR rr <= IZR dim - 1)%R ->
  0 <= c < Int.add (Int.mul 2 rr) 1 ->
  0 <= Int.add (F.to_int (Fin x)) (Int.sub c rr) <= dim - 1.
Proof.
  intros Hrr Hdim Hlow Hhigh Hc.
  assert (Hmin : Int.min_signed = - 2147483648) by reflexivity.
  assert (Hmax : Int.max_signed = 2147483647) by reflexivity.
  assert (Hr0 : (0 <= IZR rr)%R) by (apply IZR_le; exact Hrr).
  assert (Hdm : (IZR dim <= IZR Int.max_signed)%R) by (apply IZR_le; lia).
  destruct (to_int_floor x) as [[Hn0 Hnmax] [Hn1 Hn2]]; [lra |].
  set (n := F.to_int (Fin x)) in *.
  assert (Hrn : rr <= n).
  { assert (rr < n + 1); [| lia]. apply lt_IZR. rewrite plus_IZR. lra. }
  assert (Hnd : n + rr <= dim - 1).
  { apply le_IZR. rewrite plus_IZR, minus_IZR. lra. }
  assert (Hw : Int.add (Int.mul 2 rr) 1 = 2 * rr + 1).
  { unfold Int.add, Int.mul.
    rewrite (wrap_in_range (2 * rr)) by (unfold Int.in_range; lia).
    apply wrap_in_range. unfold Int.in_range. lia. }
  rewrite Hw in Hc.
  unfold Int.add, Int.sub.
  rewrite (wrap_in_range (c - rr)) by (unfold Int.in_range; lia).
  rewrite wrap_in_range by (unfold Int.in_range; lia).
  lia.
Qed.

Lemma grid_point (w h : Z) (rc : Z * Z) :
  In rc (flat_map (fun r => map (fun c => (r, c)) (range w)) (range h)) ->
  0 <= fst rc < h /\ 0 <= snd rc < w.
Proof.
  intros H. apply in_flat_map in H. destruct H as [r [Hr H]].
  apply in_map_iff in H. destruct H as [c [<- Hc]].
  apply in_range_iff in Hr, Hc. cbn [fst snd]. lia.
Qed.

Lemma grid_point3 (dx dy dz : Z) (ijk : Z * Z * Z) :
  In ijk (flat_map (fun i =>
            flat_map (fun j => map (fun k => (i, j, k)) (range dx)) (range dy))
            (range dz)) ->
  0 <= fst (fst ijk) < dz /\ 0 <= snd (fst ijk) < dy /\ 0 <= snd ijk < dx.
Proof.
  intros H. apply in_flat_map in H. destruct H as [i [Hi H]].
  apply in_flat_map in H. destruct H as [j [Hj H]].
  apply in_map_iff in H. destruct H as [k [<- Hk]].
  apply in_range_iff in Hi, Hj, Hk. cbn [fst snd]. lia.
Qed.

(** X8.  The boundary test is enough for the reads of the gradient: for
    radii that are not negative, an image whose sizes are [int]s and a
    POI at a finite position that the test lets through, every position
    [(y_global, x_global)] at which the three estimators read the
    reference gradient for a point of the subset lies inside the image
    (the volume, with [z_global], in 3D). *)
Theorem boundary_test_keeps_gradient_reads_inside :
  forall (K : Collaborators2D) (K3 : Collaborators3D)
         (e1 : ICGN2D1.t) (e2 : ICGN2D2.t) (e3 : ICGN3D1.t)
         (poi : POI2D.t) (poi3 : POI3D.t) (x y x3 y3 z3 : R)
         (rc : Z * Z) (ijk : Z * Z * Z),
  ready2D (ICGN2D1.subset_radius_x e1) (ICGN2D1.subset_radius_y e1)
          (ICGN2D1.ref_img e1) poi x y ->
  ready2D (ICGN2D2.subset_radius_x e2) (ICGN2D2.subset_radius_y e2)
          (ICGN2D2.ref_img e2) poi x y ->
  ready3D (ICGN3D1.subset_radius_x e3) (ICGN3D1.subset_radius_y e3)
          (ICGN3D1.subset_radius_z e3) (ICGN3D1.ref_img e3) poi3 x3 y3 z3 ->
  ICGN2D1.rejects e1 poi = false ->
  ICGN2D2.rejects e2 poi = false ->
  ICGN3D1.rejects e3 poi3 = false ->
  In rc (ICGN2D1.points e1) -> In rc (ICGN2D2.points e2) ->
  In ijk (ICGN3D1.points e3) ->
  (exists x_global y_global : Z,
     nth 0 (ICGN2D1.sd_row K e1 poi rc) NaN
     = gradient2D_x K (ICGN2D1.ref_img e1) y_global x_global /\
     0 <= x_global <= Image2D.width (ICGN2D1.ref_img e1) - 1 /\
     0 <= y_global <= Image2D.height (ICGN2D1.ref_img e1) - 1) /\
  (exists x_global y_global : Z,
     nth 0 (ICGN2D2.sd_row K e2 poi rc) NaN
     = gradient2D_x K (ICGN2D2.ref_img e2) y_global x_global /\
     0 <= x_global <= Image2D.width (ICGN2D2.ref_img e2) - 1 /\
     0 <= y_global <= Image2D.height (ICGN2D2.ref_img e2) - 1) /\
  (exists x_global y_global z_global : Z,
     nth 0 (ICGN3D1.sd_row K3 e3 poi3 ijk) NaN
     = gradient3D_x K3 (ICGN3D1.ref_img e3) z_global y_global x_global /\
     0 <= x_global <= Image3D.dim_x (ICGN3D1.ref_img e3) - 1 /\
     0 <= y_global <= Image3D.dim_y (ICGN3D1.ref_img e3) - 1 /\
     0 <= z_global <= Image3D.dim_z (ICGN3D1.ref_img e3) - 1).
Proof.
  intros K K3 e1 e2 e3 poi poi3 x y x3 y3 z3 rc ijk
         Hready1 Hready2 Hready3 Hrej1 Hrej2 Hrej3 Hin1 Hin2 Hin3.
  split; [| split].
  - pose proof Hready1 as [Hrx [Hry [Hw [Hh [Hx Hy]]]]].
    assert (Hinside : ~ subset_outside2D (ICGN2D1.subset_radius_x e1)
                        (ICGN2D1.subset_radius_y e1)
                        (Image2D.width (ICGN2D1.ref_img e1))
                        (Image2D.height (ICGN2D1.ref_img e1)) x y).
    { intros Hout.
      pose proof (proj2 (ICGN2D1_rejects_iff e1 poi x y Hready1) (or_introl Hout)).
      congruence. }
    rewrite outside2D_iff in Hinside by assumption.
    apply grid_point in Hin1. destruct Hin1 as [Hr Hc].
    exists (Int.add (F.to_int (POI2D.x poi)) (Int.sub (snd rc) (ICGN2D1.subset_radius_x e1))),
           (Int.add (F.to_int (POI2D.y poi)) (Int.sub (fst rc) (ICGN2D1.subset_radius_y e1))).
    split; [reflexivity |]. rewrite Hx, Hy.
    split; apply axis_in_bounds; [exact Hrx | exact Hw | lra | lra | exact Hc
                                 | exact Hry | exact Hh | lra | lra | exact Hr].
  - pose proof Hready2 as [Hrx [Hry [Hw [Hh [Hx Hy]]]]].
    assert (Hinside : ~ subset_outside2D (ICGN2D2.subset_radius_x e2)
                        (ICGN2D2.subset_radius_y e2)
                        (Image2D.width (ICGN2D2.ref_img e2))
                        (Image2D.height (ICGN2D2.ref_img e2)) x y).
    { intros Hout.
      pose proof (proj2 (ICGN2D2_rejects_iff e2 poi x y Hready2) (or_introl Hout)).
      congruence. }
    rewrite outside2D_iff in Hinside by assumption.
    apply grid_point in Hin2. destruct Hin2 as [Hr Hc].
    exists (Int.add (F.to_int (POI2D.x poi)) (Int.sub (snd rc) (ICGN2D2.subset_radius_x e2))),
           (Int.add (F.to_int (POI2D.y poi)) (Int.sub (fst rc) (ICGN2D2.subset_radius_y e2))).
    split; [reflexivity |]. rewrite Hx, Hy.
    split; apply axis_in_bounds; [exact Hrx | exact Hw | lra | lra | exact Hc
                                 | exact Hry | exact Hh | lra | lra | exact Hr].
  - pose proof Hready3 as [Hrx [Hry [Hrz [Hdx [Hdy [Hdz [Hx [Hy Hz]]]]]]]].
    assert (Hinside : ~ subset_outside3D (ICGN3D1.subset_radius_x e3)
                        (ICGN3D1.subset_radius_y e3) (ICGN3D1.subset_radius_z e3)
                        (Image3D.dim_x (ICGN3D1.ref_img e3))
                        (Image3D.dim_y (ICGN3D1.ref_img e3))
                        (Image3D.dim_z (ICGN3D1.ref_img e3)) x3 y3 z3).
    { intros Hout.
      pose proof (proj2 (ICGN3D1_rejects_iff e3 poi3 x3 y3 z3 Hready3) Hout).
      congruence. }
    rewrite outside3D_iff in Hinside by assumption.
    apply grid_point3 in Hin3. destruct Hin3 as [Hi [Hj Hk]].
    exists (Int.add (F.to_int (POI3D.x poi3))
                    (Int.sub (snd ijk) (ICGN3D1.subset_radius_x e3))),
           (Int.add (F.to_int (POI3D.y poi3))
                    (Int.sub (snd (fst ijk)) (ICGN3D1.subset_radius_y e3))),
           (Int.add (F.to_int (POI3D.z poi3))
                    (Int.sub (fst (fst ijk)) (ICGN3D1.subset_radius_z e3))).
    split; [reflexivity |]. rewrite Hx, Hy, Hz.
    split; [| split]; apply axis_in_bounds;
      [exact Hrx | exact Hdx | lra | lra | exact Hk
       | exact Hry | exact Hdy | lra | lra | exact Hj
       | exact Hrz | exact Hdz | lra | lra | exact Hi].
Qed.

Lemma example_first_point1 : In (0, 0) (ICGN2D1.points Example.icgn1).
Proof.
  unfold ICGN2D1.points. apply in_flat_map. exists 0.
  split; [| apply in_map]; apply in_range_iff.
  - change (ICGN2D1.subset_height Example.icgn1) with 33. lia.
  - change (ICGN2D1.subset_width Example.icgn1) with 33. lia.
Qed.

Lemma example_first_point2 : In (0, 0) (ICGN2D2.points Example.icgn2).
Proof.
  unfold ICGN2D2.points. apply in_flat_map. exists 0.
  split; [| apply in_map]; apply in_range_iff.
  - change (ICGN2D2.subset_height Example.icgn2) with 33. lia.
  - change (ICGN2D2.subset_width Example.icgn2) with 33. lia.
Qed.

Lemma example_first_point3 : In (0, 0, 0) (ICGN3D1.points Example.icgn3).
Proof.
  unfold ICGN3D1.points. apply in_flat_map. exists 0.
  split; [apply in_range_iff; change (ICGN3D1.subset_dim_z Example.icgn3) with 17; lia |].
  apply in_flat_map. exists 0.
  split; [apply in_range_iff; change (ICGN3D1.subset_dim_y Example.icgn3) with 17; lia |].
  apply in_map, in_range_iff. change (ICGN3D1.subset_dim_x Example.icgn3) with 17. lia.
Qed.

(** The POI in the middle of the textureless scene and the first point
    of its subset. *)
Lemma boundary_test_keeps_gradient_reads_inside_witness :
  exists x_global y_global : Z,
    nth 0 (ICGN2D1.sd_row Example.collaborators2D Example.icgn1 Example.poi_middle (0, 0))
        NaN
    = gradient2D_x Example.collaborators2D (ICGN2D1.ref_img Example.icgn1)
                   y_global x_global /\
    0 <= x_global <= Image2D.width (ICGN2D1.ref_img Example.icgn1) - 1 /\
    0 <= y_global <= Image2D.height (ICGN2D1.ref_img Example.icgn1) - 1.
Proof.
  exact (proj1 (boundary_test_keeps_gradient_reads_inside
                  Example.collaborators2D Example.collaborators3D
                  Example.icgn1 Example.icgn2 Example.icgn3
                  Example.poi_middle Example.poi3_middle 50 50 32 32 32
                  (0, 0) (0, 0, 0)
                  example_ready_middle example_ready_middle example_ready3_middle
                  example_passes1 example_passes2 example_passes3
                  example_first_point1 example_first_point2 example_first_point3)).
Defined.

(** ** FFT-CC: the cross spectrum, the mean and the peak *)

(** X9.  The product of lines 283-286 is the conjugate of the reference
    value times the target value: exchanging the two conjugates it, and on
    equal finite values, as in [determineSpeckleSize], it is the squared
    modulus with imaginary part 0. *)
Theorem cross_conjugate :
  forall (a b : FFTW.complex) (x y : R),
  fst (FFTCC2D.cross b a) = fst (FFTCC2D.cross a b) /\
  snd (FFTCC2D.cross b a) = F.sub (Fin 0) (snd (FFTCC2D.cross a b)) /\
  FFTCC2D.cross (Fin x, Fin y) (Fin x, Fin y) = (Fin (x * x + y * y), Fin 0).
Proof.
  intros [a1 a2] [b1 b2] x y. unfold FFTCC2D.cross. cbn [fst snd].
  split; [| split].
  - destruct a1, a2, b1, b2; try reflexivity.
    unfold F.add, F.mul, F.lift2. f_equal. ring.
  - destruct a1, a2, b1, b2; try reflexivity.
    unfold F.sub, F.mul, F.lift2. f_equal. ring.
  - unfold F.add, F.sub, F.mul, F.lift2. f_equal. f_equal. ring.
Qed.

Lemma sum_fin {A : Type} (g : A -> R) (l : list A) (a0 : R) :
  fold_left F.add (map (fun a => Fin (g a)) l) (Fin a0) = Fin (a0 + rsum g l).
Proof.
  revert a0. induction l as [| a l IH]; intros a0.
  - cbn [map fold_left rsum fold_right]. f_equal. lra.
  - cbn [map fold_left rsum fold_right].
    change (F.add (Fin a0) (Fin (g a))) with (Fin (a0 + g a)).
    rewrite IH. f_equal. unfold rsum. lra.
Qed.

Lemma rsum_centred (m : R) (l : list R) :
  rsum (fun x => x - m)%R l
  = (rsum (fun x => x) l - IZR (Z.of_nat (length l)) * m)%R.
Proof.
  induction l as [| x l IH].
  - cbn [rsum fold_right length Z.of_nat]. lra.
  - cbn [rsum fold_right length]. unfold rsum in IH. rewrite IH.
    rewrite Nat2Z.inj_succ, succ_IZR. lra.
Qed.

Lemma finite_list (l : list float) :
  (forall a, In a l -> F.isnan a = false) -> exists rs : list R, l = map Fin rs.
Proof.
  induction l as [| a l IH]; intros H; [exists []; reflexivity |].
  destruct IH as [rs Hrs]; [intros b Hb; apply H; right; exact Hb |].
  destruct a as [| x]; [specialize (H NaN (or_introl eq_refl)); discriminate |].
  exists (x :: rs). rewrite Hrs. reflexivity.
Qed.

Lemma zero_mean_sum (l : list R) (n : Z) :
  Z.of_nat (length l) = n -> 0 < n ->
  fold_left F.add
    (fst (FFTCC2D.subtract_mean (map Fin l)
            (F.div (fold_left F.add (map Fin l) (Fin 0)) (F.of_int n))))
    (Fin 0)
  = Fin 0.
Proof.
  intros Hlen Hn.
  assert (Hnz : IZR n <> 0%R) by (apply not_0_IZR; lia).
  assert (Hsum : fold_left F.add (map Fin l) (Fin 0)
                 = Fin (0 + rsum (fun x => x) l))
    by exact (sum_fin (fun x => x) l 0).
  rewrite Hsum. unfold F.of_int. rewrite div_Fin by exact Hnz.
  rewrite subtract_mean_spec. cbn [fst]. rewrite map_map.
  change (fun x : R => F.sub (Fin x) (Fin ((0 + rsum (fun x0 : R => x0) l) / IZR n)))
    with (fun x : R => Fin (x - (0 + rsum (fun x0 : R => x0) l) / IZR n)).
  rewrite sum_fin, rsum_centred, Hlen. f_equal. field. exact Hnz.
Qed.

(** X10.  Over the exact arithmetic of the idealised [float]: for radii
    of at least 1 whose subset size is an [int] and a reference image of
    finite samples, the reference subset that
    [FFTCC2D::compute] hands to the transform, after the mean is
    subtracted, sums to 0. *)
Theorem mean_subtracted_subset_sums_to_zero :
  forall (est : FFTCC2D.t) (poi : POI2D.t),
  let rx := FFTCC2D.subset_radius_x est in
  let ry := FFTCC2D.subset_radius_y est in
  1 <= rx -> 1 <= ry -> 2 * rx * (2 * ry) <= Int.max_signed ->
  (forall r c : Z, F.isnan (Image2D.eg_mat (FFTCC2D.ref_img est) r c) = false) ->
  let ref := FFTCC2D.ref_subset est poi in
  fold_left F.add (fst (FFTCC2D.subtract_mean ref (FFTCC2D.mean est ref))) (Fin 0)
  = Fin 0.
Proof.
  intros est poi rx ry Hx Hy Hsize Hfin ref.
  destruct (finite_list ref) as [l Hl].
  { subst ref. unfold FFTCC2D.ref_subset. intros a Ha.
    apply in_map_iff in Ha. destruct Ha as [rc [<- _]]. apply Hfin. }
  assert (Hlen : Z.of_nat (length l) = FFTCC2D.subset_size est).
  { rewrite <- (length_map Fin l), <- Hl. subst ref.
    unfold FFTCC2D.ref_subset, FFTCC2D.points. rewrite length_map, grid_length.
    rewrite (subset_size_value est Hx Hy Hsize).
    unfold FFTCC2D.subset_width, FFTCC2D.subset_height.
    fold rx ry. rewrite (doubled_in_range rx), (doubled_in_range ry) by nia.
    rewrite Nat2Z.inj_mul, !Z2Nat.id by lia. lia. }
  unfold FFTCC2D.mean. rewrite Hl. apply zero_mean_sum; [exact Hlen |].
  rewrite (subset_size_value est Hx Hy Hsize). fold rx ry. nia.
Qed.

(** Radii [(1, 1)] on the textureless image. *)
Lemma mean_subtracted_subset_sums_to_zero_witness :
  (1 <= 1 /\ 2 * 1 * (2 * 1) <= Int.max_signed) /\
  fold_left F.add
    (fst (FFTCC2D.subtract_mean
            (FFTCC2D.ref_subset Example.fftcc Example.poi_middle)
            (FFTCC2D.mean Example.fftcc
               (FFTCC2D.ref_subset Example.fftcc Example.poi_middle))))
    (Fin 0)
  = Fin 0.
Proof.
  assert (H : 1 <= 1 /\ 2 * 1 * (2 * 1) <= Int.max_signed).
  { unfold Int.max_signed. lia. }
  split; [exact H |].
  exact (mean_subtracted_subset_sums_to_zero Example.fftcc Example.poi_middle
           (proj1 H) (proj1 H) (proj2 H) (fun _ _ => eq_refl)).
Defined.

Lemma range_succ (n : nat) :
  range (Z.of_nat (S n)) = range (Z.of_nat n) ++ [Z.of_nat n].
Proof.
  unfold range. rewrite !Nat2Z.id. rewrite seq_S, map_app. reflexivity.
Qed.

Lemma geb_below (a m b : float) :
  F.gtb a m = false -> F.gtb b m = true -> F.geb a b = false.
Proof.
  destruct a as [| x], m as [| y], b as [| z]; try reflexivity; try discriminate.
  intros H1 H2. apply gtb_Fin in H2.
  unfold F.gtb in H1. apply ltb_Fin_false in H1.
  unfold F.geb. apply leb_Fin_false. lra.
Qed.

Lemma search_first (zncc : list float) (n : nat) :
  let m := FFTCC2D.search_max zncc (Z.of_nat n) in
  (forall i, 0 <= i < Z.of_nat n -> F.gtb (nth (Z.to_nat i) zncc NaN) (fst m) = false) /\
  0 <= snd m /\
  (forall i, 0 <= i < snd m -> F.geb (nth (Z.to_nat i) zncc NaN) (fst m) = false) /\
  ((forall i, 0 <= i < Z.of_nat n ->
      F.gtb (nth (Z.to_nat i) zncc NaN) (F.of_int (-2)) = false) ->
   m = (F.of_int (-2), 0)).
Proof.
  cbv zeta. unfold FFTCC2D.search_max.
  induction n as [| n IH].
  - cbn [range Z.to_nat Z.of_nat seq map fold_left fst snd].
    repeat split; try lia; intros; lia.
  - rewrite range_succ, fold_left_app. cbn [fold_left].
    destruct IH as [Ha [H0 [Hb Hs]]].
    set (m := fold_left (FFTCC2D.search_step zncc) (range (Z.of_nat n)) (F.of_int (-2), 0)) in *.
    unfold FFTCC2D.search_step.
    destruct (F.gtb (nth (Z.to_nat (Z.of_nat n)) zncc NaN) (fst m)) eqn:Hgt.
    + cbn [fst snd]. split; [| split; [lia | split]].
      * intros i Hi. destruct (Z.eq_dec i (Z.of_nat n)) as [-> | Hne].
        { apply gtb_irrefl. }
        apply (gtb_trans_false _ (fst m)); [apply Ha; lia | exact Hgt].
      * intros i Hi. apply (geb_below _ (fst m)); [apply Ha; lia | exact Hgt].
      * intros Hall. exfalso.
        assert (Hm : m = (F.of_int (-2), 0)).
        { apply Hs. intros i Hi. apply Hall. lia. }
        rewrite Hm in Hgt. cbn [fst] in Hgt.
        rewrite Hall in Hgt by lia. discriminate.
    + split; [| split; [exact H0 | split; [exact Hb |]]].
      * intros i Hi. destruct (Z.eq_dec i (Z.of_nat n)) as [-> | Hne];
          [exact Hgt | apply Ha; lia].
      * intros Hall. apply Hs. intros i Hi. apply Hall. lia.
Qed.

(** X11.  The search of lines 292-301 keeps the first of equal maxima:
    no value before the index it returns is at or above the maximum it
    returns (the test is a strict [>]); and when no value of the surface
    is above the start value [-2], as when every value is [NaN], it
    returns the start value with index 0. *)
Theorem search_max_keeps_first_peak :
  forall (zncc : list float) (subset_size : Z),
  let m := FFTCC2D.search_max zncc subset_size in
  0 <= snd m /\
  (forall i, 0 <= i < snd m -> F.geb (nth (Z.to_nat i) zncc NaN) (fst m) = false) /\
  ((forall i, 0 <= i < subset_size ->
      F.gtb (nth (Z.to_nat i) zncc NaN) (F.of_int (-2)) = false) ->
   m = (F.of_int (-2), 0)).
Proof.
  intros zncc n. cbv zeta.
  destruct (Z.le_gt_cases 0 n) as [Hn | Hn].
  - destruct (search_first zncc (Z.to_nat n)) as [_ [H0 [Hb Hs]]].
    rewrite Z2Nat.id in * by exact Hn. auto.
  - unfold FFTCC2D.search_max, range.
    replace (Z.to_nat n) with 0%nat by lia.
    cbn [seq map fold_left fst snd]. repeat split; try lia; intros; lia.
Qed.

Lemma mod_wrapped (n m : Z) : 0 <= m < n -> (m - n) mod n = m /\ m mod n = m.
Proof.
  intros H. split.
  - symmetry. apply (Z.mod_unique_pos (m - n) n (-1) m); lia.
  - apply Z.mod_small. exact H.
Qed.

Lemma encode_decode (rx ry k : Z) :
  1 <= rx -> 1 <= ry -> 2 * rx * (2 * ry) <= Int.max_signed ->
  0 <= k < 2 * rx * (2 * ry) ->
  encode rx ry (FFTCC2D.decode rx ry k) = k.
Proof.
  intros Hx Hy Hsize Hk.
  assert (Hmx : 2 * rx <= Int.max_signed) by nia.
  assert (Hmy : 2 * ry <= Int.max_signed) by nia.
  destruct (decode_spec rx ry k Hx Hy Hmx Hmy Hk) as [Hdec _].
  cbv zeta in Hdec. rewrite Hdec. unfold encode. cbn [fst snd].
  assert (Hmod : 0 <= k mod (2 * rx) < 2 * rx) by (apply Z.mod_pos_bound; lia).
  assert (Hdiv : 0 <= k / (2 * rx) < 2 * ry).
  { split; [apply Z.div_pos; lia | apply Z.div_lt_upper_bound; lia]. }
  pose proof (Z.div_mod k (2 * rx)) as Hdm.
  destruct (mod_wrapped (2 * rx) (k mod (2 * rx)) Hmod) as [Hu1 Hu2].
  destruct (mod_wrapped (2 * ry) (k / (2 * rx)) Hdiv) as [Hv1 Hv2].
  destruct (k mod (2 * rx) >? rx); destruct (k / (2 * rx) >? ry);
    rewrite ?Hu1, ?Hu2, ?Hv1, ?Hv2; lia.
Qed.

Lemma decode_encode (rx ry du dv : Z) :
  1 <= rx -> 1 <= ry -> 2 * rx * (2 * ry) <= Int.max_signed ->
  - rx < du <= rx -> - ry < dv <= ry ->
  0 <= encode rx ry (du, dv) < 2 * rx * (2 * ry) /\
  FFTCC2D.decode rx ry (encode rx ry (du, dv)) = (du, dv).
Proof.
  intros Hx Hy Hsize Hu Hv.
  assert (Hmx : 2 * rx <= Int.max_signed) by nia.
  assert (Hmy : 2 * ry <= Int.max_signed) by nia.
  unfold encode. cbn [fst snd].
  assert (Hm : 0 <= du mod (2 * rx) < 2 * rx) by (apply Z.mod_pos_bound; lia).
  assert (Hq : 0 <= dv mod (2 * ry) < 2 * ry) by (apply Z.mod_pos_bound; lia).
  assert (Hmv : du mod (2 * rx) = if du <? 0 then du + 2 * rx else du).
  { destruct (du <? 0) eqn:Hneg.
    - apply Z.ltb_lt in Hneg. symmetry.
      apply (Z.mod_unique_pos du (2 * rx) (-1) (du + 2 * rx)); lia.
    - apply Z.ltb_ge in Hneg. apply Z.mod_small. lia. }
  assert (Hqv : dv mod (2 * ry) = if dv <? 0 then dv + 2 * ry else dv).
  { destruct (dv <? 0) eqn:Hneg.
    - apply Z.ltb_lt in Hneg. symmetry.
      apply (Z.mod_unique_pos dv (2 * ry) (-1) (dv + 2 * ry)); lia.
    - apply Z.ltb_ge in Hneg. apply Z.mod_small. lia. }
  set (m := du mod (2 * rx)) in *. set (q := dv mod (2 * ry)) in *.
  assert (Hk : 0 <= q * (2 * rx) + m < 2 * rx * (2 * ry)) by nia.
  split; [exact Hk |].
  destruct (decode_spec rx ry (q * (2 * rx) + m) Hx Hy Hmx Hmy Hk) as [Hdec _].
  cbv zeta in Hdec. rewrite Hdec.
  assert (Hmod : (q * (2 * rx) + m) mod (2 * rx) = m).
  { symmetry. apply (Z.mod_unique_pos _ (2 * rx) q m); lia. }
  assert (Hdiv : (q * (2 * rx) + m) / (2 * rx) = q).
  { symmetry. apply (Z.div_unique_pos _ (2 * rx) q m); lia. }
  rewrite Hmod, Hdiv.
  clear Hdec Hmod Hdiv Hk. revert Hmv Hqv.
  destruct (Z.ltb_spec du 0); destruct (Z.ltb_spec dv 0);
    destruct (Z.gtb_spec m rx); destruct (Z.gtb_spec q ry);
    intros; f_equal; lia.
Qed.

(** X12.  For radii of at least 1 whose subset size is an [int], the
    decoding of lines 302-308 is a bijection between the indices
    [0 .. 2rx * 2ry) of the surface and the displacements with
    [-rx < du <= rx] and [-ry < dv <= ry]: [encode] inverts it. *)
Theorem decode_is_a_bijection :
  forall rx ry : Z,
  1 <= rx -> 1 <= ry -> 2 * rx * (2 * ry) <= Int.max_signed ->
  (forall k : Z, 0 <= k < 2 * rx * (2 * ry) ->
     encode rx ry (FFTCC2D.decode rx ry k) = k) /\
  (forall du dv : Z, - rx < du <= rx -> - ry < dv <= ry ->
     0 <= encode rx ry (du, dv) < 2 * rx * (2 * ry) /\
     FFTCC2D.decode rx ry (encode rx ry (du, dv)) = (du, dv)).
Proof.
  intros rx ry Hx Hy Hsize. split.
  - intros k Hk. apply encode_decode; assumption.
  - intros du dv Hu Hv. apply decode_encode; assumption.
Qed.

(** Radii [(2, 2)], index 7 and displacement [(-1, 2)]. *)
Lemma decode_is_a_bijection_witness :
  (1 <= 2 /\ 2 * 2 * (2 * 2) <= Int.max_signed) /\
  encode 2 2 (FFTCC2D.decode 2 2 7) = 7 /\
  FFTCC2D.decode 2 2 (encode 2 2 (-1, 2)) = (-1, 2).
Proof.
  assert (H : 1 <= 2 /\ 2 * 2 * (2 * 2) <= Int.max_signed).
  { unfold Int.max_signed. lia. }
  split; [exact H |].
  destruct (decode_is_a_bijection 2 2 (proj1 H) (proj1 H) (proj2 H)) as [H1 H2].
  split.
  - apply H1. lia.
  - apply (H2 (-1) 2); lia.
Defined.

Lemma wrap_bounds (z : Z) : Int.min_signed <= Int.wrap z <= Int.max_signed.
Proof.
  unfold Int.wrap, Int.min_signed, Int.max_signed, Int.modulus.
  pose proof (Z.mod_pos_bound (z - -2147483648) 4294967296). lia.
Qed.

Lemma pool_fill_got {Inst : Type} (allocate : nat -> Inst) (n tid : Z) (inst : Inst) :
  pool_getInstance (pool_fill allocate n) tid = Got inst ->
  exists slot : nat, inst = allocate slot.
Proof.
  unfold pool_getInstance.
  destruct (tid >=? pool_size (pool_fill allocate n)); [discriminate |].
  destruct (tid <? 0); [discriminate |].
  destruct (nth_error (pool_fill allocate n) (Z.to_nat tid)) as [i |] eqn:E;
    [| discriminate].
  intros H. injection H as <-.
  apply nth_error_In in E. unfold pool_fill in E.
  apply in_map_iff in E. destruct E as [slot [Hs _]]. exists slot. symmetry. exact Hs.
Qed.

(** X13.  On an estimator built by the constructor, every index that
    the loops of [FFTCC2D::compute] over [subset_size] and
    [buffer_length] visit is inside the buffers that [FFTW::allocate]
    gave the instance of the thread, whatever the radii, overflow
    included. *)
Theorem compute_stays_in_the_allocated_buffers :
  forall (subset_radius_x subset_radius_y thread_number : Z)
         (ref_img tar_img : Image2D.t) (tid : Z) (inst : FFTW.t),
  let est := FFTCC2D.new subset_radius_x subset_radius_y thread_number
                         ref_img tar_img in
  FFTCC2D.getInstance est tid = Got inst ->
  (forall i : Z, In i (range (FFTCC2D.subset_size est)) ->
     0 <= i < FFTW.subset_size inst) /\
  (forall n : Z,
     In n (range (Int.mul (FFTCC2D.subset_width est)
                          (Int.add (FFTCC2D.subset_radius_y est) 1))) ->
     0 <= n < FFTW.buffer_length inst).
Proof.
  intros rx ry threads ref tar tid inst est Hinst.
  destruct (pool_fill_got _ _ _ _ Hinst) as [slot ->].
  unfold FFTW.subset_size, FFTW.buffer_length. cbn [FFTW.allocate FFTW.radius_x FFTW.radius_y].
  unfold FFTCC2D.subset_size, FFTCC2D.subset_width, FFTCC2D.subset_height.
  cbn [est FFTCC2D.new FFTCC2D.subset_radius_x FFTCC2D.subset_radius_y].
  replace (Int.mul 2 rx) with (Int.mul rx 2) by (unfold Int.mul; f_equal; lia).
  replace (Int.mul 2 ry) with (Int.mul ry 2) by (unfold Int.mul; f_equal; lia).
  split.
  - intros i Hi. apply in_range_iff in Hi.
    pose proof (wrap_bounds (Int.mul rx 2 * Int.mul ry 2)) as Hb.
    fold (Int.mul (Int.mul rx 2) (Int.mul ry 2)) in Hb.
    rewrite Z.mod_small; [exact Hi |].
    unfold Int.max_signed, Int.modulus in *. lia.
  - intros n Hn. apply in_range_iff in Hn. exact Hn.
Qed.

(** Radii [(1, 1)]: index 3 of four. *)
Lemma compute_stays_in_the_allocated_buffers_witness :
  0 <= 3 < FFTW.subset_size (FFTW.allocate 1 1 0).
Proof.
  refine (proj1 (compute_stays_in_the_allocated_buffers 1 1 1 Example.image Example.image
                   0 (FFTW.allocate 1 1 0) example_instance_fftcc) 3 _).
  apply in_range_iff.
  change (FFTCC2D.subset_size (FFTCC2D.new 1 1 1 Example.image Example.image)) with 4.
  lia.
Defined.

Lemma sticky_fold {A : Type} (f : float -> A -> float) (l : list A) :
  (forall a, f NaN a = NaN) -> fold_left f l NaN = NaN.
Proof.
  intros H. induction l as [| a l IH]; [reflexivity |].
  cbn [fold_left]. rewrite H. exact IH.
Qed.

Lemma sum_with_nan (l : list float) (a : float) :
  In NaN l -> fold_left F.add l a = NaN.
Proof.
  revert a. induction l as [| b l IH]; intros a Hin; [destruct Hin |].
  cbn [fold_left]. destruct Hin as [-> | Hin].
  - rewrite add_NaN_r. apply sticky_fold. reflexivity.
  - apply IH. exact Hin.
Qed.

Lemma norm_with_nan_mean (buf : list float) (mean : float) :
  buf <> [] -> mean = NaN ->
  snd (FFTCC2D.subtract_mean buf mean) = NaN.
Proof.
  intros Hbuf ->. rewrite subtract_mean_spec. cbn [snd]. unfold squaredNorm.
  destruct buf as [| a buf]; [contradiction |].
  cbn [map fold_left].
  replace (F.sub a NaN) with NaN by (destruct a; reflexivity).
  cbn [F.mul F.add F.lift2]. apply sticky_fold. reflexivity.
Qed.

Lemma mean_with_nan (est : FFTCC2D.t) (buf : list float) :
  In NaN buf -> FFTCC2D.mean est buf = NaN.
Proof.
  intros H. unfold FFTCC2D.mean. rewrite sum_with_nan by exact H. reflexivity.
Qed.

(** X14.  [FFTCC2D::compute] does not test the samples: when a sample
    of the reference subset or of the target subset is [NaN], it returns
    with [result.zncc = NaN], whatever the transform gives. *)
Theorem nan_sample_gives_nan_zncc :
  forall (L : FFTW.library) (est : FFTCC2D.t) (tid : Z) (inst : FFTW.t)
         (poi : POI2D.t),
  FFTCC2D.getInstance est tid = Got inst ->
  In NaN (FFTCC2D.ref_subset est poi) \/ In NaN (FFTCC2D.tar_subset est poi) ->
  snd (FFTCC2D.compute L est tid poi) = Returned /\
  Result2D.zncc (POI2D.result (fst (FFTCC2D.compute L est tid poi))) = NaN.
Proof.
  intros L est tid inst poi Hinst Hnan.
  unfold FFTCC2D.compute. rewrite Hinst. cbn [fst snd]. split; [reflexivity |].
  unfold FFTCC2D.store. cbn [POI2D.result Result2D.zncc].
  unfold FFTCC2D.work. cbn [FFTCC2D.ref_norm FFTCC2D.tar_norm FFTCC2D.max_zncc].
  assert (Hnorm : F.mul (snd (FFTCC2D.subtract_mean (FFTCC2D.ref_subset est poi)
                                (FFTCC2D.mean est (FFTCC2D.ref_subset est poi))))
                        (snd (FFTCC2D.subtract_mean (FFTCC2D.tar_subset est poi)
                                (FFTCC2D.mean est (FFTCC2D.tar_subset est poi))))
                  = NaN).
  { destruct Hnan as [H | H].
    - rewrite (norm_with_nan_mean (FFTCC2D.ref_subset est poi));
        [reflexivity | intros E; rewrite E in H; destruct H | apply mean_with_nan, H].
    - rewrite (norm_with_nan_mean (FFTCC2D.tar_subset est poi));
        [apply mul_NaN_r | intros E; rewrite E in H; destruct H | apply mean_with_nan, H]. }
  rewrite Hnorm. cbn [F.sqrt F.mul F.lift2].
  destruct (fst (FFTCC2D.search_max _ _)); reflexivity.
Qed.

Lemma example_blank_instance :
  FFTCC2D.getInstance Example.fftcc_blank 0 = Got (FFTW.allocate 1 1 0).
Proof. reflexivity. Qed.

Lemma example_blank_subset :
  In NaN (FFTCC2D.ref_subset Example.fftcc_blank Example.poi_middle)
  \/ In NaN (FFTCC2D.tar_subset Example.fftcc_blank Example.poi_middle).
Proof. left. left. reflexivity. Qed.

(** A reference frame without a valid sample. *)
Lemma nan_sample_gives_nan_zncc_witness :
  Result2D.zncc
    (POI2D.result (fst (FFTCC2D.compute Example.fftw Example.fftcc_blank 0
                          Example.poi_middle)))
  = NaN.
Proof.
  exact (proj2 (nan_sample_gives_nan_zncc Example.fftw Example.fftcc_blank 0
                  (FFTW.allocate 1 1 0) Example.poi_middle
                  example_blank_instance example_blank_subset)).
Defined.

Lemma to_int_negative (r : R) :
  (r <= -1)%R -> (IZR Int.min_signed <= r)%R -> F.to_int (Fin r) <= -1.
Proof.
  intros Hr Hmin. unfold F.to_int.
  destruct (Rle_dec 0 r) as [H | _]; [lra |].
  destruct (archimed (- r)) as [H1 H2].
  assert (Hup : 2 <= up (- r)).
  { assert (1 < up (- r)); [| lia]. apply lt_IZR. lra. }
  assert (Hlow : up (- r) <= 2147483649).
  { assert (up (- r) < 2147483650); [| lia]. apply lt_IZR.
    unfold Int.min_signed in Hmin. lra. }
  rewrite wrap_in_range; [lia |].
  unfold Int.in_range, Int.min_signed, Int.max_signed. lia.
Qed.

Lemma first_point (est : FFTCC2D.t) :
  1 <= FFTCC2D.subset_radius_x est -> 1 <= FFTCC2D.subset_radius_y est ->
  2 * FFTCC2D.subset_radius_x est <= Int.max_signed ->
  2 * FFTCC2D.subset_radius_y est <= Int.max_signed ->
  In (0, 0) (FFTCC2D.points est).
Proof.
  intros Hx Hy Hmx Hmy. unfold FFTCC2D.points.
  apply in_flat_map. exists 0. split.
  - apply in_range_iff. unfold FFTCC2D.subset_height.
    rewrite (doubled_in_range (FFTCC2D.subset_radius_y est)) by lia. lia.
  - apply in_map. apply in_range_iff. unfold FFTCC2D.subset_width.
    rewrite (doubled_in_range (FFTCC2D.subset_radius_x est)) by lia. lia.
Qed.

(** X15.  [FFTCC2D::compute] makes no boundary test: for radii of at
    least 1 and a POI whose subset reaches a pixel or more left of the
    image ([x - rx <= -1]), it returns as for any POI, having read
    [eg_mat] at a column below 0 for the first point of the subset. *)
Theorem FFTCC2D_makes_no_boundary_test :
  forall (L : FFTW.library) (est : FFTCC2D.t) (tid : Z) (inst : FFTW.t)
         (poi : POI2D.t) (x : R),
  let rx := FFTCC2D.subset_radius_x est in
  let ry := FFTCC2D.subset_radius_y est in
  FFTCC2D.getInstance est tid = Got inst ->
  1 <= rx -> 1 <= ry -> 2 * rx <= Int.max_signed -> 2 * ry <= Int.max_signed ->
  POI2D.x poi = Fin x ->
  (IZR Int.min_signed <= x - IZR rx <= -1)%R ->
  snd (FFTCC2D.compute L est tid poi) = Returned /\
  exists rc : Z * Z,
    In rc (FFTCC2D.points est) /\
    F.to_int (Point2D.x (FFTCC2D.ref_point est poi rc)) <= -1 /\
    In (Image2D.eg_mat (FFTCC2D.ref_img est)
          (F.to_int (Point2D.y (FFTCC2D.ref_point est poi rc)))
          (F.to_int (Point2D.x (FFTCC2D.ref_point est poi rc))))
       (FFTCC2D.ref_subset est poi).
Proof.
  intros L est tid inst poi x rx ry Hinst Hx Hy Hmx Hmy Hpx Hout.
  split; [unfold FFTCC2D.compute; rewrite Hinst; reflexivity |].
  exists (0, 0).
  pose proof (first_point est Hx Hy Hmx Hmy) as Hin.
  split; [exact Hin |]. split.
  - unfold FFTCC2D.ref_point. cbn [Point2D.x snd]. rewrite Hpx.
    unfold F.of_int. cbn [F.add F.sub F.lift2]. fold rx.
    apply to_int_negative; lra.
  - unfold FFTCC2D.ref_subset.
    apply (in_map (fun rc => FFTCC2D.sample (FFTCC2D.ref_img est)
                               (FFTCC2D.ref_point est poi rc))) in Hin.
    exact Hin.
Qed.

Lemma example_edge_reach : (IZR Int.min_signed <= 0 - IZR 1 <= -1)%R.
Proof. unfold Int.min_signed. lra. Qed.

(** Radii [(1, 1)] and a POI on the left border. *)
Lemma FFTCC2D_makes_no_boundary_test_witness :
  (1 <= 1 /\ 2 * 1 <= Int.max_signed) /\
  snd (FFTCC2D.compute Example.fftw Example.fftcc 0 Example.poi_border) = Returned.
Proof.
  assert (H : 1 <= 1 /\ 2 * 1 <= Int.max_signed) by (unfold Int.max_signed; lia).
  split; [exact H |].
  exact (proj1 (FFTCC2D_makes_no_boundary_test Example.fftw Example.fftcc 0
                  (FFTW.allocate 1 1 0) Example.poi_border
                  0 example_instance_fftcc (proj1 H) (proj1 H) (proj2 H) (proj2 H)
                  eq_refl example_edge_reach)).
Defined.

(** ** The speckle size: the shifted matrix and its search *)







Lemma x_search_columns (M : Z -> Z -> float) (h : float) (rx y0 : Z) (p : Z * Z) :
  0 <= rx -> 2 * rx <= Int.max_signed ->
  In p (snd (FFTCC2D.search_rx1 M h (Int.sub rx 1) y0)
        ++ snd (FFTCC2D.search_rx2 M h (Int.sub rx 1) y0)) ->
  fst p = y0 /\ 0 <= snd p <= 2 * rx - 2.
Proof.
  intros Hrx Hmax Hin.
  assert (Hmin : Int.min_signed = - 2147483648) by reflexivity.
  assert (Hmx : Int.max_signed = 2147483647) by reflexivity.
  assert (Hx0 : Int.sub rx 1 = rx - 1).
  { unfold Int.sub. apply wrap_in_range. unfold Int.in_range. lia. }
  rewrite Hx0 in Hin.
  apply in_app_or in Hin. destruct Hin as [Hin | Hin].
  - unfold FFTCC2D.search_rx1 in Hin. apply scan_reads in Hin.
    destruct Hin as [i [Hi Hp]]. apply in_range_iff in Hi.
    apply crossing_reads in Hp.
    assert (H1 : Int.add (rx - 1) i = rx - 1 + i).
    { unfold Int.add. apply wrap_in_range. unfold Int.in_range. lia. }
    assert (H2 : Int.add (rx - 1 + i) 1 = rx + i).
    { unfold Int.add. rewrite wrap_in_range; [lia | unfold Int.in_range; lia]. }
    rewrite H1, H2 in Hp. destruct Hp as [-> | ->]; cbn [fst snd]; lia.
  - unfold FFTCC2D.search_rx2 in Hin. apply scan_reads in Hin.
    destruct Hin as [i [Hi Hp]]. apply in_range_iff in Hi.
    apply crossing_reads in Hp.
    assert (H1 : Int.sub (rx - 1) i = rx - 1 - i).
    { unfold Int.sub. apply wrap_in_range. unfold Int.in_range. lia. }
    assert (H2 : Int.sub (rx - 1 - i) 1 = rx - 2 - i).
    { unfold Int.sub. rewrite wrap_in_range; [lia | unfold Int.in_range; lia]. }
    rewrite H1, H2 in Hp. destruct Hp as [-> | ->]; cbn [fst snd]; lia.
Qed.

Lemma y_search_column (M : Z -> Z -> float) (h : float) (x0 y0 : Z) (p : Z * Z) :
  In p (snd (FFTCC2D.search_ry1 M h x0 y0) ++ snd (FFTCC2D.search_ry2 M h x0 y0)) ->
  snd p = x0.
Proof.
  intros Hin. apply in_app_or in Hin. destruct Hin as [Hin | Hin].
  - unfold FFTCC2D.search_ry1 in Hin. apply scan_reads in Hin.
    destruct Hin as [i [_ Hp]]. apply crossing_reads in Hp.
    destruct Hp as [-> | ->]; reflexivity.
  - unfold FFTCC2D.search_ry2 in Hin. apply scan_reads in Hin.
    destruct Hin as [i [_ Hp]]. apply crossing_reads in Hp.
    destruct Hp as [-> | ->]; reflexivity.
Qed.

(** X17.  For radii of at least 1 whose subset sizes are [int]s, every
    position that the four half-peak loops of lines 395-427 read lies in
    rows [0 .. 2ry - 2] and columns [0 .. 2rx - 2], inside the matrix. *)
Theorem half_peak_reads_in_bounds :
  forall (zncc_matrix : Z -> Z -> float) (half_peak_ratio : float)
         (subset_radius_x subset_radius_y : Z) (p : Z * Z),
  let x0 := Int.sub subset_radius_x 1 in
  let y0 := Int.sub subset_radius_y 1 in
  1 <= subset_radius_x -> 1 <= subset_radius_y ->
  2 * subset_radius_x <= Int.max_signed -> 2 * subset_radius_y <= Int.max_signed ->
  In p (snd (FFTCC2D.search_rx1 zncc_matrix half_peak_ratio x0 y0)
        ++ snd (FFTCC2D.search_rx2 zncc_matrix half_peak_ratio x0 y0)
        ++ snd (FFTCC2D.search_ry1 zncc_matrix half_peak_ratio x0 y0)
        ++ snd (FFTCC2D.search_ry2 zncc_matrix half_peak_ratio x0 y0)) ->
  0 <= fst p <= 2 * subset_radius_y - 2 /\ 0 <= snd p <= 2 * subset_radius_x - 2.
Proof.
  intros M h rx ry p x0 y0 Hx Hy Hmx Hmy Hin.
  assert (Hmin : Int.min_signed = - 2147483648) by reflexivity.
  assert (Hmax : Int.max_signed = 2147483647) by reflexivity.
  assert (Hx0 : x0 = rx - 1).
  { subst x0. unfold Int.sub. apply wrap_in_range. unfold Int.in_range. lia. }
  assert (Hy0 : y0 = ry - 1).
  { subst y0. unfold Int.sub. apply wrap_in_range. unfold Int.in_range. lia. }
  rewrite app_assoc in Hin. apply in_app_or in Hin. destruct Hin as [Hin | Hin].
  - destruct (x_search_columns M h rx y0 p) as [Hr Hc]; [lia | lia | exact Hin |].
    split; [lia | exact Hc].
  - pose proof (y_search_column M h x0 y0 p Hin) as Hc.
    pose proof (y_search_rows M h x0 ry p) as Hr.
    split; [apply Hr; [lia | lia | exact Hin] | lia].
Qed.

Lemma example_column_read :
  In (1, 2) (snd (FFTCC2D.search_rx1 Example.peak (Fin (1 / 2)) (Int.sub 2 1) (Int.sub 2 1))
             ++ snd (FFTCC2D.search_rx2 Example.peak (Fin (1 / 2)) (Int.sub 2 1) (Int.sub 2 1))
             ++ snd (FFTCC2D.search_ry1 Example.peak (Fin (1 / 2)) (Int.sub 2 1) (Int.sub 2 1))
             ++ snd (FFTCC2D.search_ry2 Example.peak (Fin (1 / 2)) (Int.sub 2 1) (Int.sub 2 1))).
Proof.
  apply in_or_app. left.
  change (Int.sub 2 1) with 1.
  unfold FFTCC2D.search_rx1. change (range 1) with [0].
  cbn [FFTCC2D.scan]. change (Int.add 1 0) with 1. change (Int.add 1 1) with 2.
  rewrite (crossing_taken Example.peak (1 / 2) 1 (1 / 4) (1, 1) (1, 2) 1 2
             eq_refl eq_refl) by lra.
  unfold FFTCC2D.crossing.
  change (Example.peak (fst (1, 1)) (snd (1, 1))) with (Fin 1).
  change (Example.peak (fst (1, 2)) (snd (1, 2))) with (Fin (1 / 4)).
  rewrite gtb_Fin_true by lra.
  replace (F.leb (Fin (1 / 4)) (Fin (1 / 2))) with true by (symmetry; apply leb_Fin; lra).
  cbn [snd]. right. left. reflexivity.
Qed.

(** Radius 2 and the peak of the examples: [(1, 2)] is read. *)
Lemma half_peak_reads_in_bounds_witness :
  (1 <= 2 /\ 2 * 2 <= Int.max_signed) /\
  0 <= fst (1, 2) <= 2 * 2 - 2 /\ 0 <= snd (1, 2) <= 2 * 2 - 2.
Proof.
  assert (H : 1 <= 2 /\ 2 * 2 <= Int.max_signed) by (unfold Int.max_signed; lia).
  split; [exact H |].
  exact (half_peak_reads_in_bounds Example.peak (Fin (1 / 2)) 2 2 (1, 2)
           (proj1 H) (proj1 H) (proj2 H) (proj2 H) example_column_read).
Defined.

Lemma div_by_zero (a : float) (z : R) : z = 0%R -> F.div a (Fin z) = NaN.
Proof.
  intros ->. destruct a as [| x]; [reflexivity |].
  unfold F.div. destruct (Req_dec_T 0 0) as [_ | H]; [reflexivity | contradiction].
Qed.

Lemma scan_none (step : Z -> option float * FFTCC2D.reads) (l : list Z) :
  (forall i, fst (step i) = None) -> fst (FFTCC2D.scan step l) = Fin 0.
Proof.
  intros H. induction l as [| i l IH]; [reflexivity |].
  cbn [FFTCC2D.scan]. rewrite H. exact IH.
Qed.

Lemma crossing_none (M : Z -> Z -> float) (h : float) (p1 p2 : Z * Z) (a1 a2 : Z) :
  F.gtb (M (fst p1) (snd p1)) h = false ->
  fst (FFTCC2D.crossing M h p1 p2 a1 a2) = None.
Proof. intros H. unfold FFTCC2D.crossing. rewrite H. reflexivity. Qed.

Lemma speckle_size_flat (M : Z -> Z -> float) (h : float) (rx ry : Z) :
  (forall r c, F.gtb (M r c) h = false) ->
  FFTCC2D.speckle_size M h rx ry = Point2D.mk (Fin 0) (Fin 0).
Proof.
  intros H. unfold FFTCC2D.speckle_size.
  unfold FFTCC2D.search_rx1, FFTCC2D.search_rx2, FFTCC2D.search_ry1, FFTCC2D.search_ry2.
  rewrite !scan_none by (intros i; apply crossing_none, H).
  unfold F.sub, F.lift2. f_equal; f_equal; lra.
Qed.

Lemma shifted_flat (est : FFTCC2D.t) (zncc : list float) (z : R) (r c : Z) :
  z = 0%R ->
  FFTCC2D.shifted est zncc (Fin z) r c = NaN \/
  FFTCC2D.shifted est zncc (Fin z) r c = Fin 0.
Proof.
  intros Hz. unfold FFTCC2D.shifted.
  assert (H0 : (fun _ _ : Z => Fin 0) r c = NaN \/ (fun _ _ : Z => Fin 0) r c = Fin 0)
    by (right; reflexivity).
  revert H0. generalize (fun _ _ : Z => Fin 0).
  induction (range (FFTCC2D.subset_size est)) as [| i l IH]; intros m Hm; [exact Hm |].
  cbn [fold_left]. apply IH. unfold FFTCC2D.set.
  destruct ((r =? fst (FFTCC2D.shift est i)) && (c =? snd (FFTCC2D.shift est i)));
    [left; apply div_by_zero; exact Hz | exact Hm].
Qed.

(** X18.  On a reference subset without texture (the sum of squares of
    its zero-mean values is 0) and for a ratio that is not negative,
    [determineSpeckleSize] finds no crossing and returns the size
    [(0, 0)]. *)
Theorem speckle_size_of_a_flat_subset :
  forall (L : FFTW.library) (est : FFTCC2D.t) (tid : Z) (inst : FFTW.t)
         (poi : POI2D.t) (h : R),
  FFTCC2D.getInstance est tid = Got inst ->
  snd (FFTCC2D.autocorrelation L est inst poi) = Fin 0 ->
  (0 <= h)%R ->
  FFTCC2D.determineSpeckleSize L est tid poi (Fin h) = Got (Point2D.mk (Fin 0) (Fin 0)).
Proof.
  intros L est tid inst poi h Hinst Hnorm Hh.
  unfold FFTCC2D.determineSpeckleSize. rewrite Hinst, Hnorm.
  f_equal. apply speckle_size_flat. intros r c.
  unfold F.mul, F.of_int, F.lift2.
  destruct (shifted_flat est (fst (FFTCC2D.autocorrelation L est inst poi))
              (0 * IZR (FFTCC2D.subset_size est)) r c) as [H | H];
    [lra | rewrite H; reflexivity | rewrite H; apply gtb_Fin_false; exact Hh].
Qed.

Lemma example_flat_norm :
  snd (FFTCC2D.autocorrelation Example.fftw Example.fftcc (FFTW.allocate 1 1 0)
         Example.poi_middle) = Fin 0.
Proof.
  unfold FFTCC2D.autocorrelation. cbn [snd].
  rewrite example_ref_subset, example_mean, subtract_mean_spec. cbn [snd].
  unfold squaredNorm. cbn [map fold_left F.sub F.mul F.add F.lift2].
  f_equal. lra.
Qed.

(** The textureless image at ratio 1/2. *)
Lemma speckle_size_of_a_flat_subset_witness :
  (0 <= 1 / 2)%R /\
  FFTCC2D.determineSpeckleSize Example.fftw Example.fftcc 0 Example.poi_middle
    (Fin (1 / 2))
  = Got (Point2D.mk (Fin 0) (Fin 0)).
Proof.
  assert (H : (0 <= 1 / 2)%R) by lra.
  split; [exact H |].
  exact (speckle_size_of_a_flat_subset Example.fftw Example.fftcc 0 (FFTW.allocate 1 1 0)
           Example.poi_middle (1 / 2) example_instance_fftcc example_flat_norm H).
Defined.

(** ** FFTCC3D *)

Lemma pool_getInstance_negative {Inst : Type} (pool : list Inst) (tid : Z) :
  tid < 0 -> 0 <= pool_size pool -> pool_getInstance pool tid = OutOfBounds.
Proof.
  intros Hneg Hsize. unfold pool_getInstance.
  destruct (tid >=? pool_size pool) eqn:Hge; [lia |].
  destruct (tid <? 0) eqn:Hlt; [reflexivity | lia].
Qed.

(** X19.  On an FFTCC3D estimator constructed with [thread_number = n]:
    for [tid >= n], [getInstance] raises and [compute] leaves the POI as
    it was; for [0 <= tid < n] it returns the instance allocated in pass
    [tid]; a negative [tid] passes the test and reads outside the
    pool. *)
Theorem FFTCC3D_getInstance_checks_thread_id :
  forall (n tid : Z), 0 <= n <= Int.max_signed ->
  forall (rx ry rz : Z) (ref tar : Image3D.t) (L : FFTW3D.library) (poi : POI3D.t),
  let fftcc := FFTCC3D.new rx ry rz n ref tar in
  (tid >= n ->
   FFTCC3D.getInstance fftcc tid = Raise over_limit /\
   FFTCC3D.compute L fftcc tid poi = (poi, Thrown over_limit)) /\
  (0 <= tid < n ->
   FFTCC3D.getInstance fftcc tid = Got (FFTW3D.allocate rx ry rz (Z.to_nat tid))) /\
  (tid < 0 ->
   FFTCC3D.getInstance fftcc tid = OutOfBounds /\
   FFTCC3D.compute L fftcc tid poi = (poi, Undefined)).
Proof.
  intros n tid Hn rx ry rz ref tar L poi fftcc.
  assert (Hsize : pool_size (FFTCC3D.instance_pool fftcc) = n).
  { subst fftcc. cbn [FFTCC3D.new FFTCC3D.instance_pool]. apply pool_fill_size. exact Hn. }
  split; [| split].
  - intros Hge.
    assert (H : FFTCC3D.getInstance fftcc tid = Raise over_limit).
    { unfold FFTCC3D.getInstance. apply pool_getInstance_over. rewrite Hsize. exact Hge. }
    split; [exact H |]. unfold FFTCC3D.compute. rewrite H. reflexivity.
  - intros Htid. unfold FFTCC3D.getInstance. subst fftcc.
    cbn [FFTCC3D.new FFTCC3D.instance_pool]. apply pool_getInstance_got; lia.
  - intros Hneg.
    assert (H : FFTCC3D.getInstance fftcc tid = OutOfBounds).
    { unfold FFTCC3D.getInstance. apply pool_getInstance_negative; [exact Hneg |].
      rewrite Hsize. lia. }
    split; [exact H |]. unfold FFTCC3D.compute. rewrite H. reflexivity.
Qed.

(** One thread and the index -1. *)
Lemma FFTCC3D_getInstance_checks_thread_id_witness :
  0 <= 1 <= Int.max_signed /\
  FFTCC3D.compute Example.fftw3D Example.fftcc3 (-1) Example.poi3_middle
  = (Example.poi3_middle, Undefined).
Proof.
  assert (H : 0 <= 1 <= Int.max_signed) by (unfold Int.max_signed; lia).
  split; [exact H |].
  refine (proj2 (proj2 (proj2 (FFTCC3D_getInstance_checks_thread_id 1 (-1) H 1 1 1
                                 Example.volume Example.volume Example.fftw3D
                                 Example.poi3_middle)) _)).
  lia.
Defined.







(** X21.  On an FFTCC3D estimator built by the constructor, the loops of
    [compute] over [subset_size] stay inside the real buffers of the
    instance, and the loop over [buffer_length] stays inside the complex
    buffers when the [int] length that [FFTW::allocate] asked for is not
    negative; when it is negative (the product overflows), the loop,
    whose bound is [unsigned], still runs, over that length plus
    [2^32]. *)
Theorem FFTCC3D_loops_and_allocated_lengths :
  forall (subset_radius_x subset_radius_y subset_radius_z thread_number : Z)
         (ref_img tar_img : Image3D.t) (tid : Z) (inst : FFTW3D.t),
  let est := FFTCC3D.new subset_radius_x subset_radius_y subset_radius_z
                         thread_number ref_img tar_img in
  let buffer_length :=
    Int.mul (Int.mul (FFTCC3D.subset_dim_x est) (FFTCC3D.subset_dim_y est))
            (Int.add (FFTCC3D.subset_radius_z est) 1) mod Int.modulus in
  FFTCC3D.getInstance est tid = Got inst ->
  (forall i : Z, In i (range (FFTCC3D.subset_size est)) ->
     0 <= i < FFTW3D.subset_size inst) /\
  (0 <= FFTW3D.buffer_length inst ->
   forall n : Z, In n (range buffer_length) -> 0 <= n < FFTW3D.buffer_length inst) /\
  (FFTW3D.buffer_length inst < 0 ->
   buffer_length = FFTW3D.buffer_length inst + Int.modulus /\ In 0 (range buffer_length)).
Proof.
  intros rx ry rz threads ref tar tid inst est len Hinst.
  destruct (pool_fill_got _ _ _ _ Hinst) as [slot ->].
  unfold FFTW3D.subset_size, FFTW3D.buffer_length.
  cbn [FFTW3D.allocate FFTW3D.radius_x FFTW3D.radius_y FFTW3D.radius_z].
  subst len.
  unfold FFTCC3D.subset_size, FFTCC3D.subset_dim_x, FFTCC3D.subset_dim_y,
         FFTCC3D.subset_dim_z.
  cbn [est FFTCC3D.new FFTCC3D.subset_radius_x FFTCC3D.subset_radius_y
       FFTCC3D.subset_radius_z].
  replace (Int.mul 2 rx) with (Int.mul rx 2) by (unfold Int.mul; f_equal; lia).
  replace (Int.mul 2 ry) with (Int.mul ry 2) by (unfold Int.mul; f_equal; lia).
  replace (Int.mul 2 rz) with (Int.mul rz 2) by (unfold Int.mul; f_equal; lia).
  pose proof (wrap_bounds (Int.mul (Int.mul rx 2) (Int.mul ry 2) * Int.mul rz 2)) as Hs.
  fold (Int.mul (Int.mul (Int.mul rx 2) (Int.mul ry 2)) (Int.mul rz 2)) in Hs.
  pose proof (wrap_bounds (Int.mul (Int.mul rx 2) (Int.mul ry 2) * Int.add rz 1)) as Hb.
  fold (Int.mul (Int.mul (Int.mul rx 2) (Int.mul ry 2)) (Int.add rz 1)) in Hb.
  unfold Int.min_signed, Int.max_signed in Hs, Hb. unfold Int.modulus.
  split; [| split].
  - intros i Hi. apply in_range_iff in Hi. rewrite Z.mod_small; lia.
  - intros Hpos n Hn. apply in_range_iff in Hn.
    rewrite Z.mod_small in Hn; lia.
  - intros Hneg.
    assert (E : Int.mul (Int.mul (Int.mul rx 2) (Int.mul ry 2)) (Int.add rz 1)
                mod 4294967296
                = Int.mul (Int.mul (Int.mul rx 2) (Int.mul ry 2)) (Int.add rz 1)
                  + 4294967296).
    { symmetry. apply (Z.mod_unique_pos _ 4294967296 (-1)); lia. }
    split; [exact E |]. apply in_range_iff. rewrite E. lia.
Qed.

Lemma example_overflow_instance :
  FFTCC3D.getInstance (FFTCC3D.new 1024 1024 599 1 Example.volume Example.volume) 0
  = Got (FFTW3D.allocate 1024 1024 599 0).
Proof. reflexivity. Qed.

Lemma example_overflow_length : FFTW3D.buffer_length (FFTW3D.allocate 1024 1024 599 0) < 0.
Proof. reflexivity. Qed.

(** Radii [(1024, 1024, 599)]: the length overflows. *)
Lemma FFTCC3D_loops_and_allocated_lengths_witness :
  FFTW3D.buffer_length (FFTW3D.allocate 1024 1024 599 0) < 0 /\
  In 0 (range (Int.mul (Int.mul (Int.mul 1024 2) (Int.mul 1024 2)) (Int.add 599 1)
               mod Int.modulus)).
Proof.
  split; [exact example_overflow_length |].
  exact (proj2 (proj2 (proj2 (FFTCC3D_loops_and_allocated_lengths 1024 1024 599 1
                                Example.volume Example.volume 0
                                (FFTW3D.allocate 1024 1024 599 0)
                                example_overflow_instance))
                      example_overflow_length)).
Defined.

Lemma crossing3_reads (M : Z -> Z -> Z -> float) (h : float) (p1 p2 : Z * Z * Z)
    (a1 a2 : Z) (p : Z * Z * Z) :
  In p (snd (FFTCC3D.crossing M h p1 p2 a1 a2)) -> p = p1 \/ p = p2.
Proof.
  unfold FFTCC3D.crossing.
  destruct (F.gtb _ h); [destruct (F.leb _ h) |]; simpl; intuition auto.
Qed.

Lemma scan3_reads (step : Z -> option float * FFTCC3D.reads) (l : list Z) (p : Z * Z * Z) :
  In p (snd (FFTCC3D.scan step l)) -> exists i, In i l /\ In p (snd (step i)).
Proof.
  induction l as [| i l IH]; simpl; [intros [] |].
  destruct (fst (step i)); simpl.
  - intros H. exists i. auto.
  - intros H. apply in_app_or in H. destruct H as [H | H].
    + exists i. auto.
    + destruct (IH H) as [j [Hj Hp]]. exists j. auto.
Qed.

(** What a loop that steps up from [c] over [i < n] reads along its axis,
    and what one that steps down reads. *)
Lemma up_steps (c n i : Z) :
  0 <= c -> 0 <= i < n -> c + n <= Int.max_signed ->
  Int.add c i = c + i /\ Int.add (c + i) 1 = c + i + 1.
Proof.
  intros Hc Hi Hmax.
  assert (Hmin : Int.min_signed = - 2147483648) by reflexivity.
  assert (Hmx : Int.max_signed = 2147483647) by reflexivity.
  unfold Int.add. split; apply wrap_in_range; unfold Int.in_range; lia.
Qed.

Lemma down_steps (c n i : Z) :
  0 <= c <= Int.max_signed -> 0 <= i < n -> n <= c ->
  Int.sub c i = c - i /\ Int.sub (c - i) 1 = c - i - 1.
Proof.
  intros Hc Hi Hn.
  assert (Hmin : Int.min_signed = - 2147483648) by reflexivity.
  assert (Hmx : Int.max_signed = 2147483647) by reflexivity.
  unfold Int.sub. split; apply wrap_in_range; unfold Int.in_range; lia.
Qed.

(** X22.  For radii of at least 1 whose subset sizes are [int]s, the
    six half-peak loops of lines 640-691 read the line through
    [(rz - 1, ry - 1, rx - 1)] along their axis only: columns
    [0 .. 2rx - 2] along x, rows [1 .. 2ry - 2] along y (the lower loop
    stops one step before row 0) and planes [1 .. 2rz - 3] along z (both
    loops stop one step early). *)
Theorem FFTCC3D_half_peak_reads :
  forall (zncc_matrix : Z -> Z -> Z -> float) (half_peak_ratio : float)
         (subset_radius_x subset_radius_y subset_radius_z : Z) (p : Z * Z * Z),
  let x0 := Int.sub subset_radius_x 1 in
  let y0 := Int.sub subset_radius_y 1 in
  let z0 := Int.sub subset_radius_z 1 in
  1 <= subset_radius_x -> 1 <= subset_radius_y -> 1 <= subset_radius_z ->
  2 * subset_radius_x <= Int.max_signed ->
  2 * subset_radius_y <= Int.max_signed ->
  2 * subset_radius_z <= Int.max_signed ->
  (In p (snd (FFTCC3D.search_rx1 zncc_matrix half_peak_ratio x0 y0 z0)
         ++ snd (FFTCC3D.search_rx2 zncc_matrix half_peak_ratio x0 y0 z0)) ->
   fst (fst p) = subset_radius_z - 1 /\ snd (fst p) = subset_radius_y - 1 /\
   0 <= snd p <= 2 * subset_radius_x - 2) /\
  (In p (snd (FFTCC3D.search_ry1 zncc_matrix half_peak_ratio x0 y0 z0)
         ++ snd (FFTCC3D.search_ry2 zncc_matrix half_peak_ratio x0 y0 z0)) ->
   fst (fst p) = subset_radius_z - 1 /\ snd p = subset_radius_x - 1 /\
   1 <= snd (fst p) <= 2 * subset_radius_y - 2) /\
  (In p (snd (FFTCC3D.search_rz1 zncc_matrix half_peak_ratio x0 y0 z0)
         ++ snd (FFTCC3D.search_rz2 zncc_matrix half_peak_ratio x0 y0 z0)) ->
   snd (fst p) = subset_radius_y - 1 /\ snd p = subset_radius_x - 1 /\
   1 <= fst (fst p) <= 2 * subset_radius_z - 3).
Proof.
  intros M h rx ry rz p x0 y0 z0 Hx Hy Hz Hmx Hmy Hmz.
  assert (Hmin : Int.min_signed = - 2147483648) by reflexivity.
  assert (Hmax : Int.max_signed = 2147483647) by reflexivity.
  assert (Hx0 : x0 = rx - 1).
  { subst x0. unfold Int.sub. apply wrap_in_range. unfold Int.in_range. lia. }
  assert (Hy0 : y0 = ry - 1).
  { subst y0. unfold Int.sub. apply wrap_in_range. unfold Int.in_range. lia. }
  assert (Hz0 : z0 = rz - 1).
  { subst z0. unfold Int.sub. apply wrap_in_range. unfold Int.in_range. lia. }
  rewrite Hx0, Hy0, Hz0.
  assert (Hy1 : Int.sub (ry - 1) 1 = ry - 2).
  { unfold Int.sub. rewrite wrap_in_range; [lia | unfold Int.in_range; lia]. }
  assert (Hz1 : Int.sub (rz - 1) 1 = rz - 2).
  { unfold Int.sub. rewrite wrap_in_range; [lia | unfold Int.in_range; lia]. }
  split; [| split]; intros Hin; apply in_app_or in Hin; destruct Hin as [Hin | Hin].
  - unfold FFTCC3D.search_rx1 in Hin. apply scan3_reads in Hin.
    destruct Hin as [i [Hi Hp]]. apply in_range_iff in Hi. apply crossing3_reads in Hp.
    destruct (up_steps (rx - 1) (rx - 1) i) as [H1 H2]; [lia | lia | lia |].
    rewrite H1, H2 in Hp. destruct Hp as [-> | ->]; cbn [fst snd]; lia.
  - unfold FFTCC3D.search_rx2 in Hin. apply scan3_reads in Hin.
    destruct Hin as [i [Hi Hp]]. apply in_range_iff in Hi. apply crossing3_reads in Hp.
    destruct (down_steps (rx - 1) (rx - 1) i) as [H1 H2]; [lia | lia | lia |].
    rewrite H1, H2 in Hp. destruct Hp as [-> | ->]; cbn [fst snd]; lia.
  - unfold FFTCC3D.search_ry1 in Hin. apply scan3_reads in Hin.
    destruct Hin as [i [Hi Hp]]. apply in_range_iff in Hi. apply crossing3_reads in Hp.
    destruct (up_steps (ry - 1) (ry - 1) i) as [H1 H2]; [lia | lia | lia |].
    rewrite H1, H2 in Hp. destruct Hp as [-> | ->]; cbn [fst snd]; lia.
  - unfold FFTCC3D.search_ry2 in Hin. rewrite Hy1 in Hin. apply scan3_reads in Hin.
    destruct Hin as [i [Hi Hp]]. apply in_range_iff in Hi. apply crossing3_reads in Hp.
    destruct (down_steps (ry - 1) (ry - 2) i) as [H1 H2]; [lia | lia | lia |].
    rewrite H1, H2 in Hp. destruct Hp as [-> | ->]; cbn [fst snd]; lia.
  - unfold FFTCC3D.search_rz1 in Hin. rewrite Hz1 in Hin. apply scan3_reads in Hin.
    destruct Hin as [i [Hi Hp]]. apply in_range_iff in Hi. apply crossing3_reads in Hp.
    destruct (up_steps (rz - 1) (rz - 2) i) as [H1 H2]; [lia | lia | lia |].
    rewrite H1, H2 in Hp. destruct Hp as [-> | ->]; cbn [fst snd]; lia.
  - unfold FFTCC3D.search_rz2 in Hin. rewrite Hz1 in Hin. apply scan3_reads in Hin.
    destruct Hin as [i [Hi Hp]]. apply in_range_iff in Hi. apply crossing3_reads in Hp.
    destruct (down_steps (rz - 1) (rz - 2) i) as [H1 H2]; [lia | lia | lia |].
    rewrite H1, H2 in Hp. destruct Hp as [-> | ->]; cbn [fst snd]; lia.
Qed.

Lemma example_plane_read :
  In (2, 2, 2) (snd (FFTCC3D.search_rz1 Example.peak3 (Fin (1 / 2)) (Int.sub 3 1) (Int.sub 3 1)
                                   (Int.sub 3 1))
                ++ snd (FFTCC3D.search_rz2 Example.peak3 (Fin (1 / 2)) (Int.sub 3 1) (Int.sub 3 1)
                                      (Int.sub 3 1))).
Proof.
  apply in_or_app. left.
  change (Int.sub 3 1) with 2.
  unfold FFTCC3D.search_rz1. change (range (Int.sub 2 1)) with [0].
  cbn [FFTCC3D.scan]. change (Int.add 2 0) with 2. change (Int.add 2 1) with 3.
  unfold FFTCC3D.crossing.
  destruct (F.gtb _ (Fin (1 / 2))); [destruct (F.leb _ (Fin (1 / 2))) |];
    cbn [fst snd app]; left; reflexivity.
Qed.

(** Radius 3: the search along z starts at plane 2. *)
Lemma FFTCC3D_half_peak_reads_witness :
  (1 <= 3 /\ 2 * 3 <= Int.max_signed) /\ 1 <= fst (fst (2, 2, 2)) <= 2 * 3 - 3.
Proof.
  assert (H : 1 <= 3 /\ 2 * 3 <= Int.max_signed) by (unfold Int.max_signed; lia).
  split; [exact H |].
  exact (proj2 (proj2 (proj2 (proj2 (FFTCC3D_half_peak_reads Example.peak3 (Fin (1 / 2)) 3 3 3
                               (2, 2, 2)
                               (proj1 H) (proj1 H) (proj1 H)
                               (proj2 H) (proj2 H) (proj2 H)))
                         example_plane_read))).
Defined.
